(** * tfm-salinidad-arousa: the ETL scripts, embedded and verified

    Shallow embedding of
      - src/etl/download_bulk.py        (module [DownloadBulk]),
      - src/etl/procesar_ctd.py         (module [ProcesarCtd]),
      - src/data/01_unificar_intecmar.py (module [UnificarIntecmar]).

    Python objects are modelled as follows.
      - [int] is [Z]; a finite [float] is the rational it denotes ([Q]).
      - [str] is [string]; a character is a code point below 256, which
        covers ASCII and the Latin-1 letters of the Galician headers.
      - An exception is a value of [exn]; a call either returns or raises
        ([outcome]).  Only subclasses of [Exception] are modelled.
      - The file system is a finite map from paths to regular files;
        directories are not recorded.
      - What the operating system and the server answer is given by an
        environment, which a theorem quantifies over. *)

From Stdlib Require Import ZArith QArith Lia Bool Ascii String.
From stdpp Require Import base option list gmap strings pretty sorting.

Local Open Scope string_scope.
Local Open Scope list_scope.
Local Open Scope Z_scope.

(** ** Exceptions and outcomes *)

Module Py.

(** The exception classes the scripts distinguish.  [requests.ConnectionError]
    derives from [OSError] and is caught wherever [OSError] is; it is kept
    apart from the builtin [ConnectionError] because
    [check_remote_file_exists] names it. *)
Inductive exn_class : Type :=
| RequestsTimeout
| RequestsConnectionError
| BuiltinConnectionError
| OSError
| OtherException (name : string).

Record exn : Type := Exn { exn_cls : exn_class; exn_msg : string }.

Inductive outcome (A : Type) : Type :=
| Returned (a : A)
| Raised (e : exn).
Arguments Returned {A} a.
Arguments Raised {A} e.

(** Sequencing of calls that may raise. *)
Definition bind {A B : Type} (m : outcome A) (k : A -> outcome B) : outcome B :=
  match m with
  | Returned a => k a
  | Raised e => Raised e
  end.

Notation "x <- m ;; k" := (bind m (fun x => k))
  (at level 100, m at next level, right associativity).

(** [raise None] is a [TypeError]. *)
Definition raise_none : exn :=
  Exn (OtherException "TypeError") "exceptions must derive from BaseException".

Inductive log_level : Type := DEBUG | INFO | WARNING | ERROR.

(** [s.startswith(p)]. *)
Fixpoint startswith (p s : string) : bool :=
  match p, s with
  | EmptyString, _ => true
  | String a p', String b s' => if Ascii.eqb a b then startswith p' s' else false
  | String _ _, EmptyString => false
  end.

(** [p in s] for strings. *)
Fixpoint contains (p s : string) : bool :=
  if startswith p s then true
  else match s with
       | EmptyString => false
       | String _ s' => contains p s'
       end.

(** [s.replace(old, new)] for a non-empty [old]: the occurrences are replaced
    from left to right and do not overlap.  [skip] counts the characters of
    an occurrence just replaced that are still to be dropped. *)
Fixpoint replace_from (old new : string) (skip : nat) (s : string) : string :=
  match s with
  | EmptyString => EmptyString
  | String c s' =>
      match skip with
      | S k => replace_from old new k s'
      | O =>
          if startswith old s
          then (new ++ replace_from old new (String.length old - 1) s')%string
          else String c (replace_from old new O s')
      end
  end.

Definition replace (old new s : string) : string := replace_from old new O s.

(** [c.isspace()] for a code point below 256. *)
Definition isspace (c : ascii) : bool :=
  let n := Ascii.N_of_ascii c in
  ((9 <=? n) && (n <=? 13) || (28 <=? n) && (n <=? 32) || (n =? 133) || (n =? 160))%N.

(** [c.isdigit()] as the [\d] of [re] sees it below 256. *)
Definition isdigit (c : ascii) : bool :=
  let n := Ascii.N_of_ascii c in ((48 <=? n) && (n <=? 57))%N.

(** [c.lower()] for a code point below 256: the ASCII capitals and the
    Latin-1 capitals (all of U+00C0..U+00DE but the multiplication sign). *)
Definition lower_char (c : ascii) : ascii :=
  let n := Ascii.N_of_ascii c in
  if ((65 <=? n) && (n <=? 90) || (192 <=? n) && (n <=? 222) && negb (n =? 215))%N
  then Ascii.ascii_of_N (n + 32)
  else c.

Fixpoint lower (s : string) : string :=
  match s with
  | EmptyString => EmptyString
  | String c s' => String (lower_char c) (lower s')
  end.

Fixpoint lstrip (s : string) : string :=
  match s with
  | EmptyString => EmptyString
  | String c s' => if isspace c then lstrip s' else s
  end.

Fixpoint rstrip (s : string) : string :=
  match s with
  | EmptyString => EmptyString
  | String c s' =>
      match rstrip s' with
      | EmptyString => if isspace c then EmptyString else String c EmptyString
      | r => String c r
      end
  end.

(** [s.strip()]. *)
Definition strip (s : string) : string := rstrip (lstrip s).

(** [os.path.basename(p)]: what follows the last slash. *)
Fixpoint basename (p : string) : string :=
  match p with
  | EmptyString => EmptyString
  | String c p' =>
      if Ascii.eqb c "/"%char then basename p'
      else if contains "/" p' then basename p'
      else p
  end.

End Py.
Import Py.

(** ** download_bulk.py *)

Module DownloadBulk.

(** *** exponential_backoff_retry *)

(** What the wrapper does to the outside, in program order. *)
Inductive event : Type :=
| EvAttempt (attempt : Z)
| EvSleep (delay : Q)
| EvLog (lvl : log_level).

(** [except (requests.Timeout, ConnectionError, OSError)]. *)
Definition recoverable (e : exn) : bool :=
  match exn_cls e with
  | RequestsTimeout | RequestsConnectionError | BuiltinConnectionError
  | OSError => true
  | OtherException _ => false
  end.

(** The value of [base_delay * (2 ** attempt)] for a float [base_delay]. *)
Definition backoff_delay (base_delay : Q) (attempt : Z) : Q :=
  (base_delay * inject_Z (2 ^ attempt))%Q.

(** To multiply it with a float Python converts [2 ** attempt] to a float,
    which raises from [2 ** 1024] on. *)
Definition overflow_error : exn :=
  Exn (OtherException "OverflowError") "int too large to convert to float".

Definition value_error (msg : string) : exn := Exn (OtherException "ValueError") msg.

(** [time.sleep(delay)], what it raises when it refuses the delay.  A delay
    beyond what the clock of the platform takes is an [OverflowError] or an
    [OSError]; where that bound lies is for [sleep_limit] to say.  A
    negative delay is a [ValueError]. *)
Definition time_sleep (sleep_limit : Q -> option exn) (delay : Q) : option exn :=
  match sleep_limit delay with
  | Some e => Some e
  | None =>
      if Qle_bool 0 delay then None
      else Some (value_error "sleep length must be non-negative")
  end.

(** A clock that takes delays of up to [10^9] seconds. *)
Definition clock_limit (delay : Q) : option exn :=
  if Qle_bool (- (1000000000)) delay && Qle_bool delay 1000000000 then None
  else Some (Exn (OtherException "OverflowError")
               "timestamp too large to convert to C _PyTime_t").

Section Retry.
(** A call of [func] with its arguments acts on a state of the world [W]
    and returns or raises. *)
Context {W A : Type}.
Variable sleep_limit : Q -> option exn.
Variable func : W -> outcome A * W.
Variable max_retries : Z.
Variable base_delay : Q.

(** The body of [for attempt in range(max_retries)], with [fuel] the number
    of iterations still to run; once the range is exhausted,
    [raise last_exception].  The delay is computed, logged and slept inside
    the [except] clause: what these raise leaves the loop. *)
Fixpoint retry_loop (fuel : nat) (attempt : Z) (last_exception : option exn)
    (w : W) (tr : list event) : outcome A * W * list event :=
  match fuel with
  | O =>
      (Raised (default raise_none last_exception), w, tr)
  | S fuel' =>
      let '(r, w1) := func w in
      let tr1 := tr ++ [EvAttempt attempt] in
      match r with
      | Returned a => (Returned a, w1, tr1)
      | Raised e =>
          if recoverable e then
            if attempt <? max_retries - 1 then
              if 1024 <=? attempt then (Raised overflow_error, w1, tr1)
              else
                let delay := backoff_delay base_delay attempt in
                match time_sleep sleep_limit delay with
                | Some e' => (Raised e', w1, tr1 ++ [EvLog WARNING])
                | None =>
                    retry_loop fuel' (attempt + 1) (Some e) w1
                      (tr1 ++ [EvLog WARNING; EvSleep delay])
                end
            else
              retry_loop fuel' (attempt + 1) (Some e) w1 (tr1 ++ [EvLog ERROR])
          else
            (Raised e, w1, tr1 ++ [EvLog ERROR])
      end
  end.

Definition exponential_backoff_retry (w : W) : outcome A * W * list event :=
  retry_loop (Z.to_nat max_retries) 0 None w [].

(** The state of the world before the [n]-th call of [func] (counting from
    0) and what that call does, when every earlier call has been made. *)
Fixpoint state_before (w : W) (n : nat) : W :=
  match n with
  | O => w
  | S n' => state_before (snd (func w)) n'
  end.

Definition outcome_of (w : W) (n : nat) : outcome A :=
  fst (func (state_before w n)).

Definition fails_recoverably (w : W) (n : nat) : Prop :=
  exists e, outcome_of w n = Raised e /\ recoverable e = true.
End Retry.

(** The attempts and sleeps of a trace, without the log records. *)
Definition is_schedule (ev : event) : bool :=
  match ev with EvLog _ => false | _ => true end.

Definition schedule (tr : list event) : list event :=
  List.filter is_schedule tr.

Definition attempts (tr : list event) : nat :=
  length (List.filter (fun ev => match ev with EvAttempt _ => true | _ => false end) tr).

(** [n] attempts numbered from [attempt], a sleep of
    [base_delay * 2^attempt] after each attempt but the last. *)
Fixpoint backoff_schedule (base_delay : Q) (attempt : Z) (n : nat) : list event :=
  match n with
  | O => []
  | S O => [EvAttempt attempt]
  | S n' =>
      EvAttempt attempt :: EvSleep (backoff_delay base_delay attempt)
        :: backoff_schedule base_delay (attempt + 1) n'
  end.

(** The behaviour claimed for [exponential_backoff_retry] at one call. *)
Definition retry_contract {W A : Type} (sleep_limit : Q -> option exn)
    (func : W -> outcome A * W) (max_retries : Z) (base_delay : Q) (w : W) : Prop :=
  let n := Z.to_nat max_retries in
  let '(r, w', tr) :=
    exponential_backoff_retry sleep_limit func max_retries base_delay w in
  ((forall i, (i < n)%nat -> fails_recoverably func w i) ->
   exists e, recoverable e = true /\ outcome_of func w (n - 1) = Raised e
             /\ r = Raised e
             /\ w' = state_before func w n
             /\ attempts tr = n
             /\ schedule tr = backoff_schedule base_delay 0 n)
  /\
  (forall (k : nat) (v : A),
      (k < n)%nat ->
      (forall i, (i < k)%nat -> fails_recoverably func w i) ->
      outcome_of func w k = Returned v ->
      r = Returned v
      /\ w' = state_before func w (S k)
      /\ attempts tr = S k
      /\ schedule tr = backoff_schedule base_delay 0 (S k)).

(** A function that times out on every call. *)
Definition always_timeout (w : unit) : outcome bool * unit :=
  (Raised (Exn RequestsTimeout "timed out"), w).

(** *** The world the downloader acts on *)

(** A NetCDF dataset: its variables and the number of elements of each. *)
Abbreviation Dataset := (gmap string Z).

Inductive content : Type :=
| Unreadable
| NetCDF (ds : Dataset).

Record File : Type := mkFile { st_size : Z; file_content : content }.

(** A contact with the THREDDS server. *)
Inductive request : Type :=
| ReqHead (url : string)
| ReqOpen (url : string)
| ReqData (url : string).

Record World : Type := mkWorld {
  fs : gmap string File;
  environ : gmap string string;
  net : list request;
  slept : list Q;
  logged : list log_level
}.

Definition set_fs (f : gmap string File -> gmap string File) (w : World) : World :=
  mkWorld (f (fs w)) (environ w) (net w) (slept w) (logged w).
Definition setenv (k v : string) (w : World) : World :=
  mkWorld (fs w) (<[k:=v]> (environ w)) (net w) (slept w) (logged w).
Definition contact (r : request) (w : World) : World :=
  mkWorld (fs w) (environ w) (net w ++ [r]) (slept w) (logged w).
Definition sleep (d : Q) (w : World) : World :=
  mkWorld (fs w) (environ w) (net w) (slept w ++ [d]) (logged w).
Definition logw (lvl : log_level) (w : World) : World :=
  mkWorld (fs w) (environ w) (net w) (slept w) (logged w ++ [lvl]).
(** A record written by a signal handler, after the first [pos] records. *)
Definition logw_at (pos : nat) (lvl : log_level) (w : World) : World :=
  mkWorld (fs w) (environ w) (net w) (slept w)
    (take pos (logged w) ++ lvl :: drop pos (logged w)).

(** What the world outside the program answers.  Every answer may depend on
    the number of server contacts made so far, so that a retry can be
    answered differently from the first attempt. *)
Inductive head_reply : Type :=
| HeadStatus (status_code : Z)
| HeadRaises (e : exn).

Inductive write_reply : Type :=
| Written (size : Z)
| WriteFailed (e : exn) (partial : option File).

Record Env : Type := mkEnv {
  (** [requests.head(check_url, ...)] *)
  head : nat -> string -> head_reply;
  (** [xr.open_dataset(url, ...)] *)
  open_remote : nat -> string -> outcome Dataset;
  (** [da_prec.to_netcdf(filepath, ...)]: the file is written whole, or the
      call raises and may leave a partial file behind. *)
  to_netcdf : nat -> string -> write_reply;
  (** [killer.kill_now] as read at the start of the [i]-th iteration: a
      signal has arrived since the loop began. *)
  kill_now : nat -> bool;
  (** How many log records had been written when that signal arrived. *)
  signal_after : nat -> nat;
  (** [d.strftime("%Y%m%d")] and [d.strftime("%Y")] of the date of ordinal [d]. *)
  strftime_Ymd : Z -> string;
  strftime_Y : Z -> string;
  (** [filepath.unlink()] of a file that is there: what it raises when the
      system does not let the file go. *)
  unlink : nat -> string -> option exn;
  (** [OUTPUT_DIR.mkdir(parents=True, exist_ok=True)]: what it raises, if
      anything. *)
  mkdir : string -> option exn;
  (** What [time.sleep] raises for a delay beyond what the clock takes. *)
  sleep_limit : Q -> option exn
}.

Record Config : Type := mkConfig {
  START_DATE : Z;
  END_DATE : Z;
  OUTPUT_DIR : string;
  BASE_URL : string;
  MAX_RETRIES : Z;
  RETRY_BASE_DELAY : Q;
  TIMEOUT_SECONDS : Z;
  REQUEST_DELAY : Q;
  MIN_FILE_SIZE : Z
}.

(** The defaults of the dataclass; [today], [output_dir] and [max_retries]
    come from the clock and the process environment.  738034 is the ordinal
    of 2021-09-01. *)
Definition default_config (today : Z) (output_dir : string) (max_retries : Z) : Config :=
  mkConfig 738034 today output_dir
    "https://mandeo.meteogalicia.es/thredds/dodsC/modelos/WRF_ARW_1KM_HIST_Novo"
    max_retries 2%Q 60 (1 # 2)%Q 1000.

(** [__post_init__]: the dates are checked, the output directory is made,
    then [MAX_RETRIES] is checked. *)
Definition post_init (env : Env) (c : Config) : outcome unit :=
  if END_DATE c <? START_DATE c then Raised (value_error "START_DATE")
  else
    match mkdir env (OUTPUT_DIR c) with
    | Some e => Raised e
    | None =>
        if MAX_RETRIES c <? 1 then Raised (value_error "MAX_RETRIES")
        else Returned tt
    end.

(** *** Utilities *)

(** The [n] dates from [current] on. *)
Fixpoint dates_from (current : Z) (n : nat) : list Z :=
  match n with
  | O => []
  | S n' => current :: dates_from (current + 1) n'
  end.

(** A [date] is its proleptic Gregorian ordinal, from [date.min] to
    [date.max]. *)
Definition DATE_MIN : Z := 1.
Definition DATE_MAX : Z := 3652059.

Definition date_overflow : exn :=
  Exn (OtherException "OverflowError") "date value out of range".

(** The generator [date_range(start, end)]: the dates it yields and, when it
    does not end by itself, what it raises after the last of them.  A day
    added to [date.max] is an [OverflowError].  [fuel] bounds the turns of
    the [while] loop. *)
Fixpoint date_range_loop (fuel : nat) (current end_ : Z) : list Z * option exn :=
  match fuel with
  | O => ([], None)
  | S fuel' =>
      if current <=? end_ then
        if DATE_MAX <=? current then ([current], Some date_overflow)
        else
          let '(rest, r) := date_range_loop fuel' (current + 1) end_ in
          (current :: rest, r)
      else ([], None)
  end.

Definition date_range (start end_ : Z) : list Z * option exn :=
  date_range_loop (S (Z.to_nat (end_ - start + 1))) start end_.

Definition validate_netcdf_file (filepath : string) (w : World) : bool * World :=
  match fs w !! filepath with
  | Some (mkFile _ (NetCDF ds)) =>
      match ds !! "prec" with
      | None => (false, logw WARNING w)
      | Some size => if size =? 0 then (false, logw WARNING w) else (true, w)
      end
  | _ => (false, logw WARNING w)
  end.

Definition check_remote_file_exists (env : Env) (url : string) (timeout : Z)
    (w : World) : outcome (option bool) * World :=
  let check_url := replace "dodsC" "fileServer" url in
  let w1 := contact (ReqHead check_url) w in
  match head env (length (net w)) check_url with
  | HeadStatus status_code =>
      if status_code =? 404 then (Returned (Some false), w1)
      else if status_code =? 200 then (Returned (Some true), w1)
      else (Returned None, logw WARNING w1)
  | HeadRaises e =>
      match exn_cls e with
      | RequestsTimeout => (Returned None, logw WARNING w1)
      | RequestsConnectionError => (Returned None, logw WARNING w1)
      | _ => (Raised e, w1)
      end
  end.

(** The [try] block of [download_precipitation_data]. *)
Definition download_try (env : Env) (url filepath : string) (timeout : Z)
    (w : World) : outcome bool * World :=
  let w0 := setenv "XARRAY_NETCDF4_TIMEOUT" (pretty timeout) w in
  let w1 := contact (ReqOpen url) w0 in
  match open_remote env (length (net w0)) url with
  | Raised e => (Raised e, w1)
  | Returned ds =>
      match ds !! "prec" with
      | None => (Returned false, logw ERROR w1)
      | Some n =>
          let w2 := contact (ReqData url) w1 in
          match to_netcdf env (length (net w1)) filepath with
          | WriteFailed e partial =>
              (Raised e,
               set_fs (fun m => match partial with
                                | Some f => <[filepath:=f]> m
                                | None => m
                                end) w2)
          | Written size =>
              (Returned true,
               logw INFO
                 (set_fs (insert filepath (mkFile size (NetCDF {["prec" := n]}))) w2))
          end
      end
  end.

(** The [except Exception] handler: log, remove the partial file if there is
    one, return [False].  What [unlink] raises leaves the handler. *)
Definition download_except (env : Env) (filepath : string) (w : World)
    : outcome bool * World :=
  let w1 := logw ERROR w in
  match fs w1 !! filepath with
  | Some _ =>
      match unlink env (length (net w1)) filepath with
      | Some e => (Raised e, w1)
      | None => (Returned false, logw DEBUG (set_fs (delete filepath) w1))
      end
  | None => (Returned false, w1)
  end.

Definition download_precipitation_data (env : Env) (url filepath : string)
    (timeout : Z) (w : World) : outcome bool * World :=
  match download_try env url filepath timeout w with
  | (Returned b, w1) => (Returned b, w1)
  | (Raised _, w1) => download_except env filepath w1
  end.

(** *** The main loop *)

Record Stats : Type := mkStats {
  existentes : Z;
  descargados : Z;
  no_disponibles : Z;
  errores : Z;
  corruptos_reparados : Z
}.

Definition stats0 : Stats := mkStats 0 0 0 0 0.

Definition inc_existentes (s : Stats) : Stats :=
  mkStats (existentes s + 1) (descargados s) (no_disponibles s) (errores s) (corruptos_reparados s).
Definition inc_descargados (s : Stats) : Stats :=
  mkStats (existentes s) (descargados s + 1) (no_disponibles s) (errores s) (corruptos_reparados s).
Definition inc_no_disponibles (s : Stats) : Stats :=
  mkStats (existentes s) (descargados s) (no_disponibles s + 1) (errores s) (corruptos_reparados s).
Definition inc_errores (s : Stats) : Stats :=
  mkStats (existentes s) (descargados s) (no_disponibles s) (errores s + 1) (corruptos_reparados s).
Definition inc_corruptos_reparados (s : Stats) : Stats :=
  mkStats (existentes s) (descargados s) (no_disponibles s) (errores s) (corruptos_reparados s + 1).

(** The sleeps and log records of a retry trace, replayed on the world. *)
Definition replay (tr : list event) (w : World) : World :=
  fold_left (fun w ev => match ev with
                         | EvSleep d => sleep d w
                         | EvLog lvl => logw lvl w
                         | EvAttempt _ => w
                         end) tr w.

Definition target_path (env : Env) (config : Config) (current_date : Z) : string :=
  (OUTPUT_DIR config ++ "/" ++ strftime_Y env current_date ++ "/"
   ++ "WRF_1km_prec_" ++ strftime_Ymd env current_date ++ ".nc")%string.

Definition source_url (env : Env) (config : Config) (current_date : Z) : string :=
  (BASE_URL config ++ "/" ++ strftime_Ymd env current_date
   ++ "/wrf_arw_det_history_d02_" ++ strftime_Ymd env current_date ++ "_0000.nc4")%string.

(** Step 1 of an iteration: is the target already there and valid?
    [None] stands for [continue].  The two calls of [unlink] are not
    guarded: what they raise leaves [main]. *)
Definition check_existing (env : Env) (config : Config) (filepath : string)
    (stats : Stats) (w : World) : outcome (option unit * Stats) * World :=
  match fs w !! filepath with
  | Some f =>
      if MIN_FILE_SIZE config <? st_size f then
        let '(valid, w1) := validate_netcdf_file filepath w in
        if valid then (Returned (None, inc_existentes stats), logw DEBUG w1)
        else
          let w2 := logw WARNING w1 in
          match unlink env (length (net w2)) filepath with
          | Some e => (Raised e, w2)
          | None =>
              (Returned (Some tt, inc_corruptos_reparados stats),
               set_fs (delete filepath) w2)
          end
      else
        let w1 := logw WARNING w in
        match unlink env (length (net w1)) filepath with
        | Some e => (Raised e, w1)
        | None => (Returned (Some tt, stats), set_fs (delete filepath) w1)
        end
  | None => (Returned (Some tt, stats), w)
  end.

(** Steps 2 and 3: ask the server, download with retries, pause.  The pause
    is the [REQUEST_DELAY] of [Config], half a second, which [time.sleep]
    takes. *)
Definition fetch (env : Env) (config : Config) (url filepath : string)
    (stats : Stats) (w : World) : outcome Stats * World :=
  match check_remote_file_exists env url (TIMEOUT_SECONDS config) w with
  | (Raised e, w1) => (Raised e, w1)
  | (Returned (Some false), w1) => (Returned (inc_no_disponibles stats), logw DEBUG w1)
  | (Returned None, w1) => (Returned (inc_errores stats), logw WARNING w1)
  | (Returned (Some true), w1) =>
      let '(r, w2, tr) :=
        exponential_backoff_retry (sleep_limit env)
          (download_precipitation_data env url filepath (TIMEOUT_SECONDS config))
          (MAX_RETRIES config) (RETRY_BASE_DELAY config) w1 in
      let w3 := replay tr w2 in
      match r with
      | Returned true => (Returned (inc_descargados stats), sleep (REQUEST_DELAY config) w3)
      | Returned false => (Returned (inc_errores stats), sleep (REQUEST_DELAY config) w3)
      | Raised _ =>
          (Returned (inc_errores stats), sleep (REQUEST_DELAY config) (logw ERROR w3))
      end
  end.

(** One iteration of the loop over the dates, after the kill check. *)
Definition process_date (env : Env) (config : Config) (current_date : Z)
    (stats : Stats) (w : World) : outcome Stats * World :=
  let filepath := target_path env config current_date in
  match check_existing env config filepath stats w with
  | (Raised e, w1) => (Raised e, w1)
  | (Returned (None, stats1), w1) => (Returned stats1, w1)
  | (Returned (Some _, stats1), w1) =>
      fetch env config (source_url env config current_date) filepath stats1 w1
  end.

(** The loop over the dates.  A signal sets [kill_now] through the handler
    of [GracefulKiller], which logs a warning of its own at the moment the
    signal arrives; the loop sees the flag at the start of an iteration,
    logs its warning and ends. *)
Fixpoint main_loop (env : Env) (config : Config) (all_dates : list Z) (i : nat)
    (stats : Stats) (w : World) : outcome Stats * World :=
  match all_dates with
  | [] => (Returned stats, w)
  | current_date :: rest =>
      if kill_now env i then
        (Returned stats, logw WARNING (logw_at (signal_after env i) WARNING w))
      else
        match process_date env config current_date stats w with
        | (Returned stats1, w1) => main_loop env config rest (S i) stats1 w1
        | (Raised e, w1) => (Raised e, w1)
        end
  end.

(** The five records that [main] logs before it lists the dates. *)
Definition log_banner (w : World) : World :=
  logw INFO (logw INFO (logw INFO (logw INFO (logw INFO w)))).

(** [main] for the configuration that [Config()] builds: the opening log
    records, the list of the dates, the loop.  What is returned here are
    the counters that [main] prints. *)
Definition main (env : Env) (config : Config) (w : World) : outcome Stats * World :=
  match post_init env config with
  | Raised e => (Raised e, w)
  | Returned _ =>
      let w1 := log_banner w in
      match date_range (START_DATE config) (END_DATE config) with
      | (_, Some e) => (Raised e, w1)
      | (all_dates, None) => main_loop env config all_dates O stats0 w1
      end
  end.

(** *** What the claims say about the downloader *)

(** The counters after an iteration, against the counters before it: one of
    the four outcome counters went up by one, the others are unchanged, and
    [corruptos_reparados] went up by at most one. *)
Definition counts_once (s s' : Stats) : Prop :=
  let de := existentes s' - existentes s in
  let dd := descargados s' - descargados s in
  let dn := no_disponibles s' - no_disponibles s in
  let dr := errores s' - errores s in
  let dc := corruptos_reparados s' - corruptos_reparados s in
  (0 <= de <= 1) /\ (0 <= dd <= 1) /\ (0 <= dn <= 1) /\ (0 <= dr <= 1)
  /\ de + dd + dn + dr = 1
  /\ (0 <= dc <= 1).

(** The [try] block of [download_precipitation_data] raises: the dataset
    cannot be opened, or it holds [prec] and writing the file fails. *)
Definition try_block_raises (env : Env) (url filepath : string) (w : World) : Prop :=
  (exists e, open_remote env (length (net w)) url = Raised e)
  \/ (exists ds n e partial,
        open_remote env (length (net w)) url = Returned ds
        /\ ds !! "prec" = Some n
        /\ to_netcdf env (S (length (net w))) filepath = WriteFailed e partial).

(** What is claimed of [download_precipitation_data] at one call: a failure
    gives [False] and leaves nothing at the target path; [True] comes only
    with the remote [prec] written there. *)
Definition atomic_on_failure (env : Env) (url filepath : string) (timeout : Z)
    (w : World) : Prop :=
  (try_block_raises env url filepath w ->
   exists w',
     download_precipitation_data env url filepath timeout w = (Returned false, w')
     /\ fs w' !! filepath = None)
  /\
  (forall w',
      download_precipitation_data env url filepath timeout w = (Returned true, w') ->
      exists ds n size,
        open_remote env (length (net w)) url = Returned ds
        /\ ds !! "prec" = Some n
        /\ fs w' !! filepath = Some (mkFile size (NetCDF {["prec" := n]}))).

(** A world with one valid file in place, and a server that would answer. *)
Definition valid_file : File := mkFile 52000 (NetCDF {["prec" := 4096]}).

Definition quiet_env : Env :=
  mkEnv (fun _ _ => HeadStatus 200)
        (fun _ _ => Returned {["prec" := 4096]})
        (fun _ _ => Written 52000)
        (fun _ => false) (fun _ => O)
        (fun _ => "20210901") (fun _ => "2021")
        (fun _ _ => None) (fun _ => None) clock_limit.

Definition config0 : Config := default_config 738040 "data/raw/b3/wrf_prec" 3.

Definition world0 : World := mkWorld ∅ ∅ [] [] [].

Definition world_with_file : World :=
  mkWorld {[ target_path quiet_env config0 738034 := valid_file ]} ∅ [] [] [].

(** A server whose dataset cannot be opened. *)
Definition broken_env : Env :=
  mkEnv (fun _ _ => HeadStatus 200)
        (fun _ _ => Raised (Exn OSError "NetCDF: file not found"))
        (fun _ _ => Written 52000)
        (fun _ => false) (fun _ => O)
        (fun _ => "20210901") (fun _ => "2021")
        (fun _ _ => None) (fun _ => None) clock_limit.


(** A server whose dataset lacks the variable. *)
Definition env_sin_prec : Env :=
  mkEnv (fun _ _ => HeadStatus 200)
        (fun _ _ => Returned {["temp" := 4096]})
        (fun _ _ => Written 52000)
        (fun _ => false) (fun _ => O)
        (fun _ => "20210901") (fun _ => "2021")
        (fun _ _ => None) (fun _ => None) clock_limit.

(** A world whose file for 2021-09-01 is a leftover of ten bytes, and a
    server that has no data for that day. *)
Definition world_with_stub : World :=
  mkWorld {[ target_path quiet_env config0 738034 := mkFile 10 Unreadable ]} ∅ [] [] [].

Definition env_404 : Env :=
  mkEnv (fun _ _ => HeadStatus 404)
        (fun _ _ => Returned {["prec" := 4096]})
        (fun _ _ => Written 52000)
        (fun _ => false) (fun _ => O)
        (fun _ => "20210901") (fun _ => "2021")
        (fun _ _ => None) (fun _ => None) clock_limit.

(** A disk that fills up while the file is written, leaving a part of it. *)
Definition env_disk_full : Env :=
  mkEnv (fun _ _ => HeadStatus 200)
        (fun _ _ => Returned {["prec" := 4096]})
        (fun _ _ => WriteFailed (Exn OSError "No space left on device")
                      (Some (mkFile 10 Unreadable)))
        (fun _ => false) (fun _ => O)
        (fun _ => "20210901") (fun _ => "2021")
        (fun _ _ => None) (fun _ => None) clock_limit.

(** The same, in a directory whose files cannot be removed. *)
Definition env_undeletable : Env :=
  mkEnv (fun _ _ => HeadStatus 200)
        (fun _ _ => Returned {["prec" := 4096]})
        (fun _ _ => WriteFailed (Exn OSError "No space left on device")
                      (Some (mkFile 10 Unreadable)))
        (fun _ => false) (fun _ => O)
        (fun _ => "20210901") (fun _ => "2021")
        (fun _ _ => Some (Exn OSError "Permission denied")) (fun _ => None)
        clock_limit.



(** A function that times out once and then fails for good. *)
Definition timeout_then_fatal (calls : nat) : outcome bool * nat :=
  (match calls with
   | O => Raised (Exn RequestsTimeout "timed out")
   | S _ => Raised (Exn (OtherException "KeyError") "prec")
   end, S calls).

(** *** Measures used by the further properties *)

(** The seconds slept in a trace. *)
Fixpoint total_sleep (tr : list event) : Q :=
  match tr with
  | [] => 0%Q
  | EvSleep d :: tr' => (d + total_sleep tr')%Q
  | _ :: tr' => total_sleep tr'
  end.

(** The dates an iteration has accounted for. *)
Definition procesados (s : Stats) : Z :=
  existentes s + descargados s + no_disponibles s + errores s.

End DownloadBulk.

(** ** procesar_ctd.py *)

Module ProcesarCtd.

(** *** detectar_inicio_datos *)

(** Strategy 1: the line holds "odigo" and "stacion". *)
Definition cabecera_texto (line : string) : bool :=
  let line_lower := strip (lower line) in
  contains "odigo" line_lower && contains "stacion" line_lower.

(** Strategy 2: the line holds "var_0" and "var_1" and the next line
    holds "A0". *)
Definition cabecera_variables (line : string) (rest : list string) : bool :=
  let line_lower := strip (lower line) in
  contains "var_0" line_lower && contains "var_1" line_lower
  && match rest with
     | next :: _ => contains "A0" next
     | [] => false
     end.

(** Strategy 3: the line is a data row. *)
Definition fila_datos (line : string) : bool :=
  startswith "A0" (strip line) || startswith "A1" (strip line).

(** The first loop over [enumerate(lines)], from line [i] on. *)
Fixpoint buscar_cabecera (lines : list string) (i : Z) : option Z :=
  match lines with
  | [] => None
  | line :: rest =>
      if cabecera_texto line then Some i
      else if cabecera_variables line rest then Some i
      else buscar_cabecera rest (i + 1)
  end.

(** The second loop over [enumerate(lines)], from line [i] on. *)
Fixpoint buscar_datos (lines : list string) (i : Z) : option Z :=
  match lines with
  | [] => None
  | line :: rest =>
      if fila_datos line then Some (Z.max 0 (i - 1))
      else buscar_datos rest (i + 1)
  end.

(** [file] is what [f.readlines()] gives, or the exception of [open] or of
    the decoding. *)
Definition detectar_inicio_datos (file : outcome (list string)) : Z :=
  match file with
  | Raised _ => -1
  | Returned lines =>
      match buscar_cabecera lines 0 with
      | Some i => i
      | None =>
          match buscar_datos lines 0 with
          | Some i => i
          | None => -1
          end
      end
  end.

(** *** procesar_archivo_ctd *)

Section Procesar.
(** Steps 2 to 8 (read with pandas from [start_line], rename, parse, merge
    the coordinates, reorder) make the frame out of the file; they are a
    parameter here. *)
Context {DataFrame : Type}.
Variable leer_y_transformar : outcome (list string) -> Z -> option DataFrame.

Definition procesar_archivo_ctd (file : outcome (list string)) : option DataFrame :=
  let start_line := detectar_inicio_datos file in
  if start_line <=? 0 then None
  else leer_y_transformar file start_line.
End Procesar.

(** *** What the claims say about the header heuristic *)

(** Line [i] of [lines] is a header by strategy 1, by strategy 2. *)
Definition es_cabecera_texto (lines : list string) (i : nat) : Prop :=
  exists line, lines !! i = Some line /\ cabecera_texto line = true.

Definition es_cabecera_variables (lines : list string) (i : nat) : Prop :=
  exists line, lines !! i = Some line
               /\ cabecera_variables line (drop (S i) lines) = true.

Definition es_fila_datos (lines : list string) (i : nat) : Prop :=
  exists line, lines !! i = Some line /\ fila_datos line = true.

Definition es_cabecera (lines : list string) (i : nat) : Prop :=
  es_cabecera_texto lines i \/ es_cabecera_variables lines i.

Definition sin_patron (lines : list string) : Prop :=
  forall i, ~ es_cabecera_texto lines i /\ ~ es_cabecera_variables lines i
            /\ ~ es_fila_datos lines i.

(** The heuristic as the claim words it: the first line with both substrings
    is the answer. *)
Definition primera_cabecera_texto (lines : list string) (i : nat) : Prop :=
  es_cabecera_texto lines i /\ forall j, (j < i)%nat -> ~ es_cabecera_texto lines j.

Definition heuristic_as_claimed (lines : list string) : Prop :=
  (forall i, primera_cabecera_texto lines i ->
             detectar_inicio_datos (Returned lines) = Z.of_nat i)
  /\ (sin_patron lines -> detectar_inicio_datos (Returned lines) = -1).

(** A file whose variables line comes before the line with the station code. *)
Definition variables_first : list string :=
  [ "VAR_0 VAR_1 VAR_2"; "A0 12,5 35,1 1,0"; "Codigo Estacion Data" ].

(** A file whose first line is the header. *)
Definition header_first : list string :=
  [ "Codigo Estacion Data VAR_0 VAR_1"; "A0 Ribeira 2021/09/01 12,5 35,1" ].

(** Files without a header line: two lines of notes before the data, and one
    line only. *)
Definition datos_sin_cabecera : list string :=
  [ "Ria de Arousa"; "campana 2021"; "A0 12,5 35,1"; "A1 12,7 35,0" ].

Definition datos_en_linea_1 : list string :=
  [ "Ria de Arousa"; "A0 12,5 35,1"; "A1 12,7 35,0" ].

End ProcesarCtd.

(** ** 01_unificar_intecmar.py *)

Module UnificarIntecmar.

(** *** Frames *)

(** A [float64]: a finite value, an infinity or NaN. *)
Inductive float64 : Type :=
| Fin (x : Q)
| Inf (negative : bool)
| NaN.

(** What a cell of a frame holds: a [str], a number, a missing value of an
    object column ([pd.NA], [None]), a [Timestamp] (in minutes) or [NaT]. *)
Inductive cell : Type :=
| CStr (s : string)
| CFloat (x : float64)
| CNA
| CTime (t : Z)
| CNaT.

(** A frame: the column labels, which may repeat, and the rows, each with one
    cell per column. *)
Record DataFrame : Type := mkDF { columns : list string; rows : list (list cell) }.

(** The positions of the columns labelled [name], counted from [i]. *)
Fixpoint posiciones (name : string) (cols : list string) (i : nat) : list nat :=
  match cols with
  | [] => []
  | c :: cols' =>
      if String.eqb c name then i :: posiciones name cols' (S i)
      else posiciones name cols' (S i)
  end.

Definition key_error (name : string) : exn := Exn (OtherException "KeyError") name.

(** [df[names]] for a list of labels: every column that bears one of the
    labels, in the order of [names]; a label that no column bears is a
    [KeyError]. *)
Fixpoint indices (names : list string) (cols : list string) : outcome (list nat) :=
  match names with
  | [] => Returned []
  | name :: names' =>
      match posiciones name cols O with
      | [] => Raised (key_error name)
      | ps =>
          match indices names' cols with
          | Returned qs => Returned (ps ++ qs)
          | Raised e => Raised e
          end
      end
  end.

Definition tomar {A : Type} (d : A) (idx : list nat) (l : list A) : list A :=
  List.map (fun i => List.nth i l d) idx.

Definition seleccionar (names : list string) (df : DataFrame) : outcome DataFrame :=
  match indices names (columns df) with
  | Raised e => Raised e
  | Returned idx =>
      Returned (mkDF (tomar "" idx (columns df)) (List.map (tomar CNA idx) (rows df)))
  end.

(** The cells of [row] under the columns labelled [name], changed by [f]. *)
Fixpoint en_columna (name : string) (f : cell -> cell) (cols : list string)
    (row : list cell) : list cell :=
  match cols, row with
  | c :: cols', x :: row' =>
      (if String.eqb c name then f x else x) :: en_columna name f cols' row'
  | _, _ => row
  end.

Definition transformar (name : string) (f : cell -> cell) (df : DataFrame) : DataFrame :=
  mkDF (columns df) (List.map (en_columna name f (columns df)) (rows df)).

Definition tiene_columna (name : string) (df : DataFrame) : bool :=
  existsb (String.eqb name) (columns df).

(** [df[name] = v] for a scalar [v]: the columns labelled [name] are
    overwritten, or a new last column is added. *)
Definition asignar (name : string) (v : cell) (df : DataFrame) : DataFrame :=
  if tiene_columna name df then transformar name (fun _ => v) df
  else mkDF (columns df ++ [name]) (List.map (fun r => r ++ [v]) (rows df)).

(** [df[name]] as a Series: the cells of the one column labelled [name].
    With several such columns pandas hands out a frame, and what the callers
    do next with it raises. *)
Definition columna (name : string) (what : string) (df : DataFrame) : outcome (list cell) :=
  match posiciones name (columns df) O with
  | [] => Raised (key_error name)
  | [i] => Returned (List.map (fun r => List.nth i r CNA) (rows df))
  | _ => Raised (Exn (OtherException what) name)
  end.

Definition falta (c : cell) : bool :=
  match c with
  | CNA | CNaT | CFloat NaN => true
  | _ => false
  end.

(** [df.dropna(subset=[name])] for a column that occurs once. *)
Definition dropna (name : string) (df : DataFrame) : DataFrame :=
  match posiciones name (columns df) O with
  | i :: _ => mkDF (columns df) (List.filter (fun r => negb (falta (List.nth i r CNA))) (rows df))
  | [] => df
  end.

(** How many columns are labelled [name]. *)
Definition cuenta (name : string) (cols : list string) : nat :=
  length (List.filter (fun c => String.eqb c name) cols).

(** *** Configuration *)

Definition COORDENADAS : list (string * (Q * Q * list string)) :=
  [ ("ribeira",   ((42551633 # 1000000)%Q, (- (8946442 # 1000000))%Q, ["1_5m"]));
    ("cortegada", ((42627583 # 1000000)%Q, (- (8782314 # 1000000))%Q, ["1_5m"; "3m"])) ].

Definition COLUMNAS_ESPERADAS : list string :=
  [ "fecha_hora";
    "salinidad_1_5m"; "qc_salinidad_1_5m";
    "temperatura_1_5m"; "qc_temperatura_1_5m";
    "salinidad_3m"; "qc_salinidad_3m";
    "temperatura_3m"; "qc_temperatura_3m" ].

Definition RANGOS_VALIDOS : list (string * (Z * Z)) :=
  [ ("temperatura_1_5m", (-5, 35));
    ("temperatura_3m", (-5, 35));
    ("salinidad_1_5m", (0, 40));
    ("salinidad_3m", (0, 40)) ].

(** *** extraer_profundidad *)

(** The longest prefix of digits and what follows it. *)
Fixpoint span_digits (s : string) : string * string :=
  match s with
  | EmptyString => (EmptyString, EmptyString)
  | String c s' =>
      if isdigit c then let '(d, r) := span_digits s' in (String c d, r)
      else (EmptyString, s)
  end.

Definition sigue_m (s : string) : bool :=
  match lstrip s with
  | String c _ => Ascii.eqb c "m"%char
  | EmptyString => false
  end.

(** A match of the pattern of [re.search] (digits, an optional point or
    comma, digits or none, blanks or none, the letter m) that starts at the
    head of [s]: the two groups of digits.  The quantifiers are greedy and no shorter choice can succeed
    where the longest fails. *)
Definition match_profundidad (s : string) : option (string * string) :=
  let '(entero, r1) := span_digits s in
  match entero with
  | EmptyString => None
  | _ =>
      match r1 with
      | String c r2 =>
          if Ascii.eqb c "."%char || Ascii.eqb c ","%char then
            let '(decimal, r3) := span_digits r2 in
            if sigue_m r3 then Some (entero, decimal) else None
          else if sigue_m r1 then Some (entero, EmptyString) else None
      | EmptyString => None
      end
  end.

(** [re.search]: the leftmost start that matches. *)
Fixpoint search_profundidad (s : string) : option (string * string) :=
  match match_profundidad s with
  | Some g => Some g
  | None =>
      match s with
      | EmptyString => None
      | String _ s' => search_profundidad s'
      end
  end.

Definition extraer_profundidad (col_name : string) : option string :=
  let c_lower := lower col_name in
  if contains "superficial" c_lower then Some "1_5m"
  else if contains "inferior" c_lower || contains "fondo" c_lower then Some "3m"
  else
    match search_profundidad c_lower with
    | Some (entero, g2) =>
        let decimal := if String.eqb g2 "" then "0" else g2 in
        if String.eqb decimal "0" then Some (entero ++ "m")%string
        else Some (entero ++ "_" ++ decimal ++ "m")%string
    | None => None
    end.

(** *** normalizar_columnas *)

(** "validación", with its o acute (U+00F3). *)
Definition validacion_tilde : string :=
  ("validaci" ++ String (Ascii.ascii_of_N 243) "n")%string.

(** One turn of the loop over the columns; [anterior] is the label before
    [col], if any. *)
Definition renombrar (anterior : option string) (col : string)
    (new_cols : gmap string string) : gmap string string :=
  let c_lower := lower col in
  if contains "data" c_lower || contains "fecha" c_lower then
    <[col := "fecha_hora"]> new_cols
  else if contains "validacion" c_lower || contains validacion_tilde c_lower then
    match anterior with
    | Some nombre_anterior_orig =>
        match new_cols !! nombre_anterior_orig with
        | Some nombre_base => <[col := ("qc_" ++ nombre_base)%string]> new_cols
        | None => new_cols
        end
    | None => new_cols
    end
  else
    match extraer_profundidad col with
    | Some profundidad =>
        if contains "salinidade" c_lower || contains "salinidad" c_lower then
          <[col := ("salinidad_" ++ profundidad)%string]> new_cols
        else if contains "temperatura" c_lower then
          <[col := ("temperatura_" ++ profundidad)%string]> new_cols
        else new_cols
    | None => new_cols
    end.

Fixpoint mapear (anterior : option string) (cols : list string)
    (new_cols : gmap string string) : gmap string string :=
  match cols with
  | [] => new_cols
  | col :: rest => mapear (Some col) rest (renombrar anterior col new_cols)
  end.

Definition normalizar_columnas (df : DataFrame) : DataFrame :=
  let new_cols := mapear None (columns df) ∅ in
  mkDF (List.map (fun c => default c (new_cols !! c)) (columns df)) (rows df).

(** *** validar_rangos *)

Definition float_lt (x : float64) (n : Z) : bool :=
  match x with
  | Fin q => negb (Qle_bool (inject_Z n) q)
  | Inf negative => negative
  | NaN => false
  end.

Definition float_gt (x : float64) (n : Z) : bool :=
  match x with
  | Fin q => negb (Qle_bool q (inject_Z n))
  | Inf negative => negb negative
  | NaN => false
  end.

Definition type_error : exn := Exn (OtherException "TypeError") "'<' not supported".

(** One cell of [(df[col] < min_val) | (df[col] > max_val)]. *)
Definition fuera_de_rango (min_val max_val : Z) (c : cell) : outcome bool :=
  match c with
  | CFloat x => Returned (float_lt x min_val || float_gt x max_val)
  | CNA => Returned false
  | CStr _ | CTime _ | CNaT => Raised type_error
  end.

(** [mask.sum()]. *)
Fixpoint contar_invalidos (min_val max_val : Z) (cells : list cell) : outcome Z :=
  match cells with
  | [] => Returned 0
  | c :: cells' =>
      match fuera_de_rango min_val max_val c with
      | Raised e => Raised e
      | Returned b =>
          match contar_invalidos min_val max_val cells' with
          | Raised e => Raised e
          | Returned n => Returned (if b then n + 1 else n)
          end
      end
  end.

(** The loop over [RANGOS_VALIDOS.items()]; what it returns are the warnings
    logged, a column and its number of values out of range. *)
Fixpoint revisar_rangos (rangos : list (string * (Z * Z))) (df : DataFrame)
    : outcome (list (string * Z)) :=
  match rangos with
  | [] => Returned []
  | (col, (min_val, max_val)) :: rest =>
      if tiene_columna col df then
        match columna col "ValueError" df with
        | Raised e => Raised e
        | Returned cells =>
            match contar_invalidos min_val max_val cells with
            | Raised e => Raised e
            | Returned n_invalidos =>
                match revisar_rangos rest df with
                | Raised e => Raised e
                | Returned avisos =>
                    Returned (if 0 <? n_invalidos
                              then (col, n_invalidos) :: avisos else avisos)
                end
            end
        end
      else revisar_rangos rest df
  end.

Definition validar_rangos (df : DataFrame) (station_name : string)
    : outcome (DataFrame * list (string * Z)) :=
  match revisar_rangos RANGOS_VALIDOS df with
  | Raised e => Raised e
  | Returned avisos => Returned (df, avisos)
  end.

(** A cell that can be compared with a number. *)
Definition comparable (c : cell) : bool :=
  match c with
  | CFloat _ | CNA => true
  | _ => false
  end.

(** The columns of [RANGOS_VALIDOS] that the frame has occur once and hold
    numbers or missing values. *)
Definition rangos_numericos (df : DataFrame) : Prop :=
  forall col, col ∈ (List.map fst RANGOS_VALIDOS) ->
    tiene_columna col df = true ->
    exists i, posiciones col (columns df) O = [i]
              /\ Forall (fun r => comparable (List.nth i r CNA) = true) (rows df).

(** *** procesar_archivo *)

(** The loop over [COORDENADAS.keys()]: the first station whose name the file
    name holds. *)
Definition detectar_estacion (filename : string) : option (string * (Q * Q * list string)) :=
  List.find (fun e => contains (fst e) filename) COORDENADAS.

Definition asegurar (df : DataFrame) (col : string) : DataFrame :=
  if tiene_columna col df then df else asignar col CNA df.

Definition es_numerica (c : string) : bool :=
  contains "salinidad" c || contains "temperatura" c.

Definition cols_ordenadas : list string :=
  ["estacion"; "lat"; "lon"; "fecha_hora"]
  ++ List.filter (fun c => negb (String.eqb c "fecha_hora")) COLUMNAS_ESPERADAS.

Section Procesar.
(** What pandas does for the script: [pd.read_csv] of a path, the parsing of
    a number out of a string (for [pd.to_numeric]) and the parsing of a
    date in the format [%Y/%m/%d %H:%M] out of a cell (for
    [pd.to_datetime]). *)
Variable read_csv : string -> outcome DataFrame.
Variable parse_float : string -> option float64.
Variable parse_datetime : cell -> option Z.

(** [.astype(str).str.replace(',', '.')] of an object column followed by
    [pd.to_numeric(..., errors='coerce')], on one cell. *)
Definition to_numeric (c : cell) : cell :=
  match c with
  | CStr s => CFloat (default NaN (parse_float (replace "," "." s)))
  | CFloat x => CFloat x
  | CTime t => CFloat (Fin (inject_Z t))
  | CNA | CNaT => CFloat NaN
  end.

(** [pd.to_datetime(..., errors='coerce')] on one cell. *)
Definition to_datetime (c : cell) : cell :=
  match parse_datetime c with
  | Some t => CTime t
  | None => CNaT
  end.

(** The loop over [cols_numericas]; [df[col].dtype] needs [df[col]] to be a
    Series. *)
Fixpoint forzar_numericos (cols : list string) (df : DataFrame) : outcome DataFrame :=
  match cols with
  | [] => Returned df
  | col :: rest =>
      _ <- columna col "AttributeError" df ;;
      forzar_numericos rest (transformar col to_numeric df)
  end.

(** The [try] block. *)
Definition procesar_try (filepath : string) : outcome (option DataFrame) :=
  let filename := lower (basename filepath) in
  match detectar_estacion filename with
  | None => Returned None
  | Some (station_name, (lat, lon, _)) =>
      df <- read_csv filepath ;;
      let df := mkDF (List.map strip (columns df)) (rows df) in
      let df := normalizar_columnas df in
      let df := fold_left asegurar COLUMNAS_ESPERADAS df in
      df <- seleccionar COLUMNAS_ESPERADAS df ;;
      df <- forzar_numericos (List.filter es_numerica (columns df)) df ;;
      _ <- columna "fecha_hora" "ValueError" df ;;
      let df := transformar "fecha_hora" to_datetime df in
      let df := dropna "fecha_hora" df in
      r <- validar_rangos df station_name ;;
      let df := fst r in
      let df := asignar "estacion" (CStr station_name) df in
      let df := asignar "lat" (CFloat (Fin lat)) df in
      let df := asignar "lon" (CFloat (Fin lon)) df in
      df <- seleccionar cols_ordenadas df ;;
      Returned (Some df)
  end.

Definition procesar_archivo (filepath : string) : option DataFrame :=
  match procesar_try filepath with
  | Returned r => r
  | Raised _ => None
  end.

(** *** main *)

(** [pd.concat(dfs, ignore_index=True)] of frames that share their columns. *)
Definition concat (dfs : list DataFrame) : DataFrame :=
  mkDF (match dfs with df :: _ => columns df | [] => [] end) (flat_map rows dfs).

(** The cell of [row] under the first column labelled [name]. *)
Definition celda (name : string) (cols : list string) (row : list cell) : cell :=
  match posiciones name cols O with
  | i :: _ => List.nth i row CNA
  | [] => CNA
  end.

Definition float_eqb (x y : float64) : bool :=
  match x, y with
  | Fin p, Fin q => Qeq_bool p q
  | Inf a, Inf b => Bool.eqb a b
  | NaN, NaN => true
  | _, _ => false
  end.

(** Equality of cells as [drop_duplicates] sees it: missing values are equal
    to one another. *)
Definition cell_eqb (c d : cell) : bool :=
  match c, d with
  | CStr a, CStr b => String.eqb a b
  | CFloat x, CFloat y => float_eqb x y
  | CNA, CNA => true
  | CTime a, CTime b => a =? b
  | CNaT, CNaT => true
  | _, _ => false
  end.

Definition misma_clave (subset cols : list string) (r1 r2 : list cell) : bool :=
  forallb (fun name => cell_eqb (celda name cols r1) (celda name cols r2)) subset.

(** [keep='last']: a row stays when no later row has its key. *)
Fixpoint quitar_duplicados (same : list cell -> list cell -> bool)
    (filas : list (list cell)) : list (list cell) :=
  match filas with
  | [] => []
  | r :: rest =>
      if existsb (same r) rest then quitar_duplicados same rest
      else r :: quitar_duplicados same rest
  end.

Definition drop_duplicates (subset : list string) (df : DataFrame) : DataFrame :=
  mkDF (columns df) (quitar_duplicados (misma_clave subset (columns df)) (rows df)).

(** The pair a row is sorted by.  In the frames of [procesar_archivo] the
    station is a [str] and the date a [Timestamp]. *)
Definition clave (cols : list string) (row : list cell) : string * Z :=
  (match celda "estacion" cols row with CStr s => s | _ => "" end,
   match celda "fecha_hora" cols row with CTime t => t | _ => 0 end).

(** Ascending by station (strings compare by code points), then by date. *)
Definition clave_leb (k1 k2 : string * Z) : bool :=
  match String.compare (fst k1) (fst k2) with
  | Lt => true
  | Eq => snd k1 <=? snd k2
  | Gt => false
  end.

Definition clave_le (k1 k2 : string * Z) : Prop := clave_leb k1 k2 = true.

Definition fila_le (cols : list string) (r1 r2 : list cell) : Prop :=
  clave_le (clave cols r1) (clave cols r2).

#[local] Instance fila_le_dec (cols : list string) : RelDecision (fila_le cols).
Proof. intros r1 r2. unfold fila_le, clave_le. apply _. Defined.

(** [sort_values(by=['estacion', 'fecha_hora'])]. *)
Definition sort_values (df : DataFrame) : DataFrame :=
  mkDF (columns df) (merge_sort (fila_le (columns df)) (rows df)).

(** The frames of the files that are processed, in the order of the files. *)
Definition leer_todos (all_files : list string) : list DataFrame :=
  omap procesar_archivo all_files.

(** [main]: the table it writes, or [None] when it returns early. *)
Definition main (all_files : list string) : option DataFrame :=
  match all_files with
  | [] => None
  | _ =>
      match leer_todos all_files with
      | [] => None
      | dfs =>
          let master_df := concat dfs in
          let master_df := drop_duplicates ["estacion"; "fecha_hora"] master_df in
          Some (sort_values master_df)
      end
  end.
End Procesar.

(** A row of a processed frame: the station and its coordinates, a valid
    date, and eight numbers. *)
Definition fila_unificada (station_name : string) (lat lon : Q) (r : list cell) : Prop :=
  exists (t : Z) (xs : list float64),
    length xs = 8%nat
    /\ r = [CStr station_name; CFloat (Fin lat); CFloat (Fin lon); CTime t]
           ++ List.map CFloat xs.


(** What a processed frame looks like, as the claims word it: the twelve
    columns in their order and, in every row, twelve cells, a number under
    each salinity or temperature column and a valid date. *)
Definition esquema_unificado (df : DataFrame) : Prop :=
  columns df =
    [ "estacion"; "lat"; "lon"; "fecha_hora";
      "salinidad_1_5m"; "qc_salinidad_1_5m";
      "temperatura_1_5m"; "qc_temperatura_1_5m";
      "salinidad_3m"; "qc_salinidad_3m";
      "temperatura_3m"; "qc_temperatura_3m" ]
  /\ Forall (fun r =>
       length r = 12%nat
       /\ (forall name, name ∈ columns df -> es_numerica name = true ->
             exists x, celda name (columns df) r = CFloat x)
       /\ (exists t, celda "fecha_hora" (columns df) r = CTime t)) (rows df).

(** *** Sample frames *)

(** A frame with a temperature far out of range and a missing salinity. *)
Definition frame_fuera_de_rango : DataFrame :=
  mkDF ["fecha_hora"; "temperatura_1_5m"; "salinidad_1_5m"]
       [ [CTime 27000000; CFloat (Fin 99); CFloat (Fin 35)];
         [CTime 27000010; CFloat (Fin 14); CFloat NaN] ].

(** A file of the Ribeira station as [pd.read_csv] hands it over; the second
    row has no readable date, the third a salinity that is no number. *)
Definition csv_ribeira : DataFrame :=
  mkDF [ "Data"; " Salinidade superficial"; "Validacion";
         "Temperatura 1,5 m"; "Validacion.1" ]
       [ [CStr "2021/09/01 00:10"; CStr "35,1"; CFloat (Fin 1);
          CFloat (Fin (145 # 10)); CFloat (Fin 1)];
         [CStr "sin fecha"; CStr "35,2"; CFloat (Fin 1);
          CFloat (Fin (146 # 10)); CFloat (Fin 1)];
         [CStr "2021/09/01 00:20"; CStr "error"; CFloat (Fin 4);
          CFloat (Fin (147 # 10)); CFloat (Fin 1)] ].

(** The same station in a later file, with the reading of 00:20 repeated. *)
Definition csv_ribeira_2 : DataFrame :=
  mkDF [ "Data"; "Salinidade superficial"; "Validacion" ]
       [ [CStr "2021/09/01 00:20"; CStr "35,1"; CFloat (Fin 1)] ].

Definition csv_cortegada : DataFrame :=
  mkDF [ "Data"; "Temperatura inferior" ]
       [ [CStr "2021/09/01 00:10"; CFloat (Fin 15)] ].

Definition leer_ejemplo (path : string) : outcome DataFrame :=
  if String.eqb path "data/raw/c2/Ribeira_2021.csv" then Returned csv_ribeira
  else if String.eqb path "data/raw/c2/ribeira_extra.csv" then Returned csv_ribeira_2
  else if String.eqb path "data/raw/c2/CORTEGADA.csv" then Returned csv_cortegada
  else Raised (Exn OSError "No such file or directory").

Definition parse_float_ejemplo (s : string) : option float64 :=
  if String.eqb s "35.1" then Some (Fin (351 # 10))
  else if String.eqb s "35.2" then Some (Fin (352 # 10))
  else None.

Definition parse_datetime_ejemplo (c : cell) : option Z :=
  match c with
  | CStr s =>
      if String.eqb s "2021/09/01 00:10" then Some 27175690
      else if String.eqb s "2021/09/01 00:20" then Some 27175700
      else None
  | _ => None
  end.

(** A row of some processed frame. *)
Definition fila_procesada (r : list cell) : Prop :=
  exists station_name lat lon, fila_unificada station_name lat lon r.

(** What the claims say of the table [main] writes, given the rows read from
    the files in the order of processing: one row for each pair of station
    and date, that row being the last of [entrada] with the pair, every pair
    of [entrada] kept, and the rows ascending by station, then date. *)
Definition tabla_unificada (entrada : list (list cell)) (tabla : DataFrame) : Prop :=
  let k := clave (columns tabla) in
  NoDup (List.map k (rows tabla))
  /\ (forall r, In r (rows tabla) ->
        exists pre post,
          entrada = pre ++ r :: post /\ forall r', In r' post -> k r' <> k r)
  /\ (forall r, In r entrada -> exists r', In r' (rows tabla) /\ k r' = k r)
  /\ StronglySorted clave_le (List.map k (rows tabla))
  /\ Forall (fun r => celda "estacion" (columns tabla) r = CStr (fst (k r))
                      /\ celda "fecha_hora" (columns tabla) r = CTime (snd (k r)))
            (rows tabla).

Definition archivos_ejemplo : list string :=
  [ "data/raw/c2/Ribeira_2021.csv"; "data/raw/c2/vilanova.csv";
    "data/raw/c2/CORTEGADA.csv"; "data/raw/c2/ribeira_extra.csv" ].

(** A column taken for the date, a column taken for a validation flag. *)
Definition es_fecha (col : string) : bool :=
  contains "data" (lower col) || contains "fecha" (lower col).

Definition es_validacion (col : string) : bool :=
  negb (es_fecha col)
  && (contains "validacion" (lower col) || contains validacion_tilde (lower col)).

(** The renaming that [normalizar_columnas] applies to the labels [cols]. *)
Definition new_cols_de (cols : list string) : gmap string string :=
  mapear None cols ∅.

(** The labels of the columns of a file once stripped and renamed. *)
Definition etiquetas (df0 : DataFrame) : list string :=
  columns (normalizar_columnas (mkDF (List.map strip (columns df0)) (rows df0))).

(** The frame handed to [validar_rangos], made from a selection with the
    expected columns and rows [rows5]. *)
Definition antes_de_validar (parse_float : string -> option float64)
    (parse_datetime : cell -> option Z) (rows5 : list (list cell)) : DataFrame :=
  dropna "fecha_hora"
    (transformar "fecha_hora" (to_datetime parse_datetime)
       (fold_left (fun d c => transformar c (to_numeric parse_float) d)
          (List.filter es_numerica COLUMNAS_ESPERADAS)
          (mkDF COLUMNAS_ESPERADAS rows5))).

(** A file of the Ribeira station without a date column. *)
Definition csv_sin_fecha : DataFrame :=
  mkDF [ "Salinidade superficial"; "Validacion" ]
       [ [CStr "35,1"; CFloat (Fin 1)];
         [CStr "35,2"; CFloat (Fin 1)] ].

Definition leer_sin_fecha (path : string) : outcome DataFrame :=
  if String.eqb path "data/raw/c2/ribeira_sin_fecha.csv" then Returned csv_sin_fecha
  else Raised (Exn OSError "No such file or directory").

(** A file of the Ribeira station with two columns taken for the date. *)
Definition csv_dos_fechas : DataFrame :=
  mkDF [ "Data"; "Data validacion"; "Salinidade superficial" ]
       [ [CStr "2021/09/01 00:10"; CStr "2021/09/02 00:00"; CStr "35,1"] ].

Definition leer_dos_fechas (path : string) : outcome DataFrame :=
  if String.eqb path "data/raw/c2/ribeira_dos_fechas.csv" then Returned csv_dos_fechas
  else Raised (Exn OSError "No such file or directory").

End UnificarIntecmar.

(** * Properties *)

(** ** download_bulk.py *)

Module DownloadBulkSpec.
Import DownloadBulk.

Section RetryFacts.
Context {W A : Type}.
Variable sleep_limit : Q -> option exn.
Variable func : W -> outcome A * W.
Variable max_retries : Z.
Variable base_delay : Q.

Lemma schedule_app (tr1 tr2 : list event) :
  schedule (tr1 ++ tr2) = schedule tr1 ++ schedule tr2.
Proof. apply List.filter_app. Qed.

Lemma attempts_app (tr1 tr2 : list event) :
  attempts (tr1 ++ tr2) = (attempts tr1 + attempts tr2)%nat.
Proof. unfold attempts. by rewrite List.filter_app, length_app. Qed.

Lemma backoff_schedule_S (attempt : Z) (n : nat) :
  backoff_schedule base_delay attempt (S n) =
  EvAttempt attempt ::
    match n with
    | O => []
    | S _ => EvSleep (backoff_delay base_delay attempt)
               :: backoff_schedule base_delay (attempt + 1) n
    end.
Proof. by destruct n. Qed.

Lemma schedule_backoff_schedule (attempt : Z) (n : nat) :
  schedule (backoff_schedule base_delay attempt n) =
  backoff_schedule base_delay attempt n.
Proof.
  revert attempt. induction n as [|n IH]; intros attempt; [done|].
  rewrite backoff_schedule_S. destruct n as [|n]; [done|].
  cbn [schedule List.filter is_schedule]. do 2 f_equal. apply IH.
Qed.

Lemma attempts_backoff_schedule (attempt : Z) (n : nat) :
  attempts (backoff_schedule base_delay attempt n) = n.
Proof.
  revert attempt. induction n as [|n IH]; intros attempt; [done|].
  rewrite backoff_schedule_S. destruct n as [|n]; [done|].
  change (S (attempts (backoff_schedule base_delay (attempt + 1) (S n))) = S (S n)).
  by rewrite IH.
Qed.

Lemma outcome_of_S (w : W) (i : nat) :
  outcome_of func w (S i) = outcome_of func (snd (func w)) i.
Proof. done. Qed.

(** One turn of the loop after a recoverable failure that is not the last
    attempt, when the delay is computed and slept. *)
Lemma retry_loop_retries (fuel : nat) (attempt : Z) (last_exception : option exn)
    (w w1 : W) (tr : list event) (e : exn) :
  func w = (Raised e, w1) ->
  recoverable e = true ->
  attempt < max_retries - 1 ->
  attempt < 1024 ->
  time_sleep sleep_limit (backoff_delay base_delay attempt) = None ->
  retry_loop sleep_limit func max_retries base_delay (S fuel) attempt last_exception w tr
  = retry_loop sleep_limit func max_retries base_delay fuel (attempt + 1) (Some e) w1
      ((tr ++ [EvAttempt attempt])
         ++ [EvLog WARNING; EvSleep (backoff_delay base_delay attempt)]).
Proof.
  intros Hf Hrec Hlt H1024 Hsleep. cbn [retry_loop]. rewrite Hf, Hrec.
  destruct (Z.ltb_spec attempt (max_retries - 1)); [|lia].
  destruct (Z.leb_spec 1024 attempt); [lia|].
  cbn zeta. by rewrite Hsleep.
Qed.

(** The loop when every remaining attempt fails recoverably and every delay
    is slept: it runs out of attempts and raises what the last attempt
    raised (or [last_exception] when no attempt was left). *)
Lemma retry_loop_exhausted (fuel : nat) :
  forall (attempt : Z) (last_exception : option exn) (w : W) (tr : list event),
    attempt + Z.of_nat fuel = max_retries ->
    (forall a, attempt <= a < max_retries - 1 ->
               a < 1024 /\ time_sleep sleep_limit (backoff_delay base_delay a) = None) ->
    (forall i, (i < fuel)%nat -> fails_recoverably func w i) ->
    exists (last : option exn) (tr' : list event),
      retry_loop sleep_limit func max_retries base_delay fuel attempt last_exception w tr
        = (Raised (default raise_none last), state_before func w fuel, tr')
      /\ schedule tr' = schedule tr ++ backoff_schedule base_delay attempt fuel
      /\ match fuel with
         | O => last = last_exception
         | S k => exists e, last = Some e /\ outcome_of func w k = Raised e
                            /\ recoverable e = true
         end.
Proof.
  induction fuel as [|fuel IH]; intros attempt last_exception w tr Hn Hok Hfail.
  - exists last_exception, tr. cbn. by rewrite app_nil_r.
  - destruct (Hfail O ltac:(lia)) as (e & He & Hrec).
    unfold outcome_of in He. cbn [state_before] in He.
    destruct (func w) as [r w1] eqn:Hf. cbn in He. subst r.
    assert (Hfail' : forall i, (i < fuel)%nat -> fails_recoverably func w1 i).
    { intros i Hi. specialize (Hfail (S i) ltac:(lia)).
      unfold fails_recoverably in *. rewrite outcome_of_S, Hf in Hfail. exact Hfail. }
    assert (Hst : forall k, state_before func w (S k) = state_before func w1 k).
    { intros k. cbn [state_before]. by rewrite Hf. }
    destruct (Z.lt_ge_cases attempt (max_retries - 1)) as [Hlt|Hge].
    + destruct (Hok attempt ltac:(lia)) as [H1024 Hsleep].
      rewrite (retry_loop_retries fuel attempt last_exception w w1 tr e
                 Hf Hrec Hlt H1024 Hsleep).
      destruct (IH (attempt + 1) (Some e) w1
                  ((tr ++ [EvAttempt attempt])
                     ++ [EvLog WARNING; EvSleep (backoff_delay base_delay attempt)])
                  ltac:(lia) ltac:(intros a Ha; apply Hok; lia) Hfail')
        as (last & tr' & Hrun & Hsch & Hlast).
      exists last, tr'. rewrite Hrun, Hst. split; [done|]. split.
      * rewrite Hsch, !schedule_app, backoff_schedule_S.
        destruct fuel as [|fuel]; [lia|]. cbn. by rewrite <- !app_assoc.
      * destruct fuel as [|fuel]; [lia|].
        destruct Hlast as (e' & -> & He' & Hrec').
        exists e'. split; [done|]. split; [|done].
        unfold outcome_of in *. by rewrite Hst.
    + assert (fuel = O) by lia. subst fuel. cbn [retry_loop state_before].
      rewrite Hf, Hrec. cbn [snd].
      destruct (Z.ltb_spec attempt (max_retries - 1)); [lia|].
      exists (Some e), ((tr ++ [EvAttempt attempt]) ++ [EvLog ERROR]).
      split; [done|]. split.
      * rewrite !schedule_app. cbn. by rewrite app_nil_r.
      * exists e. split; [done|]. split; [|done].
        unfold outcome_of. cbn [state_before]. by rewrite Hf.
Qed.

(** The loop when attempt [k] is the first that does not fail recoverably
    and it returns: the result is returned at once. *)
Lemma retry_loop_returns (k : nat) :
  forall (fuel : nat) (attempt : Z) (last_exception : option exn) (w : W)
         (tr : list event) (v : A),
    attempt + Z.of_nat fuel = max_retries ->
    (k < fuel)%nat ->
    (forall a, attempt <= a < attempt + Z.of_nat k ->
               a < 1024 /\ time_sleep sleep_limit (backoff_delay base_delay a) = None) ->
    (forall i, (i < k)%nat -> fails_recoverably func w i) ->
    outcome_of func w k = Returned v ->
    exists tr' : list event,
      retry_loop sleep_limit func max_retries base_delay fuel attempt last_exception w tr
        = (Returned v, state_before func w (S k), tr')
      /\ schedule tr' = schedule tr ++ backoff_schedule base_delay attempt (S k).
Proof.
  induction k as [|k IH];
    intros fuel attempt last_exception w tr v Hn Hk Hok Hfail Hret;
    (destruct fuel as [|fuel]; [lia|]).
  - cbn [retry_loop]. unfold outcome_of in Hret. cbn [state_before] in *.
    destruct (func w) as [r w1] eqn:Hf. cbn in Hret. subst r. cbn [snd].
    eexists. split; [done|]. by rewrite schedule_app.
  - destruct (Hfail O ltac:(lia)) as (e & He & Hrec).
    unfold outcome_of in He. cbn [state_before] in He.
    rewrite outcome_of_S in Hret.
    assert (Hfail' : forall i, (i < k)%nat -> fails_recoverably func (snd (func w)) i).
    { intros i Hi. specialize (Hfail (S i) ltac:(lia)).
      unfold fails_recoverably in *. by rewrite outcome_of_S in Hfail. }
    assert (Hst : state_before func w (S (S k))
                  = state_before func (snd (func w)) (S k)) by done.
    rewrite Hst. clear Hst.
    destruct (func w) as [r w1] eqn:Hf. cbn [fst snd] in He, Hret, Hfail' |- *. subst r.
    destruct (Hok attempt ltac:(lia)) as [H1024 Hsleep].
    rewrite (retry_loop_retries fuel attempt last_exception w w1 tr e
               Hf Hrec ltac:(lia) H1024 Hsleep).
    destruct (IH fuel (attempt + 1) (Some e) w1
                ((tr ++ [EvAttempt attempt])
                   ++ [EvLog WARNING; EvSleep (backoff_delay base_delay attempt)])
                v ltac:(lia) ltac:(lia) ltac:(intros a Ha; apply Hok; lia) Hfail' Hret)
      as (tr' & Hrun & Hsch).
    exists tr'. split; [done|].
    rewrite Hsch, !schedule_app, (backoff_schedule_S attempt (S k)).
    cbn. by rewrite <- !app_assoc.
Qed.
End RetryFacts.

(** A delay of the backoff is slept when [base_delay] is not negative and
    the delay is within what the clock takes. *)
Lemma time_sleep_accepts (sleep_limit : Q -> option exn) (base_delay : Q)
    (attempt : Z) :
  (0 <= base_delay)%Q ->
  sleep_limit (backoff_delay base_delay attempt) = None ->
  time_sleep sleep_limit (backoff_delay base_delay attempt) = None.
Proof.
  intros Hpos Hlimit. unfold time_sleep. rewrite Hlimit.
  assert (Hdelay : (0 <= backoff_delay base_delay attempt)%Q).
  { unfold backoff_delay. apply Qmult_le_0_compat; [done|].
    change 0%Q with (inject_Z 0). rewrite <- Zle_Qle. apply Z.pow_nonneg. lia. }
  apply Qle_bool_iff in Hdelay. by rewrite Hdelay.
Qed.

Lemma attempts_schedule (tr : list event) : attempts (schedule tr) = attempts tr.
Proof.
  unfold attempts, schedule. induction tr as [|ev tr IH]; [done|].
  destruct ev; cbn; by rewrite ?IH.
Qed.

(** C1 (amended): with [1 <= max_retries <= 1025], a [base_delay] that is
    not negative and delays within what the clock takes, a function that
    raises a recoverable error on every attempt is attempted exactly
    [max_retries] times, with a sleep of [base_delay * 2^attempt] between
    consecutive attempts, and the last exception is re-raised; an attempt
    that returns ends the loop with its result. *)
Theorem exponential_backoff_retry_contract {W A : Type}
    (sleep_limit : Q -> option exn) (func : W -> outcome A * W)
    (max_retries : Z) (base_delay : Q) (w : W) :
  1 <= max_retries <= 1025 ->
  (0 <= base_delay)%Q ->
  (forall attempt, 0 <= attempt < max_retries - 1 ->
                   sleep_limit (backoff_delay base_delay attempt) = None) ->
  retry_contract sleep_limit func max_retries base_delay w.
Proof.
  intros Hpos Hbase Hsleep. unfold retry_contract, exponential_backoff_retry.
  set (n := Z.to_nat max_retries).
  assert (Hn : 0 + Z.of_nat n = max_retries) by (subst n; lia).
  assert (Hok : forall a, 0 <= a < max_retries - 1 ->
                  a < 1024 /\ time_sleep sleep_limit (backoff_delay base_delay a) = None).
  { intros a Ha. split; [lia|]. apply time_sleep_accepts; [done|by apply Hsleep]. }
  destruct (retry_loop sleep_limit func max_retries base_delay n 0 None w [])
    as [[r w'] tr] eqn:Hrun.
  split.
  - intros Hfail.
    destruct (retry_loop_exhausted sleep_limit func max_retries base_delay n 0 None w []
                Hn Hok Hfail) as (last & tr' & Hrun' & Hsch & Hlast).
    rewrite Hrun in Hrun'. injection Hrun' as -> -> ->.
    destruct n as [|k] eqn:En; [lia|].
    destruct Hlast as (e & -> & He & Hrec).
    exists e. replace (S k - 1)%nat with k by lia.
    repeat split; try done.
    rewrite <- attempts_schedule, Hsch. cbn [schedule List.filter app].
    apply attempts_backoff_schedule.
  - intros k v Hk Hfail Hret.
    destruct (retry_loop_returns sleep_limit func max_retries base_delay k n 0 None w [] v
                Hn Hk ltac:(intros a Ha; apply Hok; lia) Hfail Hret)
      as (tr' & Hrun' & Hsch).
    rewrite Hrun in Hrun'. injection Hrun' as -> -> ->.
    repeat split; try done.
    rewrite <- attempts_schedule, Hsch. cbn [schedule List.filter app].
    apply attempts_backoff_schedule.
Qed.

Lemma exponential_backoff_retry_contract_witness :
  retry_contract clock_limit always_timeout 3 2%Q tt.
Proof.
  apply (exponential_backoff_retry_contract clock_limit always_timeout 3 2%Q tt).
  - lia.
  - discriminate.
  - intros attempt Ha.
    assert (attempt = 0 \/ attempt = 1) as [-> | ->] by lia; reflexivity.
Defined.

(** C1 as stated fails for [max_retries = 0]: no attempt is made and
    [raise last_exception] raises a [TypeError], which is no recoverable
    exception of the function. *)
Lemma exponential_backoff_retry_zero_retries :
  ~ retry_contract clock_limit always_timeout 0 2%Q tt.
Proof.
  unfold retry_contract. cbn. intros [Hall _].
  destruct Hall as (e & Hrec & _ & Hr & _); [intros i Hi; lia|].
  injection Hr as <-. discriminate Hrec.
Qed.

(** It fails as well for a negative [base_delay], which [time.sleep]
    refuses whatever the clock: the first failure is followed by a [ValueError] and no second
    attempt is made. *)
Example exponential_backoff_retry_negative_delay :
  exponential_backoff_retry clock_limit always_timeout 3 (- (2))%Q tt
  = (Raised (value_error "sleep length must be non-negative"), tt,
     [EvAttempt 0; EvLog WARNING]).
Proof. reflexivity. Qed.

(** And for [max_retries > 1025] even with [base_delay = 0]: the delay after
    attempt 1024 cannot be computed. *)
Example exponential_backoff_retry_overflow :
  let '(r, _, tr) :=
    exponential_backoff_retry clock_limit always_timeout 1100 0%Q tt in
  r = Raised overflow_error /\ attempts tr = 1025%nat.
Proof. vm_compute. split; reflexivity. Qed.

(** *** validate_netcdf_file and the resumable loop *)

Lemma validate_netcdf_file_fs (filepath : string) (w : World) :
  fs (snd (validate_netcdf_file filepath w)) = fs w
  /\ net (snd (validate_netcdf_file filepath w)) = net w.
Proof.
  unfold validate_netcdf_file.
  destruct (fs w !! filepath) as [[sz [|ds]]|]; try done.
  destruct (ds !! "prec") as [size|]; [|done]. by destruct (size =? 0).
Qed.

(** Validation succeeds exactly on a readable file with a non-empty [prec]. *)
Lemma validate_netcdf_file_true (filepath : string) (w : World) :
  fst (validate_netcdf_file filepath w) = true <->
  exists sz ds size,
    fs w !! filepath = Some (mkFile sz (NetCDF ds))
    /\ ds !! "prec" = Some size /\ size <> 0.
Proof.
  unfold validate_netcdf_file. split.
  - destruct (fs w !! filepath) as [[sz [|ds]]|]; try done.
    destruct (ds !! "prec") as [size|] eqn:Hp; [|done].
    destruct (Z.eqb_spec size 0); [done|]. intros _. by exists sz, ds, size.
  - intros (sz & ds & size & -> & -> & Hne).
    by destruct (Z.eqb_spec size 0).
Qed.

(** C2: a date whose target file exists, is larger than [MIN_FILE_SIZE] and
    passes [validate_netcdf_file] is skipped: the iteration returns with
    [existentes] incremented, the server is not contacted and the file system
    is unchanged. *)
Theorem process_date_resumes (env : Env) (config : Config) (current_date : Z)
    (stats : Stats) (w : World) (f : File) :
  fs w !! target_path env config current_date = Some f ->
  MIN_FILE_SIZE config < st_size f ->
  fst (validate_netcdf_file (target_path env config current_date) w) = true ->
  exists w',
    process_date env config current_date stats w = (Returned (inc_existentes stats), w')
    /\ net w' = net w
    /\ fs w' = fs w
    /\ fs w' !! target_path env config current_date = Some f.
Proof.
  intros Hf Hsize Hvalid. unfold process_date, check_existing. rewrite Hf.
  destruct (Z.ltb_spec (MIN_FILE_SIZE config) (st_size f)) as [_|]; [|lia].
  destruct (validate_netcdf_file_fs (target_path env config current_date) w)
    as [Hfs Hnet].
  destruct (validate_netcdf_file (target_path env config current_date) w)
    as [valid w1]. cbn [fst snd] in *. subst valid.
  eexists. split; [done|]. cbn. by rewrite Hfs, Hnet.
Qed.

Lemma process_date_resumes_witness :
  exists w',
    process_date quiet_env config0 738034 stats0 world_with_file
      = (Returned (inc_existentes stats0), w')
    /\ net w' = net world_with_file
    /\ fs w' = fs world_with_file
    /\ fs w' !! target_path quiet_env config0 738034 = Some valid_file.
Proof.
  apply (process_date_resumes quiet_env config0 738034 stats0 world_with_file valid_file).
  - apply lookup_singleton_eq.
  - cbn. lia.
  - unfold validate_netcdf_file, world_with_file. cbn [fs].
    rewrite lookup_singleton_eq. cbn [valid_file]. by rewrite lookup_singleton_eq.
Defined.

(** *** download_precipitation_data *)

(** The handler returns [False] with nothing left at the path, unless
    [unlink] refuses: then its exception leaves the handler and the file
    stays. *)
Lemma download_except_spec (env : Env) (filepath : string) (w : World) :
  match download_except env filepath w with
  | (Returned b, w') => b = false /\ fs w' !! filepath = None
  | (Raised e, w') =>
      unlink env (length (net w)) filepath = Some e
      /\ fs w' = fs w /\ is_Some (fs w !! filepath)
  end.
Proof.
  unfold download_except. cbn [logw fs net].
  destruct (fs w !! filepath) eqn:Hl; [|done].
  destruct (unlink env (length (net w)) filepath) as [e|]; cbn; [done|].
  split; [done|]. apply lookup_delete_eq.
Qed.

Lemma download_try_raises (env : Env) (url filepath : string) (timeout : Z)
    (w : World) :
  try_block_raises env url filepath w <->
  exists e w1, download_try env url filepath timeout w = (Raised e, w1).
Proof.
  unfold try_block_raises, download_try. cbn [setenv net contact].
  rewrite length_app. cbn [length]. rewrite Nat.add_1_r.
  destruct (open_remote env (length (net w)) url) as [ds|e0].
  - destruct (ds !! "prec") as [n|] eqn:Hprec.
    + destruct (to_netcdf env (S (length (net w))) filepath) as [size|e partial].
      * split; [|by intros (? & ? & [=])].
        intros [[? [=]]|(? & ? & ? & ? & [= <-] & ? & [=])].
      * split; [by eauto|]. intros _. right. by eexists ds, n, e, partial.
    + split; [|by intros (? & ? & [=])].
      intros [[? [=]]|(? & ? & ? & ? & [= <-] & ? & _)]. congruence.
  - split; [by eauto|]. intros _. left. by eauto.
Qed.

(** C3 (amended): when the system lets the target be removed, a call in
    which the [try] block raises returns [False] and leaves no file at the
    target path; a call returns [True] only with the [prec] variable of the
    remote dataset written to the target path. *)
Theorem download_precipitation_data_atomic (env : Env) (url filepath : string)
    (timeout : Z) (w : World) :
  (forall n, unlink env n filepath = None) ->
  atomic_on_failure env url filepath timeout w.
Proof.
  intros Hunlink. split.
  - intros Hraises.
    apply (download_try_raises env url filepath timeout w) in Hraises
      as (e & w1 & Htry).
    unfold download_precipitation_data. rewrite Htry.
    pose proof (download_except_spec env filepath w1) as Hex.
    destruct (download_except env filepath w1) as [[b|e'] w2].
    + destruct Hex as [-> Hgone]. by exists w2.
    + destruct Hex as [Hrefused _]. by rewrite Hunlink in Hrefused.
  - intros w' Hrun. unfold download_precipitation_data in Hrun.
    destruct (download_try env url filepath timeout w) as [[b|e] w1] eqn:Htry.
    + injection Hrun as -> ->. unfold download_try in Htry. cbn [setenv net] in Htry.
      destruct (open_remote env (length (net w)) url) as [ds|e] eqn:Hopen; [|done].
      destruct (ds !! "prec") as [n|] eqn:Hprec; [|done].
      destruct (to_netcdf env _ filepath) as [size|e partial]; [|done].
      injection Htry as <-. exists ds, n, size. repeat split; try done.
      cbn. apply lookup_insert_eq.
    + pose proof (download_except_spec env filepath w1) as Hex.
      rewrite Hrun in Hex. by destruct Hex.
Qed.

(** When [unlink] does not refuse, the function never raises: every
    exception of the [try] block is caught. *)
Lemma download_precipitation_data_returns (env : Env) (url filepath : string)
    (timeout : Z) (w : World) :
  (forall n, unlink env n filepath = None) ->
  exists b w', download_precipitation_data env url filepath timeout w = (Returned b, w').
Proof.
  intros Hunlink. unfold download_precipitation_data.
  destruct (download_try env url filepath timeout w) as [[b|e] w1]; [by eauto|].
  pose proof (download_except_spec env filepath w1) as Hex.
  destruct (download_except env filepath w1) as [[b|e'] w2]; [by eauto|].
  destruct Hex as [Hrefused _]. by rewrite Hunlink in Hrefused.
Qed.

Lemma download_precipitation_data_atomic_witness :
  atomic_on_failure env_disk_full "u" "out.nc" 60 world0
  /\ exists w',
       download_precipitation_data env_disk_full "u" "out.nc" 60 world0
       = (Returned false, w')
       /\ fs w' !! "out.nc" = None.
Proof.
  assert (H : atomic_on_failure env_disk_full "u" "out.nc" 60 world0)
    by (by apply (download_precipitation_data_atomic env_disk_full "u" "out.nc" 60 world0)).
  split; [exact H|]. apply (proj1 H).
  right. by exists {["prec" := 4096]}, 4096, (Exn OSError "No space left on device"),
                   (Some (mkFile 10 Unreadable)).
Defined.

(** C3 as stated fails when the partial file cannot be removed: [unlink]
    raises inside the handler, the call raises instead of returning [False],
    and the partial file stays at the target path. *)
Lemma download_precipitation_data_undeletable :
  ~ atomic_on_failure env_undeletable "u" "out.nc" 60 world0.
Proof.
  intros [Hfail _]. destruct Hfail as (w' & Hrun & _).
  - right. by exists {["prec" := 4096]}, 4096, (Exn OSError "No space left on device"),
                     (Some (mkFile 10 Unreadable)).
  - vm_compute in Hrun. discriminate Hrun.
Qed.

Example download_undeletable_leaves_partial :
  let '(r, w') := download_precipitation_data env_undeletable "u" "out.nc" 60 world0 in
  r = Raised (Exn OSError "Permission denied")
  /\ fs w' !! "out.nc" = Some (mkFile 10 Unreadable).
Proof. split; [reflexivity|]. cbn. apply lookup_insert_eq. Qed.

Example download_writes_prec :
  exists w',
    download_precipitation_data quiet_env "u" "out.nc" 60 world0 = (Returned true, w')
    /\ fs w' !! "out.nc" = Some valid_file.
Proof. eexists. split; [reflexivity|]. cbn. apply lookup_insert_eq. Qed.

(** *** The counters of the main loop *)

Ltac counts := unfold counts_once; cbn; lia.

Lemma check_existing_counts (env : Env) (config : Config) (filepath : string)
    (stats : Stats) (w : World) :
  match check_existing env config filepath stats w with
  | (Returned (None, stats1), _) => stats1 = inc_existentes stats
  | (Returned (Some _, stats1), _) =>
      stats1 = stats \/ stats1 = inc_corruptos_reparados stats
  | (Raised _, _) => True
  end.
Proof.
  unfold check_existing. destruct (fs w !! filepath) as [f|]; [|by left].
  destruct (MIN_FILE_SIZE config <? st_size f).
  - destruct (validate_netcdf_file filepath w) as [[|] w1]; [done|].
    cbn zeta. destruct (unlink env _ filepath); [done|by right].
  - cbn zeta. destruct (unlink env _ filepath); [done|by left].
Qed.

Lemma fetch_counts (env : Env) (config : Config) (url filepath : string)
    (stats stats' : Stats) (w w' : World) :
  fetch env config url filepath stats w = (Returned stats', w') ->
  stats' = inc_descargados stats \/ stats' = inc_no_disponibles stats
  \/ stats' = inc_errores stats.
Proof.
  unfold fetch.
  destruct (check_remote_file_exists env url (TIMEOUT_SECONDS config) w)
    as [[[[|]|]|e] w1]; try done.
  - destruct (exponential_backoff_retry _ _ _ _ w1) as [[[[|]|e] w2] tr];
      intros [= <- <-]; auto.
  - intros [= <- <-]. auto.
  - intros [= <- <-]. auto.
Qed.

(** C10: an iteration that runs to completion increments exactly one of
    [existentes], [descargados], [no_disponibles], [errores] by one;
    [corruptos_reparados] goes up by at most one, and so never alone. *)
Theorem process_date_counts_once (env : Env) (config : Config) (current_date : Z)
    (stats stats' : Stats) (w w' : World) :
  process_date env config current_date stats w = (Returned stats', w') ->
  counts_once stats stats'.
Proof.
  unfold process_date.
  pose proof (check_existing_counts env config (target_path env config current_date)
                stats w) as Hpre.
  destruct (check_existing env config _ stats w) as [[[[[]|] stats1]|e] w1]; [| |done].
  - intros Hfetch. apply fetch_counts in Hfetch.
    destruct Hpre as [->| ->]; destruct Hfetch as [->|[->| ->]]; counts.
  - intros [= <- <-]. subst stats1. counts.
Qed.

Lemma process_date_counts_once_witness :
  counts_once stats0 (mkStats 0 1 0 0 0).
Proof.
  apply (process_date_counts_once quiet_env config0 738034 stats0 _ world0
           (snd (process_date quiet_env config0 738034 stats0 world0))).
  vm_compute. reflexivity.
Defined.

(** An iteration runs to completion unless [unlink] refuses or the [HEAD]
    request raises something other than a timeout or a connection error. *)
Lemma process_date_completes (env : Env) (config : Config) (current_date : Z)
    (stats : Stats) (w : World) :
  (forall n p, unlink env n p = None) ->
  (forall n url e, head env n url = HeadRaises e ->
                   exn_cls e = RequestsTimeout \/ exn_cls e = RequestsConnectionError) ->
  exists stats' w', process_date env config current_date stats w = (Returned stats', w').
Proof.
  intros Hunlink Hhead. unfold process_date.
  assert (Hpre : exists r stats1 w1,
             check_existing env config (target_path env config current_date) stats w
             = (Returned (r, stats1), w1)).
  { unfold check_existing. destruct (fs w !! _) as [f|]; [|by eauto].
    destruct (MIN_FILE_SIZE config <? st_size f).
    - destruct (validate_netcdf_file _ w) as [[|] w1]; [by eauto|].
      cbn zeta. rewrite Hunlink. by eauto.
    - cbn zeta. rewrite Hunlink. by eauto. }
  destruct Hpre as ([[]|] & stats1 & w1 & ->); [|by eauto].
  unfold fetch, check_remote_file_exists.
  destruct (head env (length (net w1)) _) as [code|e] eqn:Hh.
  - destruct (code =? 404); [by eauto|]. destruct (code =? 200); [|by eauto].
    destruct (exponential_backoff_retry _ _ _ _ _) as [[[[|]|e] w2] tr]; by eauto.
  - destruct (Hhead _ _ _ Hh) as [-> | ->]; by eauto.
Qed.

End DownloadBulkSpec.

(** ** procesar_ctd.py *)

Module ProcesarCtdSpec.
Import ProcesarCtd.

Lemma es_cabecera_cons_0 (line : string) (rest : list string) :
  es_cabecera (line :: rest) 0 <->
  cabecera_texto line = true \/ cabecera_variables line rest = true.
Proof.
  unfold es_cabecera, es_cabecera_texto, es_cabecera_variables. cbn. split.
  - intros [(l & [= <-] & H)|(l & [= <-] & H)]; auto.
  - intros [H|H]; [left|right]; by exists line.
Qed.

Lemma es_cabecera_cons_S (line : string) (rest : list string) (i : nat) :
  es_cabecera (line :: rest) (S i) <-> es_cabecera rest i.
Proof. done. Qed.

Lemma es_fila_datos_cons_S (line : string) (rest : list string) (i : nat) :
  es_fila_datos (line :: rest) (S i) <-> es_fila_datos rest i.
Proof. done. Qed.

(** The first loop returns the first header line. *)
Lemma buscar_cabecera_first (lines : list string) :
  forall (i : nat) (i0 : Z),
    es_cabecera lines i ->
    (forall j, (j < i)%nat -> ~ es_cabecera lines j) ->
    buscar_cabecera lines i0 = Some (i0 + Z.of_nat i).
Proof.
  induction lines as [|line rest IH]; intros i i0 Hi Hfirst.
  - destruct Hi as [(l & Hl & _)|(l & Hl & _)]; by rewrite lookup_nil in Hl.
  - cbn [buscar_cabecera]. destruct i as [|i].
    + apply es_cabecera_cons_0 in Hi. rewrite Z.add_0_r.
      destruct (cabecera_texto line); [done|].
      destruct Hi as [Hi|Hi]; [done | by rewrite Hi].
    + assert (H0 : ~ es_cabecera (line :: rest) 0) by (apply Hfirst; lia).
      rewrite es_cabecera_cons_0 in H0.
      destruct (cabecera_texto line); [by destruct H0; left|].
      destruct (cabecera_variables line rest); [by destruct H0; right|].
      rewrite (IH i (i0 + 1)).
      * f_equal. lia.
      * by apply es_cabecera_cons_S in Hi.
      * intros j Hj Hc. apply (Hfirst (S j)); [lia|]. by apply es_cabecera_cons_S.
Qed.

Lemma buscar_cabecera_none (lines : list string) :
  forall i0 : Z,
    (forall i, ~ es_cabecera lines i) -> buscar_cabecera lines i0 = None.
Proof.
  induction lines as [|line rest IH]; intros i0 Hno; [done|].
  cbn [buscar_cabecera]. pose proof (Hno O) as H0.
  rewrite es_cabecera_cons_0 in H0.
  destruct (cabecera_texto line); [by destruct H0; left|].
  destruct (cabecera_variables line rest); [by destruct H0; right|].
  apply IH. intros i Hc. apply (Hno (S i)). by apply es_cabecera_cons_S.
Qed.

Lemma buscar_datos_none (lines : list string) :
  forall i0 : Z,
    (forall i, ~ es_fila_datos lines i) -> buscar_datos lines i0 = None.
Proof.
  induction lines as [|line rest IH]; intros i0 Hno; [done|].
  cbn [buscar_datos]. destruct (fila_datos line) eqn:Hf.
  - destruct (Hno O). by exists line.
  - apply IH. intros i Hc. apply (Hno (S i)). by apply es_fila_datos_cons_S.
Qed.

(** C4 (amended): the heuristic returns the index of the first line that holds
    both "odigo" and "stacion" or that holds "var_0" and "var_1" and is
    followed by a line holding "A0"; when no line matches either pattern or
    the data-row pattern it returns -1 and [procesar_archivo_ctd] returns
    [None]. *)
Theorem detectar_inicio_datos_first_header (lines : list string) :
  (forall i,
      es_cabecera lines i ->
      (forall j, (j < i)%nat -> ~ es_cabecera lines j) ->
      detectar_inicio_datos (Returned lines) = Z.of_nat i)
  /\
  (sin_patron lines ->
   detectar_inicio_datos (Returned lines) = -1
   /\ forall (DataFrame : Type) (leer : outcome (list string) -> Z -> option DataFrame),
       procesar_archivo_ctd leer (Returned lines) = None).
Proof.
  split.
  - intros i Hi Hfirst. unfold detectar_inicio_datos.
    by rewrite (buscar_cabecera_first lines i 0 Hi Hfirst).
  - intros Hno.
    assert (Hd : detectar_inicio_datos (Returned lines) = -1).
    { unfold detectar_inicio_datos.
      rewrite buscar_cabecera_none.
      - rewrite buscar_datos_none; [done|]. intros i. apply Hno.
      - intros i [H|H]; by destruct (Hno i) as (? & ? & ?). }
    split; [done|]. intros DataFrame leer.
    unfold procesar_archivo_ctd. by rewrite Hd.
Qed.

Lemma detectar_inicio_datos_first_header_witness :
  detectar_inicio_datos (Returned variables_first) = Z.of_nat 0.
Proof.
  apply (proj1 (detectar_inicio_datos_first_header variables_first) O).
  - right. exists "VAR_0 VAR_1 VAR_2". split; reflexivity.
  - intros j Hj. lia.
Defined.

(** C4 as stated fails when a variables line comes first: the line with
    "odigo" and "stacion" is line 2, the heuristic answers 0. *)
Lemma detectar_inicio_datos_variables_first :
  ~ heuristic_as_claimed variables_first.
Proof.
  intros [Hfirst _]. specialize (Hfirst 2%nat).
  assert (H : primera_cabecera_texto variables_first 2).
  { split.
    - exists "Codigo Estacion Data". split; reflexivity.
    - intros j Hj (line & Hline & Hc).
      destruct j as [|[|j]]; [| |lia]; cbn in Hline; injection Hline as <-;
        vm_compute in Hc; discriminate. }
  specialize (Hfirst H). vm_compute in Hfirst. discriminate.
Qed.

(** C8: [procesar_archivo_ctd] returns [None] whenever the detected index is
    at most 0; in particular a file whose first line is the header (index 0)
    is skipped although its header was found. *)
Theorem procesar_archivo_ctd_skips_line_0 {DataFrame : Type}
    (leer : outcome (list string) -> Z -> option DataFrame) :
  (forall file,
      detectar_inicio_datos file <= 0 -> procesar_archivo_ctd leer file = None)
  /\
  (forall line rest,
      cabecera_texto line = true ->
      detectar_inicio_datos (Returned (line :: rest)) = 0
      /\ procesar_archivo_ctd leer (Returned (line :: rest)) = None).
Proof.
  assert (Hle : forall file,
             detectar_inicio_datos file <= 0 -> procesar_archivo_ctd leer file = None).
  { intros file H. unfold procesar_archivo_ctd.
    by destruct (Z.leb_spec (detectar_inicio_datos file) 0); [|lia]. }
  split; [exact Hle|].
  intros line rest Hline.
  assert (H0 : detectar_inicio_datos (Returned (line :: rest)) = 0).
  { unfold detectar_inicio_datos. cbn [buscar_cabecera]. by rewrite Hline. }
  split; [done|]. apply Hle. lia.
Qed.

Lemma procesar_archivo_ctd_skips_line_0_witness :
  detectar_inicio_datos (Returned header_first) = 0
  /\ procesar_archivo_ctd (fun _ _ => Some tt) (Returned header_first) = None.
Proof.
  apply (proj2 (procesar_archivo_ctd_skips_line_0 (fun _ _ => Some tt))
           "Codigo Estacion Data VAR_0 VAR_1"
           ["A0 Ribeira 2021/09/01 12,5 35,1"]).
  reflexivity.
Defined.

End ProcesarCtdSpec.

(** ** 01_unificar_intecmar.py *)

Module UnificarIntecmarSpec.
Import UnificarIntecmar.

(** *** validar_rangos *)

Lemma contar_invalidos_comparable (min_val max_val : Z) (cells : list cell) :
  Forall (fun c => comparable c = true) cells ->
  exists n, contar_invalidos min_val max_val cells = Returned n.
Proof.
  induction 1 as [|c cells Hc _ [n IH]]; [by exists 0|].
  cbn [contar_invalidos]. rewrite IH.
  destruct c; try discriminate Hc; cbn; by eauto.
Qed.

Lemma revisar_rangos_numericos (rangos : list (string * (Z * Z))) (df : DataFrame) :
  (forall col, col ∈ (List.map fst rangos) ->
     tiene_columna col df = true ->
     exists i, posiciones col (columns df) O = [i]
               /\ Forall (fun r => comparable (List.nth i r CNA) = true) (rows df)) ->
  exists avisos, revisar_rangos rangos df = Returned avisos.
Proof.
  induction rangos as [|[col [min_val max_val]] rest IH]; intros Hnum; [by eexists|].
  cbn [revisar_rangos].
  destruct IH as [avisos IH].
  { intros c Hc. apply Hnum. cbn. by right. }
  rewrite IH. destruct (tiene_columna col df) eqn:Hcol; [|by eauto].
  destruct (Hnum col) as (i & Hpos & Hcells); [cbn; by left|done|].
  unfold columna. rewrite Hpos.
  destruct (contar_invalidos_comparable min_val max_val
              (List.map (fun r => List.nth i r CNA) (rows df))) as [n Hn].
  { apply List.Forall_map. exact Hcells. }
  rewrite Hn. by eauto.
Qed.

(** Whatever [validar_rangos] returns is the frame it was given. *)
Lemma validar_rangos_returns_argument (df df' : DataFrame) (station_name : string)
    (avisos : list (string * Z)) :
  validar_rangos df station_name = Returned (df', avisos) -> df' = df.
Proof.
  unfold validar_rangos. destruct (revisar_rangos RANGOS_VALIDOS df); [|done].
  by intros [= <- _].
Qed.

(** C7: [validar_rangos] hands back the frame it was given, cell for cell:
    whatever it returns is its argument, and on a frame whose range columns
    hold numbers it does return; the values out of range are only counted
    in the warnings. *)
Theorem validar_rangos_keeps_frame (df : DataFrame) (station_name : string) :
  (forall df' avisos,
      validar_rangos df station_name = Returned (df', avisos) -> df' = df)
  /\
  (rangos_numericos df ->
   exists avisos, validar_rangos df station_name = Returned (df, avisos)).
Proof.
  split.
  - intros df' avisos. apply validar_rangos_returns_argument.
  - unfold validar_rangos. intros Hnum. destruct (revisar_rangos_numericos RANGOS_VALIDOS df Hnum) as [avisos ->].
    by exists avisos.
Qed.

Lemma validar_rangos_keeps_frame_witness :
  exists avisos,
    validar_rangos frame_fuera_de_rango "ribeira" = Returned (frame_fuera_de_rango, avisos).
Proof.
  apply (proj2 (validar_rangos_keeps_frame frame_fuera_de_rango "ribeira")).
  intros col Hin Hcol. cbn in Hin.
  repeat (apply elem_of_cons in Hin as [->|Hin]);
    try (by apply elem_of_nil in Hin); try discriminate Hcol.
  - exists 1%nat. split; [reflexivity|]. by repeat constructor.
  - exists 2%nat. split; [reflexivity|]. by repeat constructor.
Defined.

(** The value out of range is reported and stays in the frame. *)
Example validar_rangos_only_warns :
  validar_rangos frame_fuera_de_rango "ribeira"
  = Returned (frame_fuera_de_rango, [("temperatura_1_5m", 1)]).
Proof. reflexivity. Qed.

(** *** Selecting columns *)

Lemma length_posiciones (name : string) (cols : list string) :
  forall i0, length (posiciones name cols i0) = cuenta name cols.
Proof.
  unfold cuenta. induction cols as [|c cols IH]; intros i0; [done|].
  cbn. destruct (String.eqb c name); cbn; by rewrite IH.
Qed.

Lemma posiciones_nth (name : string) (cols : list string) :
  forall i0,
    Forall (fun i => (i0 <= i)%nat /\ List.nth (i - i0) cols "" = name)
           (posiciones name cols i0).
Proof.
  induction cols as [|c cols IH]; intros i0; [by constructor|].
  cbn [posiciones].
  assert (Hrest : Forall (fun i => (i0 <= i)%nat
                                   /\ List.nth (i - i0) (c :: cols) "" = name)
                         (posiciones name cols (S i0))).
  { eapply Forall_impl; [apply (IH (S i0))|].
    intros i [Hle Hnth]. split; [lia|].
    replace (i - i0)%nat with (S (i - S i0)) by lia. exact Hnth. }
  destruct (String.eqb_spec c name) as [->|]; [|done].
  constructor; [|done]. split; [lia|]. by rewrite Nat.sub_diag.
Qed.

Lemma tomar_posiciones (name : string) (cols : list string) :
  tomar "" (posiciones name cols O) cols = repeat name (cuenta name cols).
Proof.
  rewrite <- (length_posiciones name cols O).
  pose proof (posiciones_nth name cols O) as H.
  unfold tomar. induction H as [|i l [_ Hi] _ IH]; [done|].
  cbn. rewrite Nat.sub_0_r in Hi. by rewrite Hi, IH.
Qed.

Lemma tomar_app {A : Type} (d : A) (idx1 idx2 : list nat) (l : list A) :
  tomar d (idx1 ++ idx2) l = tomar d idx1 l ++ tomar d idx2 l.
Proof. apply List.map_app. Qed.

Lemma length_tomar {A : Type} (d : A) (idx : list nat) (l : list A) :
  length (tomar d idx l) = length idx.
Proof. apply List.length_map. Qed.

(** A selection that succeeds puts, for each label asked for and in that
    order, as many columns as bear it, and there is at least one. *)
Lemma indices_columns (names cols : list string) :
  forall idx,
    indices names cols = Returned idx ->
    tomar "" idx cols = flat_map (fun n => repeat n (cuenta n cols)) names
    /\ Forall (fun n => (1 <= cuenta n cols)%nat) names.
Proof.
  induction names as [|name names IH]; intros idx Hidx.
  - injection Hidx as <-. by split.
  - cbn [indices] in Hidx.
    pose proof (length_posiciones name cols O) as Hlen.
    pose proof (tomar_posiciones name cols) as Htake.
    destruct (posiciones name cols O) as [|p ps] eqn:Hpos; [done|].
    destruct (indices names cols) as [qs|e]; [|done].
    injection Hidx as <-. destruct (IH qs eq_refl) as [Hcols Hone].
    split.
    + change (p :: ps ++ qs) with ((p :: ps) ++ qs).
      rewrite tomar_app, Htake, Hcols. done.
    + constructor; [|done]. rewrite <- Hlen. cbn. lia.
Qed.

Lemma cuenta_app (name : string) (l1 l2 : list string) :
  cuenta name (l1 ++ l2) = (cuenta name l1 + cuenta name l2)%nat.
Proof. unfold cuenta. by rewrite List.filter_app, length_app. Qed.

Lemma cuenta_repeat (name m : string) (k : nat) :
  cuenta name (repeat m k) = if String.eqb m name then k else O.
Proof.
  unfold cuenta. induction k as [|k IH]; cbn; [by destruct (String.eqb m name)|].
  destruct (String.eqb m name); cbn; by rewrite ?IH.
Qed.

Lemma cuenta_flat_map_notin (name : string) (k : string -> nat) (names : list string) :
  name ∉ names ->
  cuenta name (flat_map (fun m => repeat m (k m)) names) = O.
Proof.
  induction names as [|m names IH]; intros Hnotin; [done|].
  cbn [flat_map]. rewrite cuenta_app, cuenta_repeat.
  apply not_elem_of_cons in Hnotin as [Hne Hnotin].
  destruct (String.eqb_spec m name) as [->|]; [done|]. by rewrite IH.
Qed.

Lemma cuenta_flat_map (name : string) (k : string -> nat) (names : list string) :
  NoDup names -> name ∈ names ->
  cuenta name (flat_map (fun m => repeat m (k m)) names) = k name.
Proof.
  induction 1 as [|m names Hm _ IH]; intros Hin; [by apply elem_of_nil in Hin|].
  cbn [flat_map]. rewrite cuenta_app, cuenta_repeat.
  destruct (String.eqb_spec m name) as [->|Hne].
  - rewrite cuenta_flat_map_notin by done. lia.
  - apply elem_of_cons in Hin as [->|Hin]; [done|]. by rewrite IH.
Qed.

Lemma flat_map_repeat_once (k : string -> nat) (names : list string) :
  Forall (fun m => k m = 1%nat) names ->
  flat_map (fun m => repeat m (k m)) names = names.
Proof. induction 1 as [|m names Hm _ IH]; [done|]. cbn. by rewrite Hm, IH. Qed.

Lemma columna_cuenta (name what : string) (df : DataFrame) (cells : list cell) :
  columna name what df = Returned cells -> cuenta name (columns df) = 1%nat.
Proof.
  unfold columna. rewrite <- (length_posiciones name (columns df) O).
  by destruct (posiciones name (columns df) O) as [|i [|j l]].
Qed.

Lemma length_en_columna (name : string) (f : cell -> cell) (cols : list string) :
  forall row, length (en_columna name f cols row) = length row.
Proof.
  induction cols as [|c cols IH]; intros [|x row]; cbn; try done. by rewrite IH.
Qed.

Lemma cuenta_pos (name : string) (cols : list string) :
  (1 <= cuenta name cols)%nat -> In name cols.
Proof.
  unfold cuenta. induction cols as [|c cols IH]; cbn; [lia|].
  destruct (String.eqb_spec c name) as [->|]; [by left|]. intros H. right. by apply IH.
Qed.

Lemma COLUMNAS_ESPERADAS_NoDup : NoDup COLUMNAS_ESPERADAS.
Proof. apply (bool_decide_unpack _). by vm_compute. Qed.

Lemma COLUMNAS_ESPERADAS_kinds :
  Forall (fun m => m = "fecha_hora" \/ es_numerica m = true) COLUMNAS_ESPERADAS.
Proof.
  repeat (apply List.Forall_cons; [first [left; reflexivity | right; reflexivity]|]).
  apply List.Forall_nil.
Qed.

(** *** Columns that are there, once *)

Lemma tiene_columna_cuenta (name : string) (df : DataFrame) :
  tiene_columna name df = negb (Nat.eqb (cuenta name (columns df)) 0).
Proof.
  unfold tiene_columna, cuenta. induction (columns df) as [|c cols IH]; [done|].
  cbn. rewrite (String.eqb_sym name c). destruct (String.eqb c name); [done|].
  by rewrite IH.
Qed.

Lemma cuenta_asegurar (m n : string) (df : DataFrame) :
  cuenta m (columns (asegurar df n))
  = if String.eqb n m then Nat.max 1 (cuenta m (columns df)) else cuenta m (columns df).
Proof.
  unfold asegurar, asignar. rewrite tiene_columna_cuenta.
  destruct (Nat.eqb_spec (cuenta n (columns df)) 0) as [Hz|Hnz]; cbn [negb columns].
  - rewrite cuenta_app. unfold cuenta at 2. cbn.
    destruct (String.eqb_spec n m) as [->|]; cbn; lia.
  - destruct (String.eqb_spec n m) as [->|]; lia.
Qed.

Lemma cuenta_fold_asegurar (m : string) (names : list string) :
  forall df,
    cuenta m (columns (fold_left asegurar names df))
    = if bool_decide (m ∈ names) then Nat.max 1 (cuenta m (columns df))
      else cuenta m (columns df).
Proof.
  induction names as [|n names IH]; intros df; [done|].
  cbn [fold_left]. rewrite IH, cuenta_asegurar.
  destruct (String.eqb_spec n m) as [->|Hne].
  - rewrite (bool_decide_eq_true_2 (m ∈ m :: names)) by (by left).
    destruct (bool_decide (m ∈ names)); lia.
  - destruct (decide (m ∈ names)) as [Hin|Hout].
    + rewrite !bool_decide_eq_true_2; [done|by right|done].
    + rewrite !bool_decide_eq_false_2; [done| |done].
      intros [->|?]%elem_of_cons; done.
Qed.

Lemma indices_returns (names cols : list string) :
  Forall (fun n => (1 <= cuenta n cols)%nat) names ->
  exists idx, indices names cols = Returned idx.
Proof.
  induction 1 as [|n names Hn _ [idx IH]]; [by eexists|].
  cbn [indices]. rewrite <- (length_posiciones n cols O) in Hn.
  destruct (posiciones n cols O) as [|p ps]; [cbn in Hn; lia|].
  rewrite IH. by eexists.
Qed.

Lemma columna_returns (name what : string) (df : DataFrame) :
  cuenta name (columns df) = 1%nat ->
  exists cells, columna name what df = Returned cells.
Proof.
  unfold columna. rewrite <- (length_posiciones name (columns df) O).
  destruct (posiciones name (columns df) O) as [|i [|j l]]; try done. by eexists.
Qed.

Lemma flat_map_repeat_length (k : string -> nat) (names : list string) :
  Forall (fun n => (1 <= k n)%nat) names ->
  length (flat_map (fun n => repeat n (k n)) names) = length names ->
  Forall (fun n => k n = 1%nat) names.
Proof.
  intros Hone.
  assert (Hge : forall l, Forall (fun n => (1 <= k n)%nat) l ->
                  (length l <= length (flat_map (fun n => repeat n (k n)) l))%nat).
  { induction 1 as [|n l Hn _ IH]; [done|].
    cbn. rewrite length_app, repeat_length. lia. }
  induction Hone as [|n names Hn Hrest IH]; [done|].
  cbn. rewrite length_app, repeat_length. intros Hlen.
  specialize (Hge names Hrest). constructor; [lia|]. apply IH. lia.
Qed.

(** *** The order of the keys *)

Lemma ascii_compare_refl (a : ascii) : Ascii.compare a a = Eq.
Proof. apply N.compare_refl. Qed.

Lemma ascii_compare_lt_trans (a b c : ascii) :
  Ascii.compare a b = Lt -> Ascii.compare b c = Lt -> Ascii.compare a c = Lt.
Proof.
  unfold Ascii.compare. rewrite !N.compare_lt_iff. apply N.lt_trans.
Qed.

Lemma string_compare_refl (s : string) : String.compare s s = Eq.
Proof. induction s as [|a s IH]; [done|]. cbn. by rewrite ascii_compare_refl. Qed.

Lemma string_compare_lt_trans (s1 : string) :
  forall s2 s3,
    String.compare s1 s2 = Lt -> String.compare s2 s3 = Lt ->
    String.compare s1 s3 = Lt.
Proof.
  induction s1 as [|a s1 IH]; intros [|b s2] [|c s3]; cbn; try done.
  destruct (Ascii.compare a b) eqn:Hab; [|clear IH|done];
    (destruct (Ascii.compare b c) eqn:Hbc; [| |done]).
  - apply Ascii.compare_eq_iff in Hab, Hbc. subst.
    rewrite ascii_compare_refl. apply IH.
  - apply Ascii.compare_eq_iff in Hab. subst. by rewrite Hbc.
  - apply Ascii.compare_eq_iff in Hbc. subst. by rewrite Hab.
  - by rewrite (ascii_compare_lt_trans a b c).
Qed.

#[local] Instance clave_le_total : Total clave_le.
Proof.
  intros [s1 t1] [s2 t2]. unfold clave_le, clave_leb. cbn [fst snd].
  rewrite (String.compare_antisym s2 s1).
  destruct (String.compare s1 s2); cbn; auto.
  destruct (Z.leb_spec t1 t2); [by left|]. right. apply Z.leb_le. lia.
Qed.

#[local] Instance clave_le_trans : Transitive clave_le.
Proof.
  intros [s1 t1] [s2 t2] [s3 t3]. unfold clave_le, clave_leb. cbn [fst snd].
  destruct (String.compare s1 s2) eqn:H12; [| |done];
    (destruct (String.compare s2 s3) eqn:H23; [| |done]).
  - apply String.compare_eq_iff in H12, H23. subst. rewrite string_compare_refl.
    rewrite !Z.leb_le. lia.
  - apply String.compare_eq_iff in H12. subst. by rewrite H23.
  - apply String.compare_eq_iff in H23. subst. by rewrite H12.
  - by rewrite (string_compare_lt_trans s1 s2 s3).
Qed.

#[local] Instance fila_le_total (cols : list string) : Total (fila_le cols).
Proof. intros r1 r2. apply clave_le_total. Qed.

#[local] Instance fila_le_trans (cols : list string) : Transitive (fila_le cols).
Proof. intros r1 r2 r3. apply clave_le_trans. Qed.

Lemma StronglySorted_map {A B : Type} (R : relation B) (f : A -> B) (l : list A) :
  StronglySorted (fun x y => R (f x) (f y)) l -> StronglySorted R (List.map f l).
Proof.
  induction 1 as [|x l _ IH Hx]; cbn; constructor; [done|].
  by apply List.Forall_map.
Qed.

(** *** drop_duplicates *)

Section Duplicados.
Context {K : Type}.
Variable same : list cell -> list cell -> bool.
Variable k : list cell -> K.
Variable P : list cell -> Prop.
Hypothesis same_key :
  forall r1 r2, P r1 -> P r2 -> same r1 r2 = true <-> k r1 = k r2.

Lemma quitar_duplicados_In (l : list (list cell)) (r : list cell) :
  In r (quitar_duplicados same l) -> In r l.
Proof.
  induction l as [|r0 l IH]; [done|]. cbn.
  destruct (existsb (same r0) l); [by right; apply IH|].
  intros [->|H]; [by left|by right; apply IH].
Qed.

Lemma quitar_duplicados_last (l : list (list cell)) :
  Forall P l ->
  forall r, In r (quitar_duplicados same l) ->
    exists pre post, l = pre ++ r :: post /\ forall r', In r' post -> k r' <> k r.
Proof.
  induction 1 as [|r0 l Hr0 Hl IH]; intros r Hin; [done|].
  cbn in Hin. destruct (existsb (same r0) l) eqn:Hex.
  - destruct (IH r Hin) as (pre & post & -> & Hpost).
    by exists (r0 :: pre), post.
  - destruct Hin as [<-|Hin].
    + exists [], l. split; [done|]. intros r' Hr' Heq.
      assert (same r0 r' = true).
      { apply same_key; [done| |done]. rewrite List.Forall_forall in Hl. by apply Hl. }
      assert (existsb (same r0) l = true) by (apply existsb_exists; eauto).
      congruence.
    + destruct (IH r Hin) as (pre & post & -> & Hpost).
      by exists (r0 :: pre), post.
Qed.

Lemma quitar_duplicados_NoDup (l : list (list cell)) :
  Forall P l -> NoDup (List.map k (quitar_duplicados same l)).
Proof.
  induction 1 as [|r0 l Hr0 Hl IH]; [constructor|].
  cbn. destruct (existsb (same r0) l) eqn:Hex; [done|].
  cbn. constructor; [|done].
  rewrite list_elem_of_In, List.in_map_iff. intros (r' & Heq & Hin).
  apply quitar_duplicados_In in Hin.
  assert (same r0 r' = true).
  { apply same_key; [done| |done]. rewrite List.Forall_forall in Hl. by apply Hl. }
  assert (existsb (same r0) l = true) by (apply existsb_exists; eauto).
  congruence.
Qed.

Lemma quitar_duplicados_complete (l : list (list cell)) :
  Forall P l ->
  forall r, In r l -> exists r', In r' (quitar_duplicados same l) /\ k r' = k r.
Proof.
  induction 1 as [|r0 l Hr0 Hl IH]; intros r Hin; [done|].
  cbn. destruct (existsb (same r0) l) eqn:Hex.
  - destruct Hin as [<-|Hin]; [|by apply IH].
    apply existsb_exists in Hex as (r1 & Hr1 & Hs).
    destruct (IH r1 Hr1) as (r' & Hr' & Hk). exists r'. split; [done|].
    rewrite Hk. symmetry. apply same_key; [done| |done].
    rewrite List.Forall_forall in Hl. by apply Hl.
  - destruct Hin as [<-|Hin]; [by exists r0; split; [left|]|].
    destruct (IH r Hin) as (r' & Hr' & Hk). exists r'. split; [by right|done].
Qed.
End Duplicados.

(** *** procesar_archivo *)

Section ProcesarFacts.
Variable read_csv : string -> outcome DataFrame.
Variable parse_float : string -> option float64.
Variable parse_datetime : cell -> option Z.

Lemma columns_fold_transformar (f : cell -> cell) (cols : list string) :
  forall df, columns (fold_left (fun d c => transformar c f d) cols df) = columns df.
Proof. induction cols as [|c cols IH]; intros df; [done|]. cbn. by rewrite IH. Qed.

Lemma forzar_numericos_spec (cols : list string) :
  forall df df',
    forzar_numericos parse_float cols df = Returned df' ->
    df' = fold_left (fun d c => transformar c (to_numeric parse_float) d) cols df
    /\ Forall (fun c => cuenta c (columns df) = 1%nat) cols.
Proof.
  induction cols as [|c cols IH]; intros df df' Hrun.
  - injection Hrun as <-. by split.
  - cbn [forzar_numericos] in Hrun. unfold bind in Hrun.
    destruct (columna c "AttributeError" df) as [cells|e] eqn:Hcol; [|done].
    apply IH in Hrun as [-> Hrest]. split; [done|].
    constructor; [by eapply columna_cuenta|done].
Qed.

(** When the selection of the expected columns, the numeric loop and the
    access to the date column all succeed, the selection has the expected
    columns, once each, and rows of nine cells. *)
Lemma seleccionar_esperadas (df3 df5 df6 : DataFrame) (what : string)
    (cells : list cell) :
  seleccionar COLUMNAS_ESPERADAS df3 = Returned df5 ->
  forzar_numericos parse_float (List.filter es_numerica (columns df5)) df5 = Returned df6 ->
  columna "fecha_hora" what df6 = Returned cells ->
  columns df5 = COLUMNAS_ESPERADAS
  /\ Forall (fun r => length r = 9%nat) (rows df5).
Proof.
  unfold seleccionar. intros Hsel Hnum Hfecha.
  destruct (indices COLUMNAS_ESPERADAS (columns df3)) as [idx|e] eqn:Hidx; [|done].
  injection Hsel as <-. cbn [columns rows] in *.
  destruct (indices_columns _ _ _ Hidx) as [Hcols Hone].
  apply forzar_numericos_spec in Hnum as [-> Hnum]. cbn [columns] in Hnum.
  apply columna_cuenta in Hfecha.
  rewrite columns_fold_transformar in Hfecha. cbn [columns] in Hfecha.
  set (S := tomar "" idx (columns df3)) in *.
  assert (Honce : Forall (fun m => cuenta m (columns df3) = 1%nat) COLUMNAS_ESPERADAS).
  { rewrite List.Forall_forall in Hone, Hnum |- *. intros m Hm.
    assert (HmS : cuenta m S = cuenta m (columns df3)).
    { rewrite Hcols. apply (cuenta_flat_map m (fun n => cuenta n (columns df3))).
      - apply COLUMNAS_ESPERADAS_NoDup.
      - by apply list_elem_of_In. }
    rewrite <- HmS.
    pose proof COLUMNAS_ESPERADAS_kinds as Hk.
    rewrite List.Forall_forall in Hk. destruct (Hk m Hm) as [->|Hesn]; [done|].
    apply Hnum. apply List.filter_In. split; [|done].
    apply cuenta_pos. rewrite HmS. by apply Hone. }
  assert (HS : S = COLUMNAS_ESPERADAS).
  { rewrite Hcols. by apply flat_map_repeat_once. }
  split; [done|].
  apply List.Forall_map. apply List.Forall_forall. intros r _.
  rewrite length_tomar, <- (length_tomar "" idx (columns df3)). fold S. by rewrite HS.
Qed.

Lemma to_numeric_CFloat (c : cell) :
  exists x, to_numeric parse_float c = CFloat x.
Proof. destruct c; cbn; by eauto. Qed.

Lemma forzar_numericos_returns (cols : list string) :
  forall df,
    Forall (fun c => cuenta c (columns df) = 1%nat) cols ->
    forzar_numericos parse_float cols df
    = Returned (fold_left (fun d c => transformar c (to_numeric parse_float) d) cols df).
Proof.
  induction cols as [|c cols IH]; intros df Hall; [done|].
  apply Forall_cons in Hall as [Hc Hall]. cbn [forzar_numericos fold_left].
  destruct (columna_returns c "AttributeError" df Hc) as [cells ->]. cbn [bind].
  by apply IH.
Qed.

Lemma antes_de_validar_numericos (rows5 : list (list cell)) :
  Forall (fun r => length r = 9%nat) rows5 ->
  rangos_numericos (antes_de_validar parse_float parse_datetime rows5).
Proof.
  intros Hrows col Hin Hcol. cbn in Hin.
  assert (Hcells : forall i, (1 <= i <= 8)%nat ->
            Forall (fun r => comparable (List.nth i r CNA) = true)
                   (rows (antes_de_validar parse_float parse_datetime rows5))).
  { intros i Hi. unfold antes_de_validar. cbn -[to_numeric to_datetime].
    apply List.Forall_forall. intros r Hr.
    apply List.filter_In in Hr as [Hr _].
    repeat (apply List.in_map_iff in Hr as (? & <- & Hr)).
    rewrite List.Forall_forall in Hrows. apply Hrows in Hr.
    repeat (match goal with
            | r5 : list cell |- _ => destruct r5 as [|? r5]; [discriminate Hr|]
            end).
    match goal with r5 : list cell |- _ => destruct r5; [|discriminate Hr] end.
    cbn -[to_numeric to_datetime].
    repeat match goal with
           | |- context [to_numeric parse_float ?c] =>
               destruct (to_numeric_CFloat c) as [? ->]
           end.
    do 9 (destruct i as [|i]; [first [lia | reflexivity]|]). lia. }
  repeat (apply elem_of_cons in Hin as [->|Hin]);
    try (by apply elem_of_nil in Hin).
  - exists 3%nat. split; [reflexivity|]. apply Hcells. lia.
  - exists 7%nat. split; [reflexivity|]. apply Hcells. lia.
  - exists 1%nat. split; [reflexivity|]. apply Hcells. lia.
  - exists 5%nat. split; [reflexivity|]. apply Hcells. lia.
Qed.

(** A file of a known station that [pd.read_csv] reads and in which, after
    the renaming, no expected label is borne by two columns is processed. *)
Lemma procesar_archivo_returns (filepath station_name : string) (lat lon : Q)
    (profundidades : list string) (df0 : DataFrame) :
  detectar_estacion (lower (basename filepath))
    = Some (station_name, (lat, lon, profundidades)) ->
  read_csv filepath = Returned df0 ->
  Forall (fun n => (cuenta n (etiquetas df0) <= 1)%nat) COLUMNAS_ESPERADAS ->
  is_Some (procesar_archivo read_csv parse_float parse_datetime filepath).
Proof.
  intros Hst Hread Hmost. unfold procesar_archivo, procesar_try. rewrite Hst.
  unfold bind at 1. rewrite Hread. fold (etiquetas df0).
  set (df3 := fold_left asegurar COLUMNAS_ESPERADAS _).
  assert (Hcount : forall m, In m COLUMNAS_ESPERADAS ->
            cuenta m (columns df3) = Nat.max 1 (cuenta m (etiquetas df0))).
  { intros m Hm. unfold df3. rewrite cuenta_fold_asegurar.
    rewrite bool_decide_eq_true_2; [done|]. by apply list_elem_of_In. }
  assert (Honce : Forall (fun n => cuenta n (columns df3) = 1%nat) COLUMNAS_ESPERADAS).
  { rewrite List.Forall_forall in Hmost |- *. intros m Hm.
    specialize (Hmost m Hm). rewrite (Hcount m Hm). lia. }
  destruct (indices_returns COLUMNAS_ESPERADAS (columns df3)) as [idx Hidx].
  { eapply Forall_impl; [exact Honce|]. intros n Hn. cbn beta in Hn. lia. }
  destruct (indices_columns _ _ _ Hidx) as [Htake _].
  rewrite (flat_map_repeat_once _ _ Honce) in Htake.
  unfold seleccionar. rewrite Hidx, Htake. cbn [bind columns].
  set (rows5 := List.map (tomar CNA idx) (rows df3)).
  assert (Hrows : Forall (fun r => length r = 9%nat) rows5).
  { apply List.Forall_map, List.Forall_forall. intros r _.
    rewrite length_tomar, <- (length_tomar "" idx (columns df3)). by rewrite Htake. }
  rewrite forzar_numericos_returns.
  2:{ apply (bool_decide_unpack _). by vm_compute. }
  cbn [bind].
  destruct (columna_returns "fecha_hora" "ValueError"
              (fold_left (fun d c => transformar c (to_numeric parse_float) d)
                 (List.filter es_numerica COLUMNAS_ESPERADAS)
                 (mkDF COLUMNAS_ESPERADAS rows5))) as [cells ->].
  { by rewrite columns_fold_transformar. }
  cbn [bind]. fold (antes_de_validar parse_float parse_datetime rows5).
  destruct (revisar_rangos_numericos RANGOS_VALIDOS
              (antes_de_validar parse_float parse_datetime rows5)
              (antes_de_validar_numericos rows5 Hrows)) as [avisos Havisos].
  unfold validar_rangos. rewrite Havisos. cbn [bind fst].
  unfold antes_de_validar. cbn -[to_numeric to_datetime]. by eexists.
Qed.

Lemma procesar_archivo_filas (filepath : string) (df : DataFrame) :
  procesar_archivo read_csv parse_float parse_datetime filepath = Some df ->
  exists station_name lat lon profundidades,
    detectar_estacion (lower (basename filepath))
      = Some (station_name, (lat, lon, profundidades))
    /\ columns df = cols_ordenadas
    /\ Forall (fila_unificada station_name lat lon) (rows df).
Proof.
  unfold procesar_archivo, procesar_try.
  destruct (detectar_estacion (lower (basename filepath)))
    as [[station_name [[lat lon] profundidades]]|]; [|done].
  unfold bind. destruct (read_csv filepath) as [df0|e0]; [|done].
  set (df3 := fold_left asegurar COLUMNAS_ESPERADAS _).
  destruct (seleccionar COLUMNAS_ESPERADAS df3) as [df5|e5] eqn:Hsel; [|done].
  destruct (forzar_numericos parse_float _ df5) as [df6|e6] eqn:Hnum; [|done].
  destruct (columna "fecha_hora" "ValueError" df6) as [cells|e7] eqn:Hfecha; [|done].
  destruct (seleccionar_esperadas _ _ _ _ _ Hsel Hnum Hfecha) as [Hcols Hrows].
  apply forzar_numericos_spec in Hnum as [-> _].
  destruct df5 as [cols5 rows5]. cbn [columns rows] in Hcols, Hrows. subst cols5.
  clear Hsel Hfecha cells df3 df0.
  set (df8 := dropna _ _).
  destruct (validar_rangos df8 station_name) as [[df8' avisos]|e8] eqn:Hval; [|done].
  apply validar_rangos_returns_argument in Hval. subst df8'.
  subst df8. cbn -[to_numeric to_datetime].
  intros [= <-]. exists station_name, lat, lon, profundidades.
  split; [done|]. split; [reflexivity|]. cbn [rows].
  apply List.Forall_forall. intros r Hin.
  repeat (apply List.in_map_iff in Hin as (? & <- & Hin)).
  apply List.filter_In in Hin as [Hin Hfecha].
  repeat (apply List.in_map_iff in Hin as (? & <- & Hin)).
  rewrite List.Forall_forall in Hrows. apply Hrows in Hin.
  repeat (match goal with
          | r5 : list cell |- _ => destruct r5 as [|? r5]; [discriminate Hin|]
          end).
  match goal with r5 : list cell |- _ => destruct r5; [|discriminate Hin] end.
  cbn -[to_numeric to_datetime] in Hfecha |- *.
  unfold to_datetime in *. destruct (parse_datetime _) as [t|]; [|discriminate Hfecha].
  repeat match goal with
         | |- context [to_numeric parse_float ?c] =>
             destruct (to_numeric_CFloat c) as [? ->]
         end.
  exists t. eexists [_; _; _; _; _; _; _; _]. split; reflexivity.
Qed.

Lemma fila_unificada_esquema (station_name : string) (lat lon : Q) (r : list cell) :
  fila_unificada station_name lat lon r ->
  length r = 12%nat
  /\ (forall name, name ∈ cols_ordenadas -> es_numerica name = true ->
        exists x, celda name cols_ordenadas r = CFloat x)
  /\ (exists t, celda "fecha_hora" cols_ordenadas r = CTime t)
  /\ celda "estacion" cols_ordenadas r = CStr station_name.
Proof.
  intros (t & xs & Hlen & ->).
  do 8 (destruct xs as [|? xs]; [discriminate Hlen|]).
  destruct xs; [|discriminate Hlen].
  split; [done|]. split; [|split; [by exists t|done]].
  intros name Hin Hnum. vm_compute in Hin.
  repeat (apply elem_of_cons in Hin as [->|Hin]);
    try (by apply elem_of_nil in Hin); try discriminate Hnum;
    cbn; by eauto.
Qed.

(** C9: a frame returned by [procesar_archivo] has the twelve columns
    estacion, lat, lon, fecha_hora and the eight expected data and QC columns
    in that order; in every row each salinity or temperature column holds a
    number and the date is valid; what could not be read as a number was
    made NaN. *)
Theorem procesar_archivo_schema (filepath : string) (df : DataFrame) :
  procesar_archivo read_csv parse_float parse_datetime filepath = Some df ->
  esquema_unificado df
  /\ (forall s, parse_float (replace "," "." s) = None ->
        to_numeric parse_float (CStr s) = CFloat NaN).
Proof.
  intros Hrun. split.
  - destruct (procesar_archivo_filas filepath df Hrun)
      as (station_name & lat & lon & prof & _ & Hcols & Hrows).
    unfold esquema_unificado. rewrite Hcols. split; [reflexivity|].
    eapply Forall_impl; [exact Hrows|]. intros r Hr.
    destruct (fila_unificada_esquema _ _ _ _ Hr) as (H1 & H2 & H3 & _). done.
  - intros s Hs. cbn. by rewrite Hs.
Qed.




(** *** main *)

Lemma leer_todos_filas (all_files : list string) (df : DataFrame) :
  df ∈ leer_todos read_csv parse_float parse_datetime all_files ->
  columns df = cols_ordenadas /\ Forall fila_procesada (rows df).
Proof.
  unfold leer_todos. rewrite list_elem_of_omap. intros (filepath & _ & Hrun).
  destruct (procesar_archivo_filas filepath df Hrun)
    as (station_name & lat & lon & prof & _ & Hcols & Hrows).
  split; [done|]. eapply Forall_impl; [exact Hrows|].
  intros r Hr. by exists station_name, lat, lon.
Qed.

Lemma clave_fila_procesada (r : list cell) :
  fila_procesada r ->
  celda "estacion" cols_ordenadas r = CStr (fst (clave cols_ordenadas r))
  /\ celda "fecha_hora" cols_ordenadas r = CTime (snd (clave cols_ordenadas r)).
Proof. by intros (station_name & lat & lon & t & xs & _ & ->). Qed.

Lemma misma_clave_procesadas (r1 r2 : list cell) :
  fila_procesada r1 -> fila_procesada r2 ->
  misma_clave ["estacion"; "fecha_hora"] cols_ordenadas r1 r2 = true
  <-> clave cols_ordenadas r1 = clave cols_ordenadas r2.
Proof.
  intros (s1 & lat1 & lon1 & t1 & xs1 & _ & ->) (s2 & lat2 & lon2 & t2 & xs2 & _ & ->).
  change (String.eqb s1 s2 && ((t1 =? t2) && true) = true <-> (s1, t1) = (s2, t2)).
  rewrite !andb_true_iff, String.eqb_eq, Z.eqb_eq. split.
  - by intros (-> & -> & _).
  - by intros [= -> ->].
Qed.

(** C5: the table written by [main] has one row for each pair of station
    and date, the last one read with that pair (so the one of the file
    processed last), and its rows ascend by station, then by date. *)
Theorem main_unified_table (all_files : list string) (tabla : DataFrame) :
  main read_csv parse_float parse_datetime all_files = Some tabla ->
  tabla_unificada
    (flat_map rows (leer_todos read_csv parse_float parse_datetime all_files)) tabla.
Proof.
  unfold main. destruct all_files as [|f0 files]; [done|].
  set (dfs := leer_todos read_csv parse_float parse_datetime (f0 :: files)).
  assert (Hdfs : forall df, df ∈ dfs ->
                   columns df = cols_ordenadas /\ Forall fila_procesada (rows df))
    by apply leer_todos_filas.
  destruct dfs as [|df0 dfs']; [done|]. intros [= <-].
  set (entrada := flat_map rows (df0 :: dfs')).
  assert (Hentrada : Forall fila_procesada entrada).
  { apply List.Forall_flat_map. apply List.Forall_forall. intros df Hdf.
    apply Hdfs. by apply list_elem_of_In. }
  destruct (Hdfs df0) as [Hcols _]; [by left|].
  unfold tabla_unificada, sort_values, drop_duplicates, concat.
  cbn [columns rows]. rewrite Hcols. fold entrada.
  set (filas := quitar_duplicados _ entrada).
  set (orden := merge_sort (fila_le cols_ordenadas) filas).
  assert (Hperm : orden ≡ₚ filas) by apply merge_sort_Permutation.
  assert (Hin : forall r, In r orden -> In r filas).
  { intros r Hr. by eapply Permutation_in. }
  split; [|split; [|split; [|split]]].
  - rewrite (Permutation_map (clave cols_ordenadas) Hperm).
    by apply (quitar_duplicados_NoDup _ _ fila_procesada misma_clave_procesadas).
  - intros r Hr. apply Hin in Hr.
    by apply (quitar_duplicados_last _ _ fila_procesada misma_clave_procesadas).
  - intros r Hr.
    destruct (quitar_duplicados_complete _ _ fila_procesada misma_clave_procesadas
                entrada Hentrada r Hr) as (r' & Hr' & Hk).
    exists r'. split; [|done]. eapply Permutation_in; [symmetry; exact Hperm|done].
  - apply StronglySorted_map.
    apply (StronglySorted_merge_sort (fila_le cols_ordenadas)).
  - apply List.Forall_forall. intros r Hr. apply clave_fila_procesada.
    apply Hin, quitar_duplicados_In in Hr.
    rewrite List.Forall_forall in Hentrada. by apply Hentrada.
Qed.

(** [main] writes a table as soon as one file is processed. *)
Lemma main_writes (all_files : list string) :
  leer_todos read_csv parse_float parse_datetime all_files <> [] ->
  exists tabla, main read_csv parse_float parse_datetime all_files = Some tabla.
Proof.
  unfold main. destruct all_files as [|f0 files]; [done|].
  destruct (leer_todos _ _ _ (f0 :: files)); [done|]. by eauto.
Qed.

End ProcesarFacts.

Lemma procesar_archivo_schema_witness :
  exists df,
    procesar_archivo leer_ejemplo parse_float_ejemplo parse_datetime_ejemplo
      "data/raw/c2/Ribeira_2021.csv" = Some df
    /\ esquema_unificado df
    /\ (forall s, parse_float_ejemplo (replace "," "." s) = None ->
          to_numeric parse_float_ejemplo (CStr s) = CFloat NaN).
Proof.
  eexists. split; [vm_compute; reflexivity|].
  apply (procesar_archivo_schema leer_ejemplo parse_float_ejemplo
           parse_datetime_ejemplo "data/raw/c2/Ribeira_2021.csv").
  vm_compute. reflexivity.
Defined.


(** The rows of the sample file: the one without a date is gone, the
    salinity that is no number is NaN. *)
Example procesar_archivo_ribeira :
  rows <$> procesar_archivo leer_ejemplo parse_float_ejemplo parse_datetime_ejemplo
             "data/raw/c2/Ribeira_2021.csv"
  = Some
      [ [ CStr "ribeira"; CFloat (Fin (42551633 # 1000000));
          CFloat (Fin (- (8946442 # 1000000))); CTime 27175690;
          CFloat (Fin (351 # 10)); CFloat (Fin 1); CFloat (Fin (145 # 10));
          CFloat (Fin 1); CFloat NaN; CFloat NaN; CFloat NaN; CFloat NaN ];
        [ CStr "ribeira"; CFloat (Fin (42551633 # 1000000));
          CFloat (Fin (- (8946442 # 1000000))); CTime 27175700;
          CFloat NaN; CFloat (Fin 4); CFloat (Fin (147 # 10));
          CFloat (Fin 1); CFloat NaN; CFloat NaN; CFloat NaN; CFloat NaN ] ].
Proof. vm_compute. reflexivity. Qed.

Lemma main_unified_table_witness :
  exists tabla,
    main leer_ejemplo parse_float_ejemplo parse_datetime_ejemplo archivos_ejemplo
      = Some tabla
    /\ tabla_unificada
         (flat_map rows (leer_todos leer_ejemplo parse_float_ejemplo
                           parse_datetime_ejemplo archivos_ejemplo)) tabla.
Proof.
  eexists. split; [vm_compute; reflexivity|].
  apply (main_unified_table leer_ejemplo parse_float_ejemplo parse_datetime_ejemplo
           archivos_ejemplo).
  vm_compute. reflexivity.
Defined.

(** The table of the sample files: Cortegada before Ribeira, the dates
    ascending, and the reading of 00:20 taken from the file read last. *)
Example main_ejemplo :
  List.map (clave cols_ordenadas) <$>
    (rows <$> main leer_ejemplo parse_float_ejemplo parse_datetime_ejemplo
                archivos_ejemplo)
  = Some [ ("cortegada", 27175690); ("ribeira", 27175690); ("ribeira", 27175700) ]
  /\ (fun t => List.nth 4 (List.nth 2 (rows t) []) CNA) <$>
       main leer_ejemplo parse_float_ejemplo parse_datetime_ejemplo archivos_ejemplo
     = Some (CFloat (Fin (351 # 10))).
Proof. split; vm_compute; reflexivity. Qed.

End UnificarIntecmarSpec.

(** * Further properties *)

(** ** download_bulk.py *)

Module DownloadBulkMore.
Import DownloadBulk DownloadBulkSpec.

(** *** date_range *)

Lemma dates_from_In (n : nat) :
  forall current d, In d (dates_from current n) <-> current <= d < current + Z.of_nat n.
Proof.
  induction n as [|n IH]; intros current d; cbn [dates_from In].
  - lia.
  - rewrite IH. lia.
Qed.

Lemma dates_from_sorted (n : nat) :
  forall current, StronglySorted Z.lt (dates_from current n).
Proof.
  induction n as [|n IH]; intros current; cbn [dates_from]; constructor; [apply IH|].
  apply List.Forall_forall. intros d Hd. apply dates_from_In in Hd. lia.
Qed.

Lemma dates_from_length (n : nat) :
  forall current, length (dates_from current n) = n.
Proof. induction n as [|n IH]; intros c; cbn; [done|]. by rewrite IH. Qed.

(** The generator, for a first date that is a date: it yields the dates up
    to [end] and, if [end] is [date.max], raises on the day after it. *)
Lemma date_range_loop_spec (fuel : nat) :
  forall current end_,
    (Z.to_nat (end_ - current + 1) < fuel)%nat ->
    current <= DATE_MAX -> end_ <= DATE_MAX ->
    date_range_loop fuel current end_
    = (dates_from current (Z.to_nat (end_ - current + 1)),
       if (current <=? end_) && (end_ =? DATE_MAX) then Some date_overflow else None).
Proof.
  induction fuel as [|fuel IH]; intros current end_ Hfuel Hcur Hend; [lia|].
  cbn [date_range_loop].
  destruct (Z.leb_spec current end_) as [Hle|Hgt].
  - replace (Z.to_nat (end_ - current + 1)) with (S (Z.to_nat (end_ - current))) by lia.
    cbn [dates_from andb].
    destruct (Z.leb_spec DATE_MAX current) as [Hmax|Hlt].
    + assert (current = DATE_MAX) by lia. assert (end_ = DATE_MAX) by lia. subst.
      rewrite Z.sub_diag, Z.eqb_refl. reflexivity.
    + rewrite (IH (current + 1) end_) by lia.
      replace (end_ - (current + 1) + 1) with (end_ - current) by lia.
      f_equal. destruct (Z.eqb_spec end_ DATE_MAX) as [->|Hne].
      * destruct (Z.leb_spec (current + 1) DATE_MAX); [done|lia].
      * by rewrite andb_false_r.
  - replace (Z.to_nat (end_ - current + 1)) with O by lia. reflexivity.
Qed.

(** [date_range] yields exactly the dates from [start] to [end], both
    included, each once and in ascending order, none when [end] is before
    [start]; it then ends, unless [end] is [date.max]: then the day added to
    the last date yielded is an [OverflowError]. *)
Theorem date_range_inclusive (start end_ : Z) :
  DATE_MIN <= start <= DATE_MAX ->
  DATE_MIN <= end_ <= DATE_MAX ->
  let '(dates, r) := date_range start end_ in
  (forall d, In d dates <-> start <= d <= end_)
  /\ length dates = Z.to_nat (end_ - start + 1)
  /\ StronglySorted Z.lt dates
  /\ r = if (start <=? end_) && (end_ =? DATE_MAX) then Some date_overflow else None.
Proof.
  intros Hstart Hend. unfold date_range.
  rewrite date_range_loop_spec by lia. split; [|split; [|split]].
  - intros d. rewrite dates_from_In. lia.
  - apply dates_from_length.
  - apply dates_from_sorted.
  - reflexivity.
Qed.

Lemma date_range_inclusive_witness :
  let '(dates, r) := date_range 738034 738040 in
  (forall d, In d dates <-> 738034 <= d <= 738040)
  /\ length dates = Z.to_nat (738040 - 738034 + 1)
  /\ StronglySorted Z.lt dates
  /\ r = if (738034 <=? 738040) && (738040 =? DATE_MAX) then Some date_overflow else None.
Proof.
  apply (date_range_inclusive 738034 738040); unfold DATE_MIN, DATE_MAX; lia.
Defined.

Example date_range_of_the_last_day :
  date_range DATE_MAX DATE_MAX = ([DATE_MAX], Some date_overflow).
Proof. reflexivity. Qed.

(** *** exponential_backoff_retry *)

Section RetryMore.
Context {W A : Type}.
Variable sleep_limit : Q -> option exn.
Variable func : W -> outcome A * W.
Variable max_retries : Z.
Variable base_delay : Q.

(** The loop when attempt [k] is the first that does not fail recoverably
    and it raises something else: that exception leaves the loop at once. *)
Lemma retry_loop_fatal (k : nat) :
  forall (fuel : nat) (attempt : Z) (last_exception : option exn) (w : W)
         (tr : list event) (e : exn),
    attempt + Z.of_nat fuel = max_retries ->
    (k < fuel)%nat ->
    (forall a, attempt <= a < attempt + Z.of_nat k ->
               a < 1024 /\ time_sleep sleep_limit (backoff_delay base_delay a) = None) ->
    (forall i, (i < k)%nat -> fails_recoverably func w i) ->
    outcome_of func w k = Raised e ->
    recoverable e = false ->
    exists tr' : list event,
      retry_loop sleep_limit func max_retries base_delay fuel attempt last_exception w tr
        = (Raised e, state_before func w (S k), tr')
      /\ schedule tr' = schedule tr ++ backoff_schedule base_delay attempt (S k).
Proof.
  induction k as [|k IH];
    intros fuel attempt last_exception w tr e Hn Hk Hok Hfail Hraise Hfatal;
    (destruct fuel as [|fuel]; [lia|]).
  - cbn [retry_loop]. unfold outcome_of in Hraise. cbn [state_before] in *.
    destruct (func w) as [r w1] eqn:Hf. cbn in Hraise. subst r. cbn [snd].
    rewrite Hfatal. eexists. split; [done|].
    rewrite !schedule_app. cbn. by rewrite app_nil_r.
  - destruct (Hfail O ltac:(lia)) as (e0 & He0 & Hrec).
    unfold outcome_of in He0. cbn [state_before] in He0.
    rewrite outcome_of_S in Hraise.
    assert (Hfail' : forall i, (i < k)%nat -> fails_recoverably func (snd (func w)) i).
    { intros i Hi. specialize (Hfail (S i) ltac:(lia)).
      unfold fails_recoverably in *. by rewrite outcome_of_S in Hfail. }
    assert (Hst : state_before func w (S (S k))
                  = state_before func (snd (func w)) (S k)) by done.
    rewrite Hst. clear Hst.
    destruct (func w) as [r w1] eqn:Hf. cbn [fst snd] in He0, Hraise, Hfail' |- *.
    subst r.
    destruct (Hok attempt ltac:(lia)) as [H1024 Hsleep].
    rewrite (retry_loop_retries sleep_limit func max_retries base_delay fuel attempt
               last_exception w w1 tr e0 Hf Hrec ltac:(lia) H1024 Hsleep).
    destruct (IH fuel (attempt + 1) (Some e0) w1
                ((tr ++ [EvAttempt attempt])
                   ++ [EvLog WARNING; EvSleep (backoff_delay base_delay attempt)])
                e ltac:(lia) ltac:(lia) ltac:(intros a Ha; apply Hok; lia)
                Hfail' Hraise Hfatal) as (tr' & Hrun & Hsch).
    exists tr'. split; [done|].
    rewrite Hsch, !schedule_app, (backoff_schedule_S base_delay attempt (S k)).
    cbn. by rewrite <- !app_assoc.
Qed.

(** An exception that is not recoverable is not retried: when attempt [k]
    raises it, after [k] recoverable failures each followed by its sleep,
    the wrapper raises it after exactly [k + 1] attempts. *)
Theorem exponential_backoff_retry_fatal (w : W) (k : nat) (e : exn) :
  (k < Z.to_nat max_retries)%nat ->
  (k <= 1024)%nat ->
  (0 <= base_delay)%Q ->
  (forall attempt, 0 <= attempt < Z.of_nat k ->
                   sleep_limit (backoff_delay base_delay attempt) = None) ->
  (forall i, (i < k)%nat -> fails_recoverably func w i) ->
  outcome_of func w k = Raised e ->
  recoverable e = false ->
  exists tr,
    exponential_backoff_retry sleep_limit func max_retries base_delay w
      = (Raised e, state_before func w (S k), tr)
    /\ attempts tr = S k
    /\ schedule tr = backoff_schedule base_delay 0 (S k).
Proof.
  intros Hk H1024 Hbase Hsleep Hfail Hraise Hfatal. unfold exponential_backoff_retry.
  assert (Hok : forall a, 0 <= a < 0 + Z.of_nat k ->
                  a < 1024
                  /\ time_sleep sleep_limit (backoff_delay base_delay a) = None).
  { intros a Ha. split; [lia|]. apply time_sleep_accepts; [done|]. apply Hsleep. lia. }
  destruct (retry_loop_fatal k (Z.to_nat max_retries) 0 None w [] e
              ltac:(lia) Hk Hok Hfail Hraise Hfatal) as (tr & Hrun & Hsch).
  exists tr. split; [done|]. cbn [schedule List.filter app] in Hsch. split; [|done].
  rewrite <- attempts_schedule, Hsch. apply attempts_backoff_schedule.
Qed.

(** With [max_retries <= 0] the function is never called: the wrapper raises
    the [TypeError] of [raise None] and leaves the world as it was. *)
Theorem exponential_backoff_retry_no_attempt (w : W) :
  max_retries <= 0 ->
  exponential_backoff_retry sleep_limit func max_retries base_delay w
  = (Raised raise_none, w, []).
Proof.
  intros Hle. unfold exponential_backoff_retry.
  by replace (Z.to_nat max_retries) with O by lia.
Qed.

Lemma total_sleep_app (tr1 tr2 : list event) :
  (total_sleep (tr1 ++ tr2) == total_sleep tr1 + total_sleep tr2)%Q.
Proof.
  induction tr1 as [|ev tr1 IH]; cbn [app total_sleep]; [ring|].
  destruct ev; rewrite IH; ring.
Qed.

Lemma total_sleep_schedule (tr : list event) :
  total_sleep (schedule tr) = total_sleep tr.
Proof.
  unfold schedule. induction tr as [|ev tr IH]; [done|].
  destruct ev; cbn; by rewrite IH.
Qed.

Lemma total_sleep_backoff_schedule (n : nat) :
  forall attempt : Z,
    0 <= attempt ->
    (total_sleep (backoff_schedule base_delay attempt (S n))
     == base_delay * inject_Z (2 ^ attempt * (2 ^ Z.of_nat n - 1)))%Q.
Proof.
  induction n as [|n IH]; intros attempt Hpos.
  - cbn. rewrite Z.mul_0_r. change (inject_Z 0) with 0%Q. ring.
  - rewrite backoff_schedule_S. cbn [total_sleep].
    rewrite IH by lia. unfold backoff_delay.
    replace (2 ^ attempt * (2 ^ Z.of_nat (S n) - 1))
      with (2 ^ attempt + 2 ^ (attempt + 1) * (2 ^ Z.of_nat n - 1)).
    + rewrite inject_Z_plus. ring.
    + replace (Z.of_nat (S n)) with (Z.of_nat n + 1) by lia.
      rewrite !Z.pow_add_r by lia. change (2 ^ 1) with 2. ring.
Qed.

(** When every attempt fails recoverably, [base_delay] is not negative and
    every delay is within what the clock takes, the wrapper has slept, in all, [base_delay * (2^(max_retries - 1) - 1)]
    seconds before it gives up. *)
Theorem exponential_backoff_retry_total_sleep (w : W) :
  1 <= max_retries <= 1025 ->
  (0 <= base_delay)%Q ->
  (forall attempt, 0 <= attempt < max_retries - 1 ->
                   sleep_limit (backoff_delay base_delay attempt) = None) ->
  (forall i, (i < Z.to_nat max_retries)%nat -> fails_recoverably func w i) ->
  (total_sleep
     (snd (exponential_backoff_retry sleep_limit func max_retries base_delay w))
   == base_delay * inject_Z (2 ^ (max_retries - 1) - 1))%Q.
Proof.
  intros Hpos Hbase Hsleep Hfail. unfold exponential_backoff_retry.
  assert (Hok : forall a, 0 <= a < max_retries - 1 ->
                  a < 1024
                  /\ time_sleep sleep_limit (backoff_delay base_delay a) = None).
  { intros a Ha. split; [lia|]. apply time_sleep_accepts; [done|by apply Hsleep]. }
  destruct (retry_loop_exhausted sleep_limit func max_retries base_delay
              (Z.to_nat max_retries) 0 None w [] ltac:(lia) Hok Hfail)
    as (last & tr & Hrun & Hsch & _).
  rewrite Hrun. cbn [snd]. rewrite <- total_sleep_schedule, Hsch.
  cbn [schedule List.filter app].
  destruct (Z.to_nat max_retries) as [|n] eqn:Hn; [lia|].
  rewrite total_sleep_backoff_schedule by lia.
  replace (Z.of_nat n) with (max_retries - 1) by lia.
  rewrite Z.pow_0_r, Z.mul_1_l. reflexivity.
Qed.
End RetryMore.

Lemma exponential_backoff_retry_fatal_witness :
  exists tr,
    exponential_backoff_retry clock_limit timeout_then_fatal 3 2%Q O
    = (Raised (Exn (OtherException "KeyError") "prec"), 2%nat, tr)
    /\ attempts tr = 2%nat
    /\ schedule tr = backoff_schedule 2%Q 0 2.
Proof.
  apply (exponential_backoff_retry_fatal clock_limit timeout_then_fatal
           3 2%Q O 1).
  - cbn. lia.
  - lia.
  - discriminate.
  - intros attempt Ha. by replace attempt with 0 by lia.
  - intros i Hi. replace i with O by lia.
    by exists (Exn RequestsTimeout "timed out").
  - reflexivity.
  - reflexivity.
Defined.

Lemma exponential_backoff_retry_no_attempt_witness :
  exponential_backoff_retry clock_limit always_timeout (-1) 2%Q tt
  = (Raised raise_none, tt, []).
Proof.
  apply (exponential_backoff_retry_no_attempt clock_limit always_timeout
           (-1) 2%Q tt).
  lia.
Defined.

Lemma exponential_backoff_retry_total_sleep_witness :
  (total_sleep
     (snd (exponential_backoff_retry clock_limit always_timeout 3 2%Q tt))
   == 2 * inject_Z (2 ^ (3 - 1) - 1))%Q.
Proof.
  apply (exponential_backoff_retry_total_sleep clock_limit always_timeout
           3 2%Q tt).
  - lia.
  - discriminate.
  - intros attempt Ha.
    assert (attempt = 0 \/ attempt = 1) as [-> | ->] by lia; reflexivity.
  - intros i _. exists (Exn RequestsTimeout "timed out"). split; [|reflexivity].
    unfold outcome_of. by destruct (state_before always_timeout tt i).
Defined.

(** *** download_precipitation_data under the retry wrapper *)

(** When the system lets the target be removed,
    [download_precipitation_data] catches every exception itself, so the
    wrapper around it in [main] never retries: with [max_retries >= 1] there
    is one attempt, no sleep, and the wrapper returns what that attempt
    returned. *)
Theorem download_is_attempted_once (env : Env) (sleep_limit : Q -> option exn)
    (url filepath : string) (timeout max_retries : Z) (base_delay : Q) (w : World) :
  (forall n, unlink env n filepath = None) ->
  1 <= max_retries ->
  exists b w',
    download_precipitation_data env url filepath timeout w = (Returned b, w')
    /\ exponential_backoff_retry sleep_limit
         (download_precipitation_data env url filepath timeout)
         max_retries base_delay w
       = (Returned b, w', [EvAttempt 0]).
Proof.
  intros Hunlink Hpos.
  destruct (download_precipitation_data_returns env url filepath timeout w Hunlink)
    as (b & w' & Hrun).
  exists b, w'. split; [done|]. unfold exponential_backoff_retry.
  destruct (Z.to_nat max_retries) as [|n] eqn:Hn; [lia|].
  cbn [retry_loop]. by rewrite Hrun.
Qed.

Lemma download_is_attempted_once_witness :
  exists b w',
    download_precipitation_data env_disk_full "u" "out.nc" 60 world0 = (Returned b, w')
    /\ exponential_backoff_retry clock_limit
         (download_precipitation_data env_disk_full "u" "out.nc" 60) 3 2%Q world0
       = (Returned b, w', [EvAttempt 0]).
Proof.
  apply (download_is_attempted_once env_disk_full clock_limit "u" "out.nc" 60
           3 2%Q world0).
  - reflexivity.
  - lia.
Defined.

(** When it does not, the [OSError] of [unlink] leaves the function and the
    wrapper tries again. *)
Example download_is_retried_when_undeletable :
  attempts (snd (exponential_backoff_retry clock_limit
                   (download_precipitation_data env_undeletable "u" "out.nc" 60)
                   3 2%Q world0))
  = 3%nat.
Proof. reflexivity. Qed.

(** *** validate_netcdf_file and check_remote_file_exists *)

(** [validate_netcdf_file] answers [True] exactly for a file that exists, can
    be read as NetCDF and holds a non-empty [prec]; it reads only: the file
    system and the list of server contacts are as before. *)
Theorem validate_netcdf_file_reads_only (filepath : string) (w : World) :
  (fst (validate_netcdf_file filepath w) = true <->
   exists sz ds size,
     fs w !! filepath = Some (mkFile sz (NetCDF ds))
     /\ ds !! "prec" = Some size /\ size <> 0)
  /\ fs (snd (validate_netcdf_file filepath w)) = fs w
  /\ net (snd (validate_netcdf_file filepath w)) = net w.
Proof.
  split; [apply validate_netcdf_file_true | apply validate_netcdf_file_fs].
Qed.

Ltac by_cases :=
  repeat split; intros;
  repeat match goal with
         | H : _ /\ _ |- _ => destruct H
         | H : _ \/ _ |- _ => destruct H
         | H : exists _, _ |- _ => destruct H
         end;
  simplify_eq/=; try done; eauto 8.

(** [check_remote_file_exists] makes one HEAD request, to the URL with
    "dodsC" replaced by "fileServer", and touches no file.  It answers
    [False] exactly on status 404 and [True] exactly on status 200; any other
    status, a timeout and a connection error give [None]; any other exception
    of the request is raised to the caller. *)
Theorem check_remote_file_exists_answers (env : Env) (url : string) (timeout : Z)
    (w : World) :
  let check_url := replace "dodsC" "fileServer" url in
  let reply := head env (length (net w)) check_url in
  let '(r, w') := check_remote_file_exists env url timeout w in
  net w' = net w ++ [ReqHead check_url]
  /\ fs w' = fs w
  /\ (r = Returned (Some false) <-> reply = HeadStatus 404)
  /\ (r = Returned (Some true) <-> reply = HeadStatus 200)
  /\ (r = Returned None <->
      (exists code, reply = HeadStatus code /\ code <> 404 /\ code <> 200)
      \/ (exists e, reply = HeadRaises e
                    /\ (exn_cls e = RequestsTimeout
                        \/ exn_cls e = RequestsConnectionError)))
  /\ (forall e, r = Raised e <->
        reply = HeadRaises e /\ exn_cls e <> RequestsTimeout
        /\ exn_cls e <> RequestsConnectionError).
Proof.
  unfold check_remote_file_exists.
  destruct (head env (length (net w)) (replace "dodsC" "fileServer" url))
    as [code|e] eqn:Hreply.
  - destruct (Z.eqb_spec code 404) as [->|H404]; [cbn; by_cases|].
    destruct (Z.eqb_spec code 200) as [->|H200]; cbn; by_cases.
  - destruct e as [cls msg]. destruct cls; cbn; by_cases.
Qed.

(** *** download_precipitation_data *)

(** When the remote dataset has no [prec] the function returns [False]
    without writing or removing anything: the file system is as before and
    the server was contacted once, to open the dataset. *)
Theorem download_without_prec (env : Env) (url filepath : string) (timeout : Z)
    (w : World) (ds : Dataset) :
  open_remote env (length (net w)) url = Returned ds ->
  ds !! "prec" = None ->
  exists w',
    download_precipitation_data env url filepath timeout w = (Returned false, w')
    /\ fs w' = fs w
    /\ net w' = net w ++ [ReqOpen url].
Proof.
  intros Hopen Hprec. unfold download_precipitation_data, download_try.
  cbn [setenv net]. rewrite Hopen, Hprec. by eexists.
Qed.

(** A download that returns [True] has written a file that
    [validate_netcdf_file] accepts, provided the remote [prec] is not empty;
    when it is empty the download still returns [True] but the file does not
    pass the validation. *)
Theorem download_then_validate (env : Env) (url filepath : string) (timeout : Z)
    (w w' : World) :
  download_precipitation_data env url filepath timeout w = (Returned true, w') ->
  exists ds n,
    open_remote env (length (net w)) url = Returned ds
    /\ ds !! "prec" = Some n
    /\ fst (validate_netcdf_file filepath w') = negb (n =? 0).
Proof.
  unfold download_precipitation_data.
  destruct (download_try env url filepath timeout w) as [[b|e] w1] eqn:Htry.
  - intros [= -> ->]. unfold download_try in Htry. cbn [setenv net] in Htry.
    destruct (open_remote env (length (net w)) url) as [ds|e] eqn:Hopen; [|done].
    destruct (ds !! "prec") as [n|] eqn:Hprec; [|done].
    destruct (to_netcdf env _ filepath) as [size|e partial]; [|done].
    injection Htry as <-. exists ds, n. split; [done|]. split; [done|].
    unfold validate_netcdf_file. cbn [fs logw set_fs contact].
    rewrite lookup_insert_eq, lookup_singleton_eq. by destruct (n =? 0).
  - intros Hex. pose proof (download_except_spec env filepath w1) as Hspec.
    rewrite Hex in Hspec. by destruct Hspec.
Qed.

(** *** What an iteration does to the files *)

Ltac world_simpl :=
  cbn [fs net environ slept logged setenv logw logw_at set_fs contact sleep fst snd].

Lemma check_existing_frame (env : Env) (config : Config) (filepath : string)
    (stats : Stats) (w : World) :
  let '(_, w1) := check_existing env config filepath stats w in
  net w1 = net w /\ forall p, p <> filepath -> fs w1 !! p = fs w !! p.
Proof.
  unfold check_existing. destruct (fs w !! filepath) as [f|]; [|done].
  destruct (MIN_FILE_SIZE config <? st_size f).
  - destruct (validate_netcdf_file_fs filepath w) as [Hfs Hnet].
    destruct (validate_netcdf_file filepath w) as [[|] w1]; cbn [fst snd] in *.
    + world_simpl. by rewrite Hfs, Hnet.
    + cbn zeta. destruct (unlink env _ filepath); world_simpl; rewrite Hfs, Hnet;
        (split; [done|]); intros p Hp; [done|by apply lookup_delete_ne].
  - cbn zeta. destruct (unlink env _ filepath); world_simpl;
      (split; [done|]); intros p Hp; [done|by apply lookup_delete_ne].
Qed.

(** A file that is there but too small or not valid is removed by step 1,
    when the system lets it go. *)
Lemma check_existing_removes (env : Env) (config : Config) (filepath : string)
    (stats : Stats) (w : World) (f : File) :
  (forall n, unlink env n filepath = None) ->
  fs w !! filepath = Some f ->
  st_size f <= MIN_FILE_SIZE config \/ fst (validate_netcdf_file filepath w) = false ->
  exists stats1 w1,
    check_existing env config filepath stats w = (Returned (Some tt, stats1), w1)
    /\ fs w1 !! filepath = None
    /\ descargados stats1 = descargados stats.
Proof.
  intros Hunlink Hf Hbad. unfold check_existing. rewrite Hf.
  destruct (Z.ltb_spec (MIN_FILE_SIZE config) (st_size f)) as [Hlt|Hge].
  - destruct Hbad as [?|Hinv]; [lia|].
    destruct (validate_netcdf_file filepath w) as [valid w1]. cbn in Hinv. subst valid.
    cbn zeta. rewrite Hunlink.
    eexists _, _. split; [done|]. split; [|done]. cbn. apply lookup_delete_eq.
  - cbn zeta. rewrite Hunlink.
    eexists _, _. split; [done|]. split; [|done]. cbn. apply lookup_delete_eq.
Qed.

Lemma check_remote_file_exists_fs (env : Env) (url : string) (timeout : Z) (w : World) :
  fs (snd (check_remote_file_exists env url timeout w)) = fs w.
Proof.
  unfold check_remote_file_exists.
  destruct (head env _ _) as [code|[cls msg]].
  - destruct (code =? 404); [done|]. by destruct (code =? 200).
  - by destruct cls.
Qed.

Lemma download_frame (env : Env) (url filepath : string) (timeout : Z) (w : World) :
  forall p, p <> filepath ->
    fs (snd (download_precipitation_data env url filepath timeout w)) !! p = fs w !! p.
Proof.
  intros p Hp. unfold download_precipitation_data.
  assert (Htry : fs (snd (download_try env url filepath timeout w)) !! p = fs w !! p).
  { unfold download_try. world_simpl.
    destruct (open_remote env _ url) as [ds|e]; [|done].
    destruct (ds !! "prec") as [n|]; [|done].
    destruct (to_netcdf env _ filepath) as [size|e [f|]]; world_simpl;
      by rewrite ?lookup_insert_ne. }
  destruct (download_try env url filepath timeout w) as [[b|e] w1]; [done|].
  cbn [snd] in Htry. rewrite <- Htry.
  unfold download_except. world_simpl.
  destruct (fs w1 !! filepath); [|done].
  destruct (unlink env _ filepath); world_simpl; [done|].
  by rewrite lookup_delete_ne.
Qed.

(** After a download onto a free path the path holds the new file when the
    answer is [True] and nothing when it is [False]. *)
Lemma download_result (env : Env) (url filepath : string) (timeout : Z)
    (w w' : World) (b : bool) :
  fs w !! filepath = None ->
  download_precipitation_data env url filepath timeout w = (Returned b, w') ->
  if b then exists size n, fs w' !! filepath = Some (mkFile size (NetCDF {["prec" := n]}))
  else fs w' !! filepath = None.
Proof.
  intros Hfree. unfold download_precipitation_data.
  destruct (download_try env url filepath timeout w) as [[b'|e] w1] eqn:Htry.
  - intros [= -> ->]. unfold download_try in Htry.
    cbn [fs net setenv logw set_fs contact] in Htry.
    destruct (open_remote env _ url) as [ds|e]; [|done].
    destruct (ds !! "prec") as [n|]; [|by injection Htry as <- <-].
    destruct (to_netcdf env _ filepath) as [size|e f]; [|done].
    injection Htry as <- <-. exists size, n. world_simpl. apply lookup_insert_eq.
  - intros Hex. pose proof (download_except_spec env filepath w1) as Hspec.
    rewrite Hex in Hspec. by destruct Hspec as [-> Hgone].
Qed.

Section RetryInvariant.
Context {W A : Type}.
Variable sleep_limit : Q -> option exn.
Variable func : W -> outcome A * W.
Variable max_retries : Z.
Variable base_delay : Q.
Variable P : W -> Prop.
Hypothesis func_keeps : forall w, P w -> P (snd (func w)).

(** What every call of the function keeps, the wrapper keeps. *)
Lemma retry_loop_keeps (fuel : nat) :
  forall attempt last_exception w tr,
    P w ->
    P (snd (fst (retry_loop sleep_limit func max_retries base_delay fuel attempt
                   last_exception w tr))).
Proof.
  induction fuel as [|fuel IH]; intros attempt last_exception w tr Hw; [done|].
  cbn [retry_loop]. specialize (func_keeps w Hw).
  destruct (func w) as [[a|e] w1]; cbn [snd] in func_keeps; [done|].
  destruct (recoverable e); [|done].
  destruct (attempt <? max_retries - 1); [|by apply IH].
  destruct (1024 <=? attempt); [done|]. cbn zeta.
  destruct (time_sleep sleep_limit _); [done|by apply IH].
Qed.
End RetryInvariant.

Lemma replay_fs (tr : list event) :
  forall w, fs (replay tr w) = fs w /\ net (replay tr w) = net w.
Proof.
  unfold replay. induction tr as [|ev tr IH]; intros w; [done|].
  cbn [fold_left]. destruct ev; by rewrite (proj1 (IH _)), (proj2 (IH _)).
Qed.

Lemma fetch_frame (env : Env) (config : Config) (url filepath : string)
    (stats : Stats) (w : World) :
  forall p, p <> filepath ->
    fs (snd (fetch env config url filepath stats w)) !! p = fs w !! p.
Proof.
  intros p Hp. unfold fetch.
  pose proof (check_remote_file_exists_fs env url (TIMEOUT_SECONDS config) w) as Hfs.
  destruct (check_remote_file_exists env url (TIMEOUT_SECONDS config) w)
    as [[[[|]|]|e] w1]; cbn [snd] in Hfs |- *; try (by rewrite <- Hfs).
  assert (Hfunc : forall w0 : World,
             fs w0 !! p = fs w !! p ->
             fs (snd (download_precipitation_data env url filepath
                        (TIMEOUT_SECONDS config) w0)) !! p = fs w !! p).
  { intros w0 H0. by rewrite download_frame. }
  assert (Hw1 : fs w1 !! p = fs w !! p) by (by rewrite Hfs).
  pose proof (retry_loop_keeps (sleep_limit env)
                (download_precipitation_data env url filepath (TIMEOUT_SECONDS config))
                (MAX_RETRIES config) (RETRY_BASE_DELAY config)
                (fun w' => fs w' !! p = fs w !! p) Hfunc
                (Z.to_nat (MAX_RETRIES config)) 0 None w1 [] Hw1) as Hkeep.
  cbn beta in Hkeep.
  fold (exponential_backoff_retry (sleep_limit env)
          (download_precipitation_data env url filepath (TIMEOUT_SECONDS config))
          (MAX_RETRIES config) (RETRY_BASE_DELAY config) w1) in Hkeep.
  destruct (exponential_backoff_retry _ _ _ _ w1) as [[r w2] tr]. cbn [fst snd] in Hkeep.
  destruct r as [[|]|e]; cbn; by rewrite (proj1 (replay_fs tr w2)).
Qed.

(** An iteration touches no file but the target of its date, whether it
    completes or is cut short by an exception of the HEAD request. *)
Theorem process_date_touches_only_target (env : Env) (config : Config)
    (current_date : Z) (stats : Stats) (w : World) (p : string) :
  p <> target_path env config current_date ->
  fs (snd (process_date env config current_date stats w)) !! p = fs w !! p.
Proof.
  intros Hp. unfold process_date.
  pose proof (check_existing_frame env config (target_path env config current_date)
                stats w) as Hpre.
  destruct (check_existing env config _ stats w) as [[[[[]|] stats1]|e] w1];
    destruct Hpre as [_ Hpre]; cbn [snd]; try (by apply Hpre).
  rewrite fetch_frame by done. by apply Hpre.
Qed.

(** When the system lets the target be removed, a file that is too small or
    fails the validation does not survive an iteration that completes:
    afterwards its path holds nothing, or it holds a file that this
    iteration downloaded and counted in [descargados]. *)
Theorem process_date_replaces_invalid (env : Env) (config : Config)
    (current_date : Z) (stats stats' : Stats) (w w' : World) (f : File) :
  let filepath := target_path env config current_date in
  (forall n, unlink env n filepath = None) ->
  fs w !! filepath = Some f ->
  st_size f <= MIN_FILE_SIZE config \/ fst (validate_netcdf_file filepath w) = false ->
  process_date env config current_date stats w = (Returned stats', w') ->
  fs w' !! filepath = None
  \/ (exists size n,
        descargados stats' = descargados stats + 1
        /\ fs w' !! filepath = Some (mkFile size (NetCDF {["prec" := n]}))).
Proof.
  intros filepath Hunlink Hf Hbad. unfold process_date. fold filepath.
  destruct (check_existing_removes env config filepath stats w f Hunlink Hf Hbad)
    as (stats1 & w1 & -> & Hgone & Hd).
  unfold fetch.
  pose proof (check_remote_file_exists_fs env (source_url env config current_date)
                (TIMEOUT_SECONDS config) w1) as Hfs.
  destruct (check_remote_file_exists env _ (TIMEOUT_SECONDS config) w1)
    as [[[[|]|]|e] w2]; cbn [snd] in Hfs;
    try (intros [= <- <-]; left; cbn; by rewrite Hfs).
  assert (Hfree : fs w2 !! filepath = None) by (by rewrite Hfs).
  unfold exponential_backoff_retry.
  destruct (Z.to_nat (MAX_RETRIES config)) as [|n].
  { intros [= <- <-]. left. cbn. done. }
  cbn [retry_loop].
  destruct (download_precipitation_data_returns env (source_url env config current_date)
              filepath (TIMEOUT_SECONDS config) w2 Hunlink) as (b & w3 & Hrun).
  rewrite Hrun. pose proof (download_result _ _ _ _ _ _ _ Hfree Hrun) as Hres.
  destruct b; intros [= <- <-].
  - right. destruct Hres as (size & m & Hres). exists size, m.
    cbn. split; [lia|done].
  - left. done.
Qed.

(** When it does not, the iteration ends [main] with the file in place. *)
Example process_date_keeps_undeletable :
  let '(r, w') := process_date env_undeletable config0 738034 stats0 world_with_stub in
  r = Raised (Exn OSError "Permission denied")
  /\ fs w' = fs world_with_stub.
Proof. split; reflexivity. Qed.

(** *** The loop over the dates *)

(** What one completed iteration adds to the counters. *)
Lemma process_date_step (env : Env) (config : Config) (current_date : Z)
    (stats stats' : Stats) (w w' : World) :
  process_date env config current_date stats w = (Returned stats', w') ->
  procesados stats' = procesados stats + 1
  /\ 0 <= existentes stats' - existentes stats
  /\ 0 <= corruptos_reparados stats' - corruptos_reparados stats
  /\ (existentes stats' - existentes stats)
     + (corruptos_reparados stats' - corruptos_reparados stats) <= 1.
Proof.
  unfold process_date.
  pose proof (check_existing_counts env config (target_path env config current_date)
                stats w) as Hpre.
  destruct (check_existing env config _ stats w) as [[[[[]|] stats1]|e] w1]; [| |done].
  - intros Hfetch. apply fetch_counts in Hfetch. unfold procesados.
    destruct Hpre as [->| ->]; destruct Hfetch as [->|[->| ->]]; cbn; lia.
  - intros [= <- <-]. subst stats1. unfold procesados. cbn. lia.
Qed.

Lemma main_loop_counts (env : Env) (config : Config) (all_dates : list Z) :
  forall (i : nat) (stats stats' : Stats) (w w' : World),
    main_loop env config all_dates i stats w = (Returned stats', w') ->
    0 <= procesados stats' - procesados stats <= Z.of_nat (length all_dates)
    /\ ((forall j, kill_now env j = false) ->
        procesados stats' - procesados stats = Z.of_nat (length all_dates))
    /\ 0 <= corruptos_reparados stats' - corruptos_reparados stats
       <= (procesados stats' - procesados stats) - (existentes stats' - existentes stats).
Proof.
  induction all_dates as [|d rest IH]; intros i stats stats' w w' Hrun.
  - injection Hrun as <- <-. cbn. lia.
  - cbn [main_loop] in Hrun. destruct (kill_now env i) eqn:Hkill.
    + injection Hrun as <- <-. cbn [length]. split; [lia|]. split; [|lia].
      intros Hnever. rewrite Hnever in Hkill. discriminate.
    + destruct (process_date env config d stats w) as [[stats1|e] w1] eqn:Hstep;
        [|done].
      apply process_date_step in Hstep as (Hp & He & Hc & Hec).
      apply IH in Hrun as (Hle & Hall & Hcorr).
      cbn [length]. split; [lia|]. split; [|lia].
      intros Hnever. specialize (Hall Hnever). lia.
Qed.

(** When the loop runs to its end the four outcome counters have grown, in
    all, by the number of dates gone through: by the length of the list
    when no signal arrives, by less when one cut the loop short.  The
    repaired files are never more than the dates that were not skipped. *)
Theorem main_loop_accounts (env : Env) (config : Config) (all_dates : list Z)
    (i : nat) (stats stats' : Stats) (w w' : World) :
  main_loop env config all_dates i stats w = (Returned stats', w') ->
  0 <= procesados stats' - procesados stats <= Z.of_nat (length all_dates)
  /\ ((forall j, kill_now env j = false) ->
      procesados stats' - procesados stats = Z.of_nat (length all_dates))
  /\ 0 <= corruptos_reparados stats' - corruptos_reparados stats
     <= (procesados stats' - procesados stats) - (existentes stats' - existentes stats).
Proof. apply main_loop_counts. Qed.

Lemma main_loop_accounts_witness :
  0 <= procesados (mkStats 1 0 0 0 0) - procesados stats0
    <= Z.of_nat (length [738034])
  /\ ((forall j, kill_now quiet_env j = false) ->
      procesados (mkStats 1 0 0 0 0) - procesados stats0 = Z.of_nat (length [738034]))
  /\ 0 <= corruptos_reparados (mkStats 1 0 0 0 0) - corruptos_reparados stats0
     <= (procesados (mkStats 1 0 0 0 0) - procesados stats0)
        - (existentes (mkStats 1 0 0 0 0) - existentes stats0).
Proof.
  apply (main_loop_accounts quiet_env config0 [738034] O stats0 (mkStats 1 0 0 0 0)
           world_with_file
           (snd (main_loop quiet_env config0 [738034] O stats0 world_with_file))).
  vm_compute. reflexivity.
Defined.



(** *** main *)



(** A date downloaded in one iteration is skipped by the next one: when the
    path is free, the server has the file, the dataset holds a non-empty
    [prec] and the file written is larger than [MIN_FILE_SIZE], the first
    iteration counts a download and a second one for the same date counts an
    existing file without any contact with the server. *)
Theorem process_date_download_then_skip (env : Env) (config : Config)
    (current_date : Z) (stats : Stats) (w : World) (ds : Dataset) (n size : Z) :
  fs w !! target_path env config current_date = None ->
  (forall i url, head env i url = HeadStatus 200) ->
  (forall i url, open_remote env i url = Returned ds) ->
  ds !! "prec" = Some n -> n <> 0 ->
  (forall i filepath, to_netcdf env i filepath = Written size) ->
  MIN_FILE_SIZE config < size ->
  1 <= MAX_RETRIES config ->
  exists w1 w2,
    process_date env config current_date stats w = (Returned (inc_descargados stats), w1)
    /\ process_date env config current_date (inc_descargados stats) w1
       = (Returned (inc_existentes (inc_descargados stats)), w2)
    /\ net w2 = net w1
    /\ fs w2 = fs w1.
Proof.
  intros Hfree Hhead Hopen Hprec Hn Hwrite Hsize Hretries.
  set (filepath := target_path env config current_date) in *.
  assert (Hfirst : exists w1,
             process_date env config current_date stats w
             = (Returned (inc_descargados stats), w1)
             /\ fs w1 !! filepath = Some (mkFile size (NetCDF {["prec" := n]}))).
  { unfold process_date, check_existing. fold filepath. rewrite Hfree.
    unfold fetch, check_remote_file_exists. rewrite Hhead. cbn [Z.eqb Pos.eqb].
    unfold exponential_backoff_retry.
    destruct (Z.to_nat (MAX_RETRIES config)) as [|k] eqn:Hk; [lia|].
    cbn [retry_loop].
    unfold download_precipitation_data, download_try.
    rewrite Hopen, Hprec, Hwrite.
    eexists. split; [reflexivity|].
    world_simpl. rewrite (proj1 (replay_fs _ _)). world_simpl.
    apply lookup_insert_eq. }
  destruct Hfirst as (w1 & Hrun1 & Hfile).
  exists w1. unfold process_date at 2, check_existing. fold filepath.
  rewrite Hfile. cbn [st_size].
  destruct (Z.ltb_spec (MIN_FILE_SIZE config) size); [|lia].
  unfold validate_netcdf_file. rewrite Hfile, lookup_singleton_eq.
  destruct (Z.eqb_spec n 0); [done|].
  eexists. split; [done|]. split; [reflexivity|]. done.
Qed.

Lemma download_without_prec_witness :
  exists w',
    download_precipitation_data env_sin_prec "u" "out.nc" 60 world_with_file
      = (Returned false, w')
    /\ fs w' = fs world_with_file
    /\ net w' = net world_with_file ++ [ReqOpen "u"].
Proof.
  apply (download_without_prec env_sin_prec "u" "out.nc" 60 world_with_file
           {["temp" := 4096]}); reflexivity.
Defined.

Lemma download_then_validate_witness :
  exists ds n,
    open_remote quiet_env (length (net world0)) "u" = Returned ds
    /\ ds !! "prec" = Some n
    /\ fst (validate_netcdf_file "out.nc"
              (snd (download_precipitation_data quiet_env "u" "out.nc" 60 world0)))
       = negb (n =? 0).
Proof.
  apply (download_then_validate quiet_env "u" "out.nc" 60 world0). reflexivity.
Defined.

Lemma process_date_touches_only_target_witness :
  fs (snd (process_date quiet_env config0 738034 stats0 world0)) !! "notes.txt"
  = fs world0 !! "notes.txt".
Proof.
  apply (process_date_touches_only_target quiet_env config0 738034 stats0 world0
           "notes.txt").
  vm_compute. discriminate.
Defined.

Lemma process_date_replaces_invalid_witness :
  fs (snd (process_date env_404 config0 738034 stats0 world_with_stub))
    !! target_path env_404 config0 738034 = None
  \/ (exists size n,
        descargados (mkStats 0 0 1 0 0) = descargados stats0 + 1
        /\ fs (snd (process_date env_404 config0 738034 stats0 world_with_stub))
             !! target_path env_404 config0 738034
           = Some (mkFile size (NetCDF {["prec" := n]}))).
Proof.
  apply (process_date_replaces_invalid env_404 config0 738034 stats0 (mkStats 0 0 1 0 0)
           world_with_stub
           (snd (process_date env_404 config0 738034 stats0 world_with_stub))
           (mkFile 10 Unreadable)).
  - reflexivity.
  - apply lookup_singleton_eq.
  - left. cbn. lia.
  - vm_compute. reflexivity.
Defined.

Lemma process_date_download_then_skip_witness :
  exists w1 w2,
    process_date quiet_env config0 738034 stats0 world0
      = (Returned (inc_descargados stats0), w1)
    /\ process_date quiet_env config0 738034 (inc_descargados stats0) w1
       = (Returned (inc_existentes (inc_descargados stats0)), w2)
    /\ net w2 = net w1
    /\ fs w2 = fs w1.
Proof.
  apply (process_date_download_then_skip quiet_env config0 738034 stats0 world0
           {["prec" := 4096]} 4096 52000); try reflexivity; try done.
Defined.

End DownloadBulkMore.

(** ** procesar_ctd.py *)

Module ProcesarCtdMore.
Import ProcesarCtd ProcesarCtdSpec.

(** *** detectar_inicio_datos *)

Lemma buscar_cabecera_bounds (lines : list string) :
  forall i0 r, buscar_cabecera lines i0 = Some r ->
               i0 <= r < i0 + Z.of_nat (length lines).
Proof.
  induction lines as [|line rest IH]; intros i0 r; cbn [buscar_cabecera length]; [done|].
  destruct (cabecera_texto line); [intros [= <-]; lia|].
  destruct (cabecera_variables line rest); [intros [= <-]; lia|].
  intros H. apply IH in H. lia.
Qed.

Lemma buscar_datos_bounds (lines : list string) :
  forall i0 r, 0 <= i0 -> buscar_datos lines i0 = Some r ->
               0 <= r < i0 + Z.of_nat (length lines).
Proof.
  induction lines as [|line rest IH]; intros i0 r Hi0; cbn [buscar_datos length]; [done|].
  destruct (fila_datos line); [intros [= <-]; lia|].
  intros H. apply IH in H; lia.
Qed.

(** The index returned is -1 or the index of a line of the file; a file that
    cannot be read, and an empty one, give -1. *)
Theorem detectar_inicio_datos_bounds :
  (forall e, detectar_inicio_datos (Raised e) = -1)
  /\ detectar_inicio_datos (Returned []) = -1
  /\ (forall lines,
        detectar_inicio_datos (Returned lines) = -1
        \/ 0 <= detectar_inicio_datos (Returned lines) < Z.of_nat (length lines)).
Proof.
  split; [done|]. split; [done|]. intros lines. unfold detectar_inicio_datos.
  destruct (buscar_cabecera lines 0) as [r|] eqn:Hc.
  - right. apply buscar_cabecera_bounds in Hc. lia.
  - destruct (buscar_datos lines 0) as [r|] eqn:Hd; [|by left].
    right. apply buscar_datos_bounds in Hd; lia.
Qed.

Lemma es_fila_datos_cons_0 (line : string) (rest : list string) :
  es_fila_datos (line :: rest) 0 <-> fila_datos line = true.
Proof.
  unfold es_fila_datos. cbn. split.
  - by intros (l & [= <-] & H).
  - intros H. by exists line.
Qed.

(** The second loop returns the line before the first data row. *)
Lemma buscar_datos_first (lines : list string) :
  forall (i : nat) (i0 : Z),
    es_fila_datos lines i ->
    (forall j, (j < i)%nat -> ~ es_fila_datos lines j) ->
    buscar_datos lines i0 = Some (Z.max 0 (i0 + Z.of_nat i - 1)).
Proof.
  induction lines as [|line rest IH]; intros i i0 Hi Hfirst.
  - destruct Hi as (l & Hl & _). by rewrite lookup_nil in Hl.
  - cbn [buscar_datos]. destruct i as [|i].
    + apply es_fila_datos_cons_0 in Hi. rewrite Hi. do 2 f_equal. lia.
    + assert (H0 : ~ es_fila_datos (line :: rest) 0) by (apply Hfirst; lia).
      rewrite es_fila_datos_cons_0 in H0.
      destruct (fila_datos line); [done|].
      rewrite (IH i (i0 + 1)).
      * do 2 f_equal. lia.
      * by apply es_fila_datos_cons_S in Hi.
      * intros j Hj Hc. apply (Hfirst (S j)); [lia|]. by apply es_fila_datos_cons_S.
Qed.

(** Without any header line the heuristic falls back on the data: with the
    first data row in line [i] it answers [max(0, i - 1)], the line before
    it. *)
Theorem detectar_inicio_datos_fallback (lines : list string) (i : nat) :
  (forall j, ~ es_cabecera lines j) ->
  es_fila_datos lines i ->
  (forall j, (j < i)%nat -> ~ es_fila_datos lines j) ->
  detectar_inicio_datos (Returned lines) = Z.max 0 (Z.of_nat i - 1).
Proof.
  intros Hno Hi Hfirst. unfold detectar_inicio_datos.
  rewrite buscar_cabecera_none by done.
  by rewrite (buscar_datos_first lines i 0 Hi Hfirst).
Qed.

(** A file without header line is read from the line before its first data
    row when that row is line 2 or later; when the data start in line 0 or
    line 1 the deduced header is line 0 and the file is skipped. *)
Theorem procesar_archivo_ctd_headerless {DataFrame : Type}
    (leer : outcome (list string) -> Z -> option DataFrame)
    (lines : list string) (i : nat) :
  (forall j, ~ es_cabecera lines j) ->
  es_fila_datos lines i ->
  (forall j, (j < i)%nat -> ~ es_fila_datos lines j) ->
  procesar_archivo_ctd leer (Returned lines)
  = if (i <=? 1)%nat then None else leer (Returned lines) (Z.of_nat i - 1).
Proof.
  intros Hno Hi Hfirst. unfold procesar_archivo_ctd, detectar_inicio_datos.
  rewrite buscar_cabecera_none by done.
  rewrite (buscar_datos_first lines i 0 Hi Hfirst).
  destruct (Nat.leb_spec i 1).
  - by destruct (Z.leb_spec (Z.max 0 (0 + Z.of_nat i - 1)) 0); [|lia].
  - destruct (Z.leb_spec (Z.max 0 (0 + Z.of_nat i - 1)) 0); [lia|].
    f_equal. lia.
Qed.

Lemma detectar_inicio_datos_fallback_witness :
  detectar_inicio_datos (Returned datos_sin_cabecera) = Z.max 0 (Z.of_nat 2 - 1).
Proof.
  apply (detectar_inicio_datos_fallback datos_sin_cabecera 2).
  - intros j [(l & Hl & H)|(l & Hl & H)];
      (destruct j as [|[|[|[|j]]]]; cbn in Hl; [| | | |done];
       injection Hl as <-; vm_compute in H; discriminate).
  - exists "A0 12,5 35,1". split; reflexivity.
  - intros j Hj (l & Hl & H).
    destruct j as [|[|j]]; [| |lia]; cbn in Hl; injection Hl as <-;
      vm_compute in H; discriminate.
Defined.

Lemma procesar_archivo_ctd_headerless_witness :
  procesar_archivo_ctd (fun _ start_line => Some start_line)
    (Returned datos_en_linea_1)
  = if (1 <=? 1)%nat then None
    else (fun _ start_line => Some start_line) (Returned datos_en_linea_1)
           (Z.of_nat 1 - 1).
Proof.
  apply (procesar_archivo_ctd_headerless (fun _ start_line => Some start_line)
           datos_en_linea_1 1).
  - intros j [(l & Hl & H)|(l & Hl & H)];
      (destruct j as [|[|[|j]]]; cbn in Hl; [| | |done];
       injection Hl as <-; vm_compute in H; discriminate).
  - exists "A0 12,5 35,1". split; reflexivity.
  - intros j Hj (l & Hl & H).
    destruct j as [|j]; [|lia]. cbn in Hl. injection Hl as <-.
    vm_compute in H. discriminate.
Defined.

End ProcesarCtdMore.

(** ** 01_unificar_intecmar.py *)

Module UnificarIntecmarMore.
Import UnificarIntecmar UnificarIntecmarSpec.

(** *** normalizar_columnas *)

Lemma renombrar_other (anterior : option string) (col c : string)
    (m : gmap string string) :
  c <> col -> renombrar anterior col m !! c = m !! c.
Proof.
  intros Hne. unfold renombrar.
  repeat case_match; by rewrite ?lookup_insert_ne.
Qed.

Lemma mapear_other (cols : list string) :
  forall anterior m c, c ∉ cols -> mapear anterior cols m !! c = m !! c.
Proof.
  induction cols as [|col cols IH]; intros anterior m c Hc; [done|].
  apply not_elem_of_cons in Hc as [Hne Hc]. cbn [mapear].
  by rewrite IH, renombrar_other.
Qed.

Lemma renombrar_validacion (a v : string) (m : gmap string string) :
  es_validacion v = true -> a <> v -> m !! v = None ->
  renombrar (Some a) v m !! v = String.append "qc_" <$> m !! a.
Proof.
  unfold es_validacion, es_fecha, renombrar. intros [Hf Hv]%andb_true_iff Hne Hfree.
  apply negb_true_iff in Hf. rewrite Hf, Hv.
  destruct (m !! a) as [base|]; cbn; [by rewrite lookup_insert_eq|done].
Qed.

Lemma mapear_validacion (before : list string) (a v : string) (after : list string) :
  forall anterior m,
    NoDup (before ++ a :: v :: after) ->
    es_validacion v = true ->
    m !! v = None ->
    mapear anterior (before ++ a :: v :: after) m !! v
    = String.append "qc_" <$> mapear anterior (before ++ a :: v :: after) m !! a.
Proof.
  induction before as [|b before IH]; intros anterior m Hnd Hv Hfree.
  - cbn [app mapear] in *.
    apply NoDup_cons in Hnd as [Ha Hnd]. apply NoDup_cons in Hnd as [Hvafter _].
    apply not_elem_of_cons in Ha as [Hav Ha].
    rewrite !mapear_other by done.
    rewrite (renombrar_other (Some a) v a) by done.
    apply renombrar_validacion; [done|done|].
    rewrite renombrar_other; [done|congruence].
  - cbn [app mapear]. apply NoDup_cons in Hnd as [Hb Hnd].
    apply IH; [done|done|]. rewrite renombrar_other; [done|].
    intros ->. apply Hb. rewrite elem_of_app. right. right. by left.
Qed.

(** The validation flags are matched by position.  With labels that do not
    repeat, a validation column that follows a column renamed to [base] is
    renamed to [qc_base]; after a column that was not renamed, and in the
    first position, it keeps its label. *)
Theorem normalizar_columnas_qc_positional (cols : list string) (v : string) :
  NoDup cols ->
  es_validacion v = true ->
  (forall before a after,
      cols = before ++ a :: v :: after ->
      new_cols_de cols !! v = String.append "qc_" <$> new_cols_de cols !! a)
  /\ (forall after, cols = v :: after -> new_cols_de cols !! v = None).
Proof.
  intros Hnd Hv. unfold new_cols_de. split.
  - intros before a after ->. by apply mapear_validacion.
  - intros after ->. cbn [mapear]. apply NoDup_cons in Hnd as [Hvafter _].
    rewrite mapear_other by done.
    unfold es_validacion, es_fecha in Hv. apply andb_true_iff in Hv as [Hf Hq].
    apply negb_true_iff in Hf. unfold renombrar. by rewrite Hf, Hq.
Qed.

Lemma normalizar_columnas_qc_positional_witness :
  (forall before a after,
      ["Data"; "Salinidade 3 m"; "Validacion"] = before ++ a :: "Validacion" :: after ->
      new_cols_de ["Data"; "Salinidade 3 m"; "Validacion"] !! "Validacion"
      = String.append "qc_" <$> new_cols_de ["Data"; "Salinidade 3 m"; "Validacion"] !! a)
  /\ (forall after,
        ["Data"; "Salinidade 3 m"; "Validacion"] = "Validacion" :: after ->
        new_cols_de ["Data"; "Salinidade 3 m"; "Validacion"] !! "Validacion" = None).
Proof.
  apply (normalizar_columnas_qc_positional ["Data"; "Salinidade 3 m"; "Validacion"]
           "Validacion").
  - apply (bool_decide_unpack _). by vm_compute.
  - reflexivity.
Defined.

Example normalizar_columnas_labels :
  columns (normalizar_columnas
             (mkDF ["Data"; "Salinidade 3 m"; "Validacion"; "Validacion.1"; "Nivel"] []))
  = ["fecha_hora"; "salinidad_3m"; "qc_salinidad_3m"; "qc_qc_salinidad_3m"; "Nivel"].
Proof. vm_compute. reflexivity. Qed.

(** *** main and the order of the files *)

Lemma clave_le_antisym (k1 k2 : string * Z) :
  clave_le k1 k2 -> clave_le k2 k1 -> k1 = k2.
Proof.
  destruct k1 as [s1 t1], k2 as [s2 t2]. unfold clave_le, clave_leb. cbn [fst snd].
  rewrite (String.compare_antisym s2 s1).
  destruct (String.compare s1 s2) eqn:Hc; cbn; try done.
  apply String.compare_eq_iff in Hc. subst. rewrite !Z.leb_le. intros. f_equal. lia.
Qed.

Lemma NoDup_map_eq {A B : Type} (f : A -> B) (l : list A) (x y : A) :
  NoDup (List.map f l) -> In x l -> In y l -> f x = f y -> x = y.
Proof.
  induction l as [|a l IH]; [done|]. cbn. intros Hnd Hx Hy Heq.
  apply NoDup_cons in Hnd as [Ha Hnd]. rewrite list_elem_of_In in Ha.
  destruct Hx as [->|Hx], Hy as [->|Hy]; [done| | |by apply IH].
  - destruct Ha. rewrite Heq. by apply List.in_map.
  - destruct Ha. rewrite <- Heq. by apply List.in_map.
Qed.

Lemma quitar_duplicados_unique {K : Type} (same : list cell -> list cell -> bool)
    (k : list cell -> K) (P : list cell -> Prop) (l : list (list cell)) :
  (forall r1 r2, P r1 -> P r2 -> same r1 r2 = true <-> k r1 = k r2) ->
  Forall P l -> NoDup (List.map k l) -> quitar_duplicados same l = l.
Proof.
  intros Hsame. induction 1 as [|r0 l Hr0 Hl IH]; [done|]. cbn.
  intros [Hnew Hnd]%NoDup_cons.
  destruct (existsb (same r0) l) eqn:Hex; [|by rewrite IH].
  apply existsb_exists in Hex as (r1 & Hr1 & Hs).
  destruct Hnew. rewrite list_elem_of_In.
  rewrite List.Forall_forall in Hl.
  apply Hsame in Hs; [|done|by apply Hl]. rewrite Hs. by apply List.in_map.
Qed.

(** *** Expected columns that the file lacks *)

Lemma posiciones_In (name : string) (cols : list string) :
  forall i0 p, nth_error cols p = Some name -> In (i0 + p)%nat (posiciones name cols i0).
Proof.
  induction cols as [|c cols IH]; intros i0 [|p] Hp; cbn in Hp; try discriminate Hp.
  - injection Hp as ->. cbn. rewrite String.eqb_refl. left. lia.
  - cbn [posiciones]. replace (i0 + S p)%nat with (S i0 + p)%nat by lia.
    destruct (String.eqb c name); [right|]; by apply IH.
Qed.

Lemma asegurar_keeps (m : string) (p : nat) (df : DataFrame) (n : string) :
  nth_error (columns df) p = Some m ->
  Forall (fun r => List.nth p r CNA = CNA) (rows df) ->
  nth_error (columns (asegurar df n)) p = Some m
  /\ Forall (fun r => List.nth p r CNA = CNA) (rows (asegurar df n)).
Proof.
  intros Hp Hrows. unfold asegurar, asignar.
  destruct (tiene_columna n df); [done|]. cbn [columns rows]. split.
  - rewrite nth_error_app1; [done|]. apply nth_error_Some. congruence.
  - apply List.Forall_map. eapply Forall_impl; [exact Hrows|]. intros r Hr. cbn beta.
    destruct (Nat.lt_ge_cases p (length r)).
    + by rewrite app_nth1.
    + rewrite app_nth2 by done. by destruct (p - length r)%nat as [|[|k]].
Qed.

Lemma fold_asegurar_keeps (m : string) (p : nat) (names : list string) :
  forall df,
    nth_error (columns df) p = Some m ->
    Forall (fun r => List.nth p r CNA = CNA) (rows df) ->
    nth_error (columns (fold_left asegurar names df)) p = Some m
    /\ Forall (fun r => List.nth p r CNA = CNA) (rows (fold_left asegurar names df)).
Proof.
  induction names as [|n names IH]; intros df Hp Hrows; [done|].
  cbn [fold_left]. destruct (asegurar_keeps m p df n Hp Hrows). by apply IH.
Qed.

Lemma asegurar_rect (df : DataFrame) (n : string) :
  Forall (fun r => (length r <= length (columns df))%nat) (rows df) ->
  Forall (fun r => (length r <= length (columns (asegurar df n)))%nat)
         (rows (asegurar df n)).
Proof.
  intros Hrect. unfold asegurar, asignar.
  destruct (tiene_columna n df); [done|]. cbn [columns rows].
  apply List.Forall_map. eapply Forall_impl; [exact Hrect|]. intros r Hr. cbn beta in Hr |- *.
  rewrite !length_app. cbn [length]. lia.
Qed.

Lemma asegurar_crea (m : string) (df : DataFrame) :
  cuenta m (columns df) = 0%nat ->
  Forall (fun r => (length r <= length (columns df))%nat) (rows df) ->
  nth_error (columns (asegurar df m)) (length (columns df)) = Some m
  /\ Forall (fun r => List.nth (length (columns df)) r CNA = CNA) (rows (asegurar df m)).
Proof.
  intros Hz Hrect. unfold asegurar, asignar. rewrite tiene_columna_cuenta, Hz.
  cbn [Nat.eqb negb columns rows]. split.
  - rewrite nth_error_app2 by done. by rewrite Nat.sub_diag.
  - apply List.Forall_map. eapply Forall_impl; [exact Hrect|]. intros r Hr. cbn beta.
    rewrite app_nth2 by done. by destruct (length (columns df) - length r)%nat as [|[|k]].
Qed.

(** An expected column that the frame lacks is added by the loop as a column
    of missing values. *)
Lemma fold_asegurar_falta (m : string) (names : list string) :
  forall df,
    m ∈ names ->
    cuenta m (columns df) = 0%nat ->
    Forall (fun r => (length r <= length (columns df))%nat) (rows df) ->
    exists p,
      nth_error (columns (fold_left asegurar names df)) p = Some m
      /\ Forall (fun r => List.nth p r CNA = CNA) (rows (fold_left asegurar names df)).
Proof.
  induction names as [|n names IH]; intros df Hin Hz Hrect;
    [by apply elem_of_nil in Hin|].
  cbn [fold_left]. destruct (String.eqb_spec n m) as [->|Hne].
  - exists (length (columns df)).
    destruct (asegurar_crea m df Hz Hrect). by apply fold_asegurar_keeps.
  - apply elem_of_cons in Hin as [->|Hin]; [done|].
    apply IH; [done| |by apply asegurar_rect].
    rewrite cuenta_asegurar. by destruct (String.eqb_spec n m).
Qed.

Lemma indices_once (names cols : list string) :
  forall idx j m p,
    indices names cols = Returned idx ->
    Forall (fun n => cuenta n cols = 1%nat) names ->
    names !! j = Some m ->
    In p (posiciones m cols O) ->
    idx !! j = Some p.
Proof.
  induction names as [|name names IH]; intros idx j m p Hidx Honce Hj Hp; [done|].
  apply Forall_cons in Honce as [Hname Honce]. cbn [indices] in Hidx.
  rewrite <- (length_posiciones name cols O) in Hname.
  destruct (posiciones name cols O) as [|p0 [|p1 ps]] eqn:Hpos; try done.
  destruct (indices names cols) as [qs|e] eqn:Hqs; [|done].
  injection Hidx as <-. destruct j as [|j].
  - injection Hj as <-. rewrite Hpos in Hp. by destruct Hp as [->|[]].
  - cbn. by apply (IH qs j m p).
Qed.

Lemma nth_tomar {A : Type} (d : A) (idx : list nat) (l : list A) :
  forall j p, idx !! j = Some p -> List.nth j (tomar d idx l) d = List.nth p l d.
Proof.
  induction idx as [|i idx IH]; intros [|j] p Hj; try done.
  - by injection Hj as ->.
  - by apply IH.
Qed.

(** In the selection of the expected columns, the column of a label that the
    file lacks holds missing values only. *)
Lemma seleccionar_falta (df1 df5 : DataFrame) (m : string) (j : nat) :
  Forall (fun r => (length r <= length (columns df1))%nat) (rows df1) ->
  cuenta m (columns df1) = 0%nat ->
  COLUMNAS_ESPERADAS !! j = Some m ->
  Forall (fun n => cuenta n (columns (fold_left asegurar COLUMNAS_ESPERADAS df1)) = 1%nat)
         COLUMNAS_ESPERADAS ->
  seleccionar COLUMNAS_ESPERADAS (fold_left asegurar COLUMNAS_ESPERADAS df1) = Returned df5 ->
  Forall (fun r => List.nth j r CNA = CNA) (rows df5).
Proof.
  intros Hrect Hz Hj Honce. unfold seleccionar.
  set (df3 := fold_left asegurar COLUMNAS_ESPERADAS df1) in *.
  destruct (indices COLUMNAS_ESPERADAS (columns df3)) as [idx|e] eqn:Hidx; [|done].
  intros [= <-]. cbn [rows].
  destruct (fold_asegurar_falta m COLUMNAS_ESPERADAS df1) as (p & Hp & Hcells);
    [by eapply list_elem_of_lookup_2|done|done|].
  fold df3 in Hp, Hcells.
  assert (Hjp : idx !! j = Some p).
  { apply (indices_once COLUMNAS_ESPERADAS (columns df3) idx j m p); try done.
    by apply (posiciones_In m (columns df3) O p). }
  apply List.Forall_map. eapply Forall_impl; [exact Hcells|]. intros r Hr. cbn beta.
  by rewrite (nth_tomar CNA idx r j p Hjp).
Qed.

(** *** validar_rangos and its warnings *)

Lemma contar_invalidos_cero (min_val max_val : Z) (cells : list cell) :
  forall n,
    contar_invalidos min_val max_val cells = Returned n ->
    0 <= n
    /\ (n = 0 <-> Forall (fun c => fuera_de_rango min_val max_val c = Returned false) cells).
Proof.
  induction cells as [|c cells IH]; intros n; cbn [contar_invalidos].
  - intros [= <-]. split; [lia|]. split; [by constructor|done].
  - destruct (fuera_de_rango min_val max_val c) as [b|e] eqn:Hc; [|done].
    destruct (contar_invalidos min_val max_val cells) as [k|e]; [|done].
    intros [= <-]. destruct (IH k eq_refl) as [Hk Hiff]. destruct b.
    + split; [lia|]. split; [lia|]. intros HF. apply Forall_cons in HF as [HF _].
      by rewrite Hc in HF.
    + split; [done|]. rewrite Hiff. split.
      * intros HF. by constructor.
      * intros HF. by apply Forall_cons in HF as [_ HF].
Qed.

Lemma revisar_rangos_silent (rangos : list (string * (Z * Z))) (df : DataFrame) :
  forall avisos,
    revisar_rangos rangos df = Returned avisos ->
    (avisos = []
     <-> forall col min_val max_val cells,
           In (col, (min_val, max_val)) rangos ->
           columna col "ValueError" df = Returned cells ->
           Forall (fun c => fuera_de_rango min_val max_val c = Returned false) cells).
Proof.
  induction rangos as [|[col [min_val max_val]] rest IH]; intros avisos;
    cbn [revisar_rangos].
  - intros [= <-]. split; [by intros _ ? ? ? ? []|done].
  - destruct (tiene_columna col df) eqn:Htiene.
    + destruct (columna col "ValueError" df) as [cells|e] eqn:Hcol; [|done].
      destruct (contar_invalidos min_val max_val cells) as [n|e] eqn:Hn; [|done].
      destruct (revisar_rangos rest df) as [av|e] eqn:Hrest; [|done].
      intros [= <-]. specialize (IH av eq_refl).
      destruct (contar_invalidos_cero _ _ _ _ Hn) as [Hn0 Hniff].
      destruct (0 <? n) eqn:Hpos.
      * apply Z.ltb_lt in Hpos. split; [done|]. intros Hall.
        specialize (Hall col min_val max_val cells (or_introl eq_refl) Hcol).
        apply Hniff in Hall. lia.
      * apply Z.ltb_ge in Hpos. assert (n = 0) as Hz by lia. rewrite IH. split.
        -- intros Hall c mn mx cs [Heq|Hin] Hcs; [|by eapply Hall].
           injection Heq as <- <- <-. rewrite Hcol in Hcs. injection Hcs as <-.
           by apply Hniff.
        -- intros Hall c mn mx cs Hin. apply Hall. by right.
    + intros Hrest. rewrite (IH avisos Hrest). split.
      * intros Hall c mn mx cs [Heq|Hin] Hcs; [|by eapply Hall].
        injection Heq as <- <- <-. apply columna_cuenta in Hcs.
        rewrite tiene_columna_cuenta, Hcs in Htiene. done.
      * intros Hall c mn mx cs Hin. apply Hall. by right.
Qed.

(** [validar_rangos] logs no warning exactly when, in each column of
    [RANGOS_VALIDOS] that the frame has, every value is within the range or
    missing. *)
Theorem validar_rangos_silent_iff (df df' : DataFrame) (station_name : string)
    (avisos : list (string * Z)) :
  validar_rangos df station_name = Returned (df', avisos) ->
  (avisos = []
   <-> forall col min_val max_val cells,
         In (col, (min_val, max_val)) RANGOS_VALIDOS ->
         columna col "ValueError" df = Returned cells ->
         Forall (fun c => fuera_de_rango min_val max_val c = Returned false) cells).
Proof.
  unfold validar_rangos.
  destruct (revisar_rangos RANGOS_VALIDOS df) as [av|e] eqn:Hrev; [|done].
  intros [= <- <-]. by apply revisar_rangos_silent.
Qed.

Lemma validar_rangos_silent_iff_witness :
  [("temperatura_1_5m", 1)] = []
  <-> forall col min_val max_val cells,
        In (col, (min_val, max_val)) RANGOS_VALIDOS ->
        columna col "ValueError" frame_fuera_de_rango = Returned cells ->
        Forall (fun c => fuera_de_rango min_val max_val c = Returned false) cells.
Proof.
  apply (validar_rangos_silent_iff frame_fuera_de_rango frame_fuera_de_rango "ribeira"
           [("temperatura_1_5m", 1)]).
  reflexivity.
Defined.

(** *** Two columns taken for the date *)

Lemma mapear_fecha (cols : list string) :
  forall anterior m c,
    c ∈ cols -> es_fecha c = true -> mapear anterior cols m !! c = Some "fecha_hora".
Proof.
  induction cols as [|col cols IH]; intros anterior m c Hin Hf;
    [by apply elem_of_nil in Hin|].
  cbn [mapear]. destruct (decide (c ∈ cols)) as [Hc|Hc]; [by apply IH|].
  apply elem_of_cons in Hin as [->|Hin]; [|done].
  rewrite mapear_other by done. unfold renombrar. unfold es_fecha in Hf.
  by rewrite Hf, lookup_insert_eq.
Qed.

Lemma cuenta_fecha (g : string -> string) (l : list string) :
  (forall c, c ∈ l -> es_fecha c = true -> g c = "fecha_hora") ->
  (length (List.filter es_fecha l) <= cuenta "fecha_hora" (List.map g l))%nat.
Proof.
  unfold cuenta. induction l as [|a l IH]; intros Hg; [done|].
  assert (Hl : forall c, c ∈ l -> es_fecha c = true -> g c = "fecha_hora")
    by (intros c Hc; apply Hg; by right).
  specialize (IH Hl). cbn [List.filter List.map].
  destruct (es_fecha a) eqn:Ha.
  - rewrite (Hg a) by (done || by left). cbn. lia.
  - destruct (String.eqb (g a) "fecha_hora"); cbn; lia.
Qed.

Section ProcesarMore.
Variable read_csv : string -> outcome DataFrame.
Variable parse_float : string -> option float64.
Variable parse_datetime : cell -> option Z.

(** [procesar_archivo] returns a frame exactly when the file name holds a
    known station, [pd.read_csv] reads the file, and after the renaming no
    expected label is borne by two columns. *)
Theorem procesar_archivo_returns_iff (filepath : string) :
  is_Some (procesar_archivo read_csv parse_float parse_datetime filepath)
  <->
  is_Some (detectar_estacion (lower (basename filepath)))
  /\ exists df0,
       read_csv filepath = Returned df0
       /\ Forall (fun n => (cuenta n (etiquetas df0) <= 1)%nat) COLUMNAS_ESPERADAS.
Proof.
  split.
  - intros Hsome. unfold procesar_archivo, procesar_try in Hsome.
    destruct (detectar_estacion (lower (basename filepath)))
      as [[station_name [[lat lon] profundidades]]|];
      [|by destruct Hsome as [? [=]]].
    split; [done|]. unfold bind in Hsome.
    destruct (read_csv filepath) as [df0|e0]; [|by destruct Hsome as [? [=]]].
    exists df0. split; [done|].
    set (df3 := fold_left asegurar COLUMNAS_ESPERADAS _) in Hsome.
    assert (Hcount : forall m, In m COLUMNAS_ESPERADAS ->
              cuenta m (columns df3) = Nat.max 1 (cuenta m (etiquetas df0))).
    { intros m Hm. unfold df3. rewrite cuenta_fold_asegurar.
      rewrite bool_decide_eq_true_2; [done|]. by apply list_elem_of_In. }
    destruct (seleccionar COLUMNAS_ESPERADAS df3) as [df5|e5] eqn:Hsel;
      [|by destruct Hsome as [? [=]]].
    destruct (forzar_numericos parse_float _ df5) as [df6|e6] eqn:Hnum;
      [|by destruct Hsome as [? [=]]].
    destruct (columna "fecha_hora" "ValueError" df6) as [cells|e7] eqn:Hfecha;
      [|by destruct Hsome as [? [=]]].
    destruct (seleccionar_esperadas parse_float _ _ _ _ _ Hsel Hnum Hfecha)
      as [Hcols _].
    unfold seleccionar in Hsel.
    destruct (indices COLUMNAS_ESPERADAS (columns df3)) as [idx|e] eqn:Hidx; [|done].
    injection Hsel as <-. cbn [columns] in Hcols.
    destruct (indices_columns _ _ _ Hidx) as [Htake Hone].
    assert (Honce : Forall (fun n => cuenta n (columns df3) = 1%nat) COLUMNAS_ESPERADAS).
    { apply flat_map_repeat_length; [done|]. by rewrite <- Htake, Hcols. }
    rewrite List.Forall_forall in Honce |- *. intros m Hm.
    specialize (Honce m Hm). rewrite (Hcount m Hm) in Honce. lia.
  - intros ([[station_name [[lat lon] profundidades]] Hst] & df0 & Hread & Hmost).
    by apply (procesar_archivo_returns read_csv parse_float parse_datetime filepath
                station_name lat lon profundidades df0).
Qed.

Lemma rows_fold_asegurar (names : list string) :
  forall df, length (rows (fold_left asegurar names df)) = length (rows df).
Proof.
  induction names as [|n names IH]; intros df; [done|].
  cbn [fold_left]. rewrite IH. unfold asegurar, asignar.
  destruct (tiene_columna n df); [done|]. cbn. by rewrite List.length_map.
Qed.

(** [procesar_archivo] adds no row: the frame it returns has at most as many
    rows as [pd.read_csv] read, the rows without a readable date being
    dropped. *)
Theorem procesar_archivo_adds_no_row (filepath : string) (df0 df : DataFrame) :
  read_csv filepath = Returned df0 ->
  procesar_archivo read_csv parse_float parse_datetime filepath = Some df ->
  (length (rows df) <= length (rows df0))%nat.
Proof.
  intros Hread. unfold procesar_archivo, procesar_try.
  destruct (detectar_estacion (lower (basename filepath)))
    as [[station_name [[lat lon] profundidades]]|]; [|done].
  unfold bind. rewrite Hread.
  set (df3 := fold_left asegurar COLUMNAS_ESPERADAS _).
  assert (Hlen3 : length (rows df3) = length (rows df0))
    by (unfold df3; by rewrite rows_fold_asegurar).
  destruct (seleccionar COLUMNAS_ESPERADAS df3) as [df5|e5] eqn:Hsel; [|done].
  destruct (forzar_numericos parse_float _ df5) as [df6|e6] eqn:Hnum; [|done].
  destruct (columna "fecha_hora" "ValueError" df6) as [cells|e7] eqn:Hfecha; [|done].
  destruct (seleccionar_esperadas parse_float _ _ _ _ _ Hsel Hnum Hfecha)
    as [Hcols _].
  assert (Hlen5 : length (rows df5) = length (rows df3)).
  { unfold seleccionar in Hsel. destruct (indices _ _); [|done].
    injection Hsel as <-. cbn. by rewrite List.length_map. }
  apply forzar_numericos_spec in Hnum as [-> _].
  destruct df5 as [cols5 rows5]. cbn [columns rows] in Hcols, Hlen5. subst cols5.
  set (df8 := dropna _ _).
  destruct (validar_rangos df8 station_name) as [[df8' avisos]|e8] eqn:Hval; [|done].
  apply validar_rangos_returns_argument in Hval. subst df8'.
  subst df8. cbn -[to_numeric to_datetime].
  intros [= <-]. cbn [rows]. rewrite !List.length_map.
  etransitivity; [apply List.filter_length_le|].
  rewrite !List.length_map. lia.
Qed.

(** The frame that reaches the numeric loop, for a file that is processed. *)
Lemma procesar_archivo_pasos (filepath : string) (df0 df : DataFrame) :
  read_csv filepath = Returned df0 ->
  procesar_archivo read_csv parse_float parse_datetime filepath = Some df ->
  exists station_name lat lon rows5,
    let df1 := normalizar_columnas (mkDF (List.map strip (columns df0)) (rows df0)) in
    let df3 := fold_left asegurar COLUMNAS_ESPERADAS df1 in
    seleccionar COLUMNAS_ESPERADAS df3 = Returned (mkDF COLUMNAS_ESPERADAS rows5)
    /\ Forall (fun n => cuenta n (columns df3) = 1%nat) COLUMNAS_ESPERADAS
    /\ Forall (fun r => length r = 9%nat) rows5
    /\ seleccionar cols_ordenadas
         (asignar "lon" (CFloat (Fin lon))
            (asignar "lat" (CFloat (Fin lat))
               (asignar "estacion" (CStr station_name)
                  (antes_de_validar parse_float parse_datetime rows5))))
       = Returned df.
Proof.
  intros Hread. unfold procesar_archivo, procesar_try.
  destruct (detectar_estacion (lower (basename filepath)))
    as [[station_name [[lat lon] profundidades]]|]; [|done].
  unfold bind. rewrite Hread.
  set (df3 := fold_left asegurar COLUMNAS_ESPERADAS _).
  destruct (seleccionar COLUMNAS_ESPERADAS df3) as [df5|e5] eqn:Hsel; [|done].
  destruct (forzar_numericos parse_float _ df5) as [df6|e6] eqn:Hnum; [|done].
  destruct (columna "fecha_hora" "ValueError" df6) as [cells|e7] eqn:Hfecha; [|done].
  destruct (seleccionar_esperadas parse_float _ _ _ _ _ Hsel Hnum Hfecha)
    as [Hcols Hrows].
  assert (Honce : Forall (fun n => cuenta n (columns df3) = 1%nat) COLUMNAS_ESPERADAS).
  { unfold seleccionar in Hsel.
    destruct (indices COLUMNAS_ESPERADAS (columns df3)) as [idx|e] eqn:Hidx; [|done].
    injection Hsel as <-. cbn [columns] in Hcols.
    destruct (indices_columns _ _ _ Hidx) as [Htake Hone].
    apply flat_map_repeat_length; [done|]. by rewrite <- Htake, Hcols. }
  apply forzar_numericos_spec in Hnum as [-> _].
  destruct df5 as [cols5 rows5]. cbn [columns rows] in Hcols, Hrows. subst cols5.
  fold (antes_de_validar parse_float parse_datetime rows5).
  destruct (validar_rangos _ station_name) as [[df8' avisos]|e8] eqn:Hval; [|done].
  apply validar_rangos_returns_argument in Hval. subst df8'. cbn [fst].
  destruct (seleccionar cols_ordenadas _) as [df9|e9] eqn:Hfin; [|done].
  intros [= <-]. by exists station_name, lat, lon, rows5.
Qed.

(** An expected salinity, temperature or QC column that the file lacks is
    NaN in every row of the frame [procesar_archivo] returns. *)
Theorem procesar_archivo_missing_column (filepath : string) (df0 df : DataFrame)
    (m : string) :
  read_csv filepath = Returned df0 ->
  Forall (fun r => length r = length (columns df0)) (rows df0) ->
  procesar_archivo read_csv parse_float parse_datetime filepath = Some df ->
  m ∈ COLUMNAS_ESPERADAS ->
  m <> "fecha_hora" ->
  cuenta m (etiquetas df0) = 0%nat ->
  Forall (fun r => celda m (columns df) r = CFloat NaN) (rows df).
Proof.
  intros Hread Hrect Hrun Hm Hne Hz.
  destruct (procesar_archivo_pasos filepath df0 df Hread Hrun)
    as (station_name & lat & lon & rows5 & Hsel & Honce & Hrows & Hfin).
  cbn zeta in Hsel, Honce.
  assert (Hfalta : forall j, COLUMNAS_ESPERADAS !! j = Some m ->
            Forall (fun r => List.nth j r CNA = CNA) rows5).
  { intros j Hj.
    apply (seleccionar_falta
             (normalizar_columnas (mkDF (List.map strip (columns df0)) (rows df0)))
             (mkDF COLUMNAS_ESPERADAS rows5) m j); try done.
    cbn [columns rows normalizar_columnas]. rewrite !List.length_map.
    eapply Forall_impl; [exact Hrect|]. intros r Hr. cbn beta in Hr |- *. lia. }
  clear Hsel Honce Hread Hrun Hz.
  unfold antes_de_validar in Hfin. cbn -[to_numeric to_datetime] in Hfin.
  injection Hfin as <-. cbn [rows columns].
  apply List.Forall_forall. intros r Hin.
  repeat (apply List.in_map_iff in Hin as (? & <- & Hin)).
  apply List.filter_In in Hin as [Hin Hfecha].
  repeat (apply List.in_map_iff in Hin as (? & <- & Hin)).
  rewrite List.Forall_forall in Hrows. pose proof (Hrows _ Hin) as Hlen.
  assert (Hcell : forall j, COLUMNAS_ESPERADAS !! j = Some m ->
            List.nth j x CNA = CNA).
  { intros j Hj. specialize (Hfalta j Hj). rewrite List.Forall_forall in Hfalta.
    by apply Hfalta. }
  clear Hfalta Hrows Hin Hfecha.
  do 9 (destruct x as [|? x]; [discriminate Hlen|]).
  destruct x; [|discriminate Hlen].
  repeat (apply elem_of_cons in Hm as [->|Hm]); try (by apply elem_of_nil in Hm);
    try done;
    match goal with
    | |- context [celda ?name _ _] =>
        first [ pose proof (Hcell 1%nat eq_refl) as Hj
              | pose proof (Hcell 2%nat eq_refl) as Hj
              | pose proof (Hcell 3%nat eq_refl) as Hj
              | pose proof (Hcell 4%nat eq_refl) as Hj
              | pose proof (Hcell 5%nat eq_refl) as Hj
              | pose proof (Hcell 6%nat eq_refl) as Hj
              | pose proof (Hcell 7%nat eq_refl) as Hj
              | pose proof (Hcell 8%nat eq_refl) as Hj ]
    end;
    cbn in Hj; subst; reflexivity.
Qed.

(** A file without a date column is not refused: every row lacks a date and
    is dropped, and [procesar_archivo] returns a frame without rows. *)
Theorem procesar_archivo_no_date_column (filepath : string) (df0 df : DataFrame) :
  parse_datetime CNA = None ->
  read_csv filepath = Returned df0 ->
  Forall (fun r => length r = length (columns df0)) (rows df0) ->
  cuenta "fecha_hora" (etiquetas df0) = 0%nat ->
  procesar_archivo read_csv parse_float parse_datetime filepath = Some df ->
  rows df = [].
Proof.
  intros HNA Hread Hrect Hz Hrun.
  destruct (procesar_archivo_pasos filepath df0 df Hread Hrun)
    as (station_name & lat & lon & rows5 & Hsel & Honce & Hrows & Hfin).
  cbn zeta in Hsel, Honce.
  assert (Hfalta : Forall (fun r => List.nth 0 r CNA = CNA) rows5).
  { apply (seleccionar_falta
             (normalizar_columnas (mkDF (List.map strip (columns df0)) (rows df0)))
             (mkDF COLUMNAS_ESPERADAS rows5) "fecha_hora" 0); try done.
    cbn [columns rows normalizar_columnas]. rewrite !List.length_map.
    eapply Forall_impl; [exact Hrect|]. intros r Hr. cbn beta in Hr |- *. lia. }
  clear Hsel Honce Hread Hrun Hz.
  unfold antes_de_validar in Hfin. cbn -[to_numeric to_datetime] in Hfin.
  injection Hfin as <-. cbn [rows].
  match goal with |- ?l = [] => assert (Hnone : Forall (fun _ => False) l) end.
  { apply List.Forall_forall. intros r Hin.
    repeat (apply List.in_map_iff in Hin as (? & <- & Hin)).
    apply List.filter_In in Hin as [Hin Hfecha].
    repeat (apply List.in_map_iff in Hin as (? & <- & Hin)).
    rewrite List.Forall_forall in Hrows, Hfalta.
    pose proof (Hrows _ Hin) as Hlen. pose proof (Hfalta _ Hin) as H0.
    do 9 (destruct x as [|? x]; [discriminate Hlen|]).
    cbn in H0. subst. cbn -[to_numeric to_datetime] in Hfecha.
    unfold to_datetime in Hfecha. by rewrite HNA in Hfecha. }
  match goal with |- ?l = [] => destruct l as [|r l'] end; [done|].
  by apply Forall_cons in Hnone as [[] _].
Qed.

(** A file in which two columns are taken for the date (their labels hold
    "data" or "fecha") is refused: both are renamed to [fecha_hora] and the
    script fails on the doubled column. *)
Theorem procesar_archivo_two_date_columns (filepath : string) (df0 : DataFrame) :
  read_csv filepath = Returned df0 ->
  (2 <= length (List.filter es_fecha (List.map strip (columns df0))))%nat ->
  procesar_archivo read_csv parse_float parse_datetime filepath = None.
Proof.
  intros Hread Htwo.
  destruct (procesar_archivo read_csv parse_float parse_datetime filepath)
    as [df|] eqn:Hrun; [|done].
  exfalso.
  destruct (procesar_archivo_pasos filepath df0 df Hread Hrun)
    as (station_name & lat & lon & rows5 & _ & Honce & _).
  cbn zeta in Honce. apply Forall_cons in Honce as [Hfecha _].
  rewrite cuenta_fold_asegurar in Hfecha.
  rewrite bool_decide_eq_true_2 in Hfecha by (by left).
  pose proof (cuenta_fecha
                (fun c => default c (mapear None (List.map strip (columns df0)) ∅ !! c))
                (List.map strip (columns df0))) as Hcount.
  cbn [normalizar_columnas columns] in Hfecha.
  assert (2 <= cuenta "fecha_hora"
                 (List.map
                    (fun c => default c (mapear None (List.map strip (columns df0)) ∅ !! c))
                    (List.map strip (columns df0))))%nat as Hge.
  { etransitivity; [exact Htwo|]. apply Hcount. intros c Hc Hf.
    by rewrite (mapear_fecha _ None ∅ c Hc Hf). }
  lia.
Qed.

#[local] Existing Instance fila_le_dec.
#[local] Existing Instance fila_le_total.
#[local] Existing Instance fila_le_trans.

Lemma main_unfold (all_files : list string) :
  main read_csv parse_float parse_datetime all_files
  = match leer_todos read_csv parse_float parse_datetime all_files with
    | [] => None
    | dfs =>
        Some (mkDF cols_ordenadas
                (merge_sort (fila_le cols_ordenadas)
                   (quitar_duplicados
                      (misma_clave ["estacion"; "fecha_hora"] cols_ordenadas)
                      (flat_map rows dfs))))
    end.
Proof.
  unfold main. destruct all_files as [|f0 files]; [done|].
  set (dfs := leer_todos read_csv parse_float parse_datetime (f0 :: files)).
  assert (Hdfs : forall df, df ∈ dfs -> columns df = cols_ordenadas).
  { intros df Hdf. by apply (leer_todos_filas read_csv parse_float parse_datetime
                               (f0 :: files)). }
  destruct dfs as [|df0 dfs']; [done|].
  unfold sort_values, drop_duplicates, concat. cbn [columns rows].
  by rewrite (Hdfs df0) by (by left).
Qed.

(** When no pair of station and date occurs twice in the files, the table
    [main] writes does not depend on the order in which the files are
    listed. *)
Theorem main_order_independent (all_files all_files' : list string) :
  all_files ≡ₚ all_files' ->
  NoDup (List.map (clave cols_ordenadas)
           (flat_map rows (leer_todos read_csv parse_float parse_datetime all_files))) ->
  main read_csv parse_float parse_datetime all_files
  = main read_csv parse_float parse_datetime all_files'.
Proof.
  intros Hfiles Hnd. rewrite !main_unfold.
  set (dfs := leer_todos read_csv parse_float parse_datetime all_files) in *.
  set (dfs' := leer_todos read_csv parse_float parse_datetime all_files').
  assert (Hperm : dfs ≡ₚ dfs') by (unfold dfs, dfs', leer_todos; by rewrite Hfiles).
  assert (Hrows : forall l, (forall df, df ∈ l ->
                     columns df = cols_ordenadas /\ Forall fila_procesada (rows df)) ->
                   Forall fila_procesada (flat_map rows l)).
  { intros l Hl. apply List.Forall_flat_map, List.Forall_forall. intros df Hdf.
    apply Hl. by apply list_elem_of_In. }
  pose proof (Hrows dfs (leer_todos_filas read_csv parse_float parse_datetime all_files))
    as Hin.
  pose proof (Hrows dfs' (leer_todos_filas read_csv parse_float parse_datetime all_files'))
    as Hin'.
  assert (Hflat : flat_map rows dfs ≡ₚ flat_map rows dfs')
    by (by apply Permutation_flat_map).
  assert (Hnd' : NoDup (List.map (clave cols_ordenadas) (flat_map rows dfs'))).
  { pose proof (Permutation_map (clave cols_ordenadas) Hflat) as Hm.
    by rewrite <- Hm. }
  destruct dfs as [|df0 rest], dfs' as [|df0' rest'].
  - done.
  - by apply Permutation_nil_cons in Hperm.
  - symmetry in Hperm. by apply Permutation_nil_cons in Hperm.
  - do 2 f_equal.
    rewrite (quitar_duplicados_unique _ (clave cols_ordenadas) fila_procesada
               (flat_map rows (df0 :: rest)) misma_clave_procesadas Hin Hnd).
    rewrite (quitar_duplicados_unique _ (clave cols_ordenadas) fila_procesada
               (flat_map rows (df0' :: rest')) misma_clave_procesadas Hin' Hnd').
    apply (StronglySorted_unique_strong (fila_le cols_ordenadas)).
    + intros x1 x2 Hx1 Hx2 H12 H21.
      apply list_elem_of_In in Hx1, Hx2.
      eapply Permutation_in in Hx1; [|apply merge_sort_Permutation].
      eapply Permutation_in in Hx2; [|apply merge_sort_Permutation].
      eapply Permutation_in in Hx2; [|symmetry; exact Hflat].
      apply (NoDup_map_eq (clave cols_ordenadas) (flat_map rows (df0 :: rest)));
        try done.
      by apply clave_le_antisym.
    + apply (StronglySorted_merge_sort (fila_le cols_ordenadas)).
    + apply (StronglySorted_merge_sort (fila_le cols_ordenadas)).
    + by rewrite !merge_sort_Permutation.
Qed.

End ProcesarMore.

Lemma procesar_archivo_adds_no_row_witness :
  exists df,
    procesar_archivo leer_ejemplo parse_float_ejemplo parse_datetime_ejemplo
      "data/raw/c2/Ribeira_2021.csv" = Some df
    /\ (length (rows df) <= length (rows csv_ribeira))%nat.
Proof.
  eexists. split; [vm_compute; reflexivity|].
  apply (procesar_archivo_adds_no_row leer_ejemplo parse_float_ejemplo
           parse_datetime_ejemplo "data/raw/c2/Ribeira_2021.csv" csv_ribeira).
  - reflexivity.
  - vm_compute. reflexivity.
Defined.

Lemma procesar_archivo_missing_column_witness :
  exists df,
    procesar_archivo leer_ejemplo parse_float_ejemplo parse_datetime_ejemplo
      "data/raw/c2/Ribeira_2021.csv" = Some df
    /\ length (rows df) = 2%nat
    /\ Forall (fun r => celda "salinidad_3m" (columns df) r = CFloat NaN) (rows df).
Proof.
  eexists. split; [vm_compute; reflexivity|]. split; [reflexivity|].
  apply (procesar_archivo_missing_column leer_ejemplo parse_float_ejemplo
           parse_datetime_ejemplo "data/raw/c2/Ribeira_2021.csv" csv_ribeira _
           "salinidad_3m").
  - reflexivity.
  - repeat constructor.
  - vm_compute. reflexivity.
  - apply (bool_decide_unpack _). by vm_compute.
  - discriminate.
  - reflexivity.
Defined.

Lemma procesar_archivo_no_date_column_witness :
  exists df,
    procesar_archivo leer_sin_fecha parse_float_ejemplo parse_datetime_ejemplo
      "data/raw/c2/ribeira_sin_fecha.csv" = Some df
    /\ rows df = [].
Proof.
  eexists. split; [vm_compute; reflexivity|].
  apply (procesar_archivo_no_date_column leer_sin_fecha parse_float_ejemplo
           parse_datetime_ejemplo "data/raw/c2/ribeira_sin_fecha.csv" csv_sin_fecha).
  - reflexivity.
  - reflexivity.
  - repeat constructor.
  - reflexivity.
  - vm_compute. reflexivity.
Defined.

Lemma procesar_archivo_two_date_columns_witness :
  procesar_archivo leer_dos_fechas parse_float_ejemplo parse_datetime_ejemplo
    "data/raw/c2/ribeira_dos_fechas.csv" = None.
Proof.
  apply (procesar_archivo_two_date_columns leer_dos_fechas parse_float_ejemplo
           parse_datetime_ejemplo "data/raw/c2/ribeira_dos_fechas.csv" csv_dos_fechas).
  - reflexivity.
  - vm_compute. lia.
Defined.

Lemma main_order_independent_witness :
  main leer_ejemplo parse_float_ejemplo parse_datetime_ejemplo
    ["data/raw/c2/Ribeira_2021.csv"; "data/raw/c2/CORTEGADA.csv"]
  = main leer_ejemplo parse_float_ejemplo parse_datetime_ejemplo
      ["data/raw/c2/CORTEGADA.csv"; "data/raw/c2/Ribeira_2021.csv"].
Proof.
  apply (main_order_independent leer_ejemplo parse_float_ejemplo parse_datetime_ejemplo
           ["data/raw/c2/Ribeira_2021.csv"; "data/raw/c2/CORTEGADA.csv"]
           ["data/raw/c2/CORTEGADA.csv"; "data/raw/c2/Ribeira_2021.csv"]).
  - apply perm_swap.
  - apply (bool_decide_unpack _). by vm_compute.
Defined.

End UnificarIntecmarMore.
